(** * ef-coach-scale: streak tracker and focus-session proposer

    A shallow embedding of the decision logic of
    [src/clawd/skills/ef-coach-scale/streak-tracker.py] and
    [src/clawd/skills/ef-coach-scale/focus-session.py], and the properties
    of it that the specification states.

    Layout:
    - [Calendar]: the part of Python's [datetime.date] the code relies on
      (ordinals, [isoformat], [fromisoformat], day arithmetic);
    - [Py]: small pieces of Python semantics ([str] of an integer,
      [int] of a float, [str.replace], exceptions);
    - [Streak]: the habit store and [StreakTracker];
    - [Focus]: the calendar fetch, the gap finder and the proposer. *)

From Stdlib Require Import ZArith QArith Lia List String Ascii DecimalString.
From Stdlib Require Import Sorted.
From stdpp Require Import base option list gmap strings.

Local Open Scope Z_scope.

(* ===================================================================== *)
(** * Calendar dates *)
(* ===================================================================== *)

Module Calendar.

(** A [datetime.date] is identified with its proleptic Gregorian ordinal
    ([date.toordinal()]): day 1 is 0001-01-01.  Python defines comparison
    of dates, [date - date] and [date - timedelta] through the ordinal, so
    they become the order and the arithmetic of [Z]. *)
Definition date := Z.

Definition MINYEAR : Z := 1.
Definition MAXYEAR : Z := 9999.

Definition is_leap (year : Z) : bool :=
  (year mod 4 =? 0) && (negb (year mod 100 =? 0) || (year mod 400 =? 0)).

Definition days_before_year (year : Z) : Z :=
  let y := year - 1 in y * 365 + y / 4 - y / 100 + y / 400.

Definition DAYS_IN_MONTH (month : Z) : Z :=
  match month with
  | 1 => 31 | 2 => 28 | 3 => 31 | 4 => 30 | 5 => 31 | 6 => 30
  | 7 => 31 | 8 => 31 | 9 => 30 | 10 => 31 | 11 => 30 | 12 => 31
  | _ => -1
  end.

Definition DAYS_BEFORE_MONTH (month : Z) : Z :=
  match month with
  | 1 => 0 | 2 => 31 | 3 => 59 | 4 => 90 | 5 => 120 | 6 => 151
  | 7 => 181 | 8 => 212 | 9 => 243 | 10 => 273 | 11 => 304 | 12 => 334
  | _ => -1
  end.

Definition days_in_month (year month : Z) : Z :=
  if (month =? 2) && is_leap year then 29 else DAYS_IN_MONTH month.

Definition days_before_month (year month : Z) : Z :=
  DAYS_BEFORE_MONTH month + (if (2 <? month) && is_leap year then 1 else 0).

(** [year, month, day -> ordinal], with January 1 of year 1 as day 1. *)
Definition ymd2ord (year month day : Z) : Z :=
  days_before_year year + days_before_month year month + day.

Definition DI400Y : Z := 146097.
Definition DI100Y : Z := 36524.
Definition DI4Y : Z := 1461.

(** The month and the zero-based day of a zero-based day of the year. *)
Definition month_of_yday (leapyear : bool) (n : Z) : Z * Z :=
  let month := Z.shiftr (n + 50) 5 in
  let preceding :=
    DAYS_BEFORE_MONTH month + (if (2 <? month) && leapyear then 1 else 0) in
  if n <? preceding
  then
    let month' := month - 1 in
    let preceding' :=
      preceding
      - (DAYS_IN_MONTH month' + (if (month' =? 2) && leapyear then 1 else 0)) in
    (month', n - preceding')
  else (month, n - preceding).

(** [ordinal -> (year, month, day)]. *)
Definition ord2ymd (n : Z) : Z * Z * Z :=
  let n := n - 1 in
  let n400 := n / DI400Y in
  let n := n mod DI400Y in
  let year := n400 * 400 + 1 in
  let n100 := n / DI100Y in
  let n := n mod DI100Y in
  let n4 := n / DI4Y in
  let n := n mod DI4Y in
  let n1 := n / 365 in
  let n := n mod 365 in
  let year := year + n100 * 100 + n4 * 4 + n1 in
  if (n1 =? 4) || (n100 =? 4)
  then (year - 1, 12, 31)
  else
    let leapyear := (n1 =? 3) && (negb (n4 =? 24) || (n100 =? 3)) in
    let '(month, d) := month_of_yday leapyear n in
    (year, month, d + 1).

(** [date.min] and [date.max]. *)
Definition date_min : date := 1.
Definition date_max : date := 3652059.

Definition valid_date (d : date) : Prop := date_min <= d <= date_max.

(** The constructor [date(year, month, day)]: [None] stands for the
    [ValueError] of an out-of-range field. *)
Definition new_date (year month day : Z) : option date :=
  if (MINYEAR <=? year) && (year <=? MAXYEAR)
     && (1 <=? month) && (month <=? 12)
     && (1 <=? day) && (day <=? days_in_month year month)
  then Some (ymd2ord year month day)
  else None.

(** [date - timedelta(days=k)]: [None] stands for the [OverflowError]
    raised when the result leaves [date.min .. date.max]. *)
Definition sub_days (d : date) (k : Z) : option date :=
  let o := d - k in
  if (date_min <=? o) && (o <=? date_max) then Some o else None.

(** [(d1 - d2).days]. *)
Definition days_between (d1 d2 : date) : Z := d1 - d2.

(** ** Text form *)

Definition digit (n : Z) : ascii := ascii_of_nat (48 + Z.to_nat n).

Definition pad2 (n : Z) : string :=
  String (digit (n / 10)) (String (digit (n mod 10)) EmptyString).

Definition pad4 (n : Z) : string :=
  String (digit (n / 1000)) (String (digit (n / 100 mod 10)) (pad2 (n mod 100))).

(** [date.isoformat()]: ["%04d-%02d-%02d" % (year, month, day)]. *)
Definition isoformat (d : date) : string :=
  let '(year, month, day) := ord2ymd d in
  pad4 year +:+ "-" +:+ pad2 month +:+ "-" +:+ pad2 day.

Definition digit_value (c : ascii) : option Z :=
  let n := Z.of_nat (nat_of_ascii c) in
  if (48 <=? n) && (n <=? 57) then Some (n - 48) else None.

(** Reads exactly [k] decimal digits. *)
Fixpoint parse_digits (k : nat) (acc : Z) (s : string) : option (Z * string) :=
  match k with
  | O => Some (acc, s)
  | S k' =>
      match s with
      | EmptyString => None
      | String c s' =>
          match digit_value c with
          | Some v => parse_digits k' (acc * 10 + v) s'
          | None => None
          end
      end
  end.

Definition expect_dash (s : string) : option string :=
  match s with
  | String "-"%char s' => Some s'
  | _ => None
  end.

(** [date.fromisoformat(s)] for the format that [isoformat] writes,
    [YYYY-MM-DD]; [None] stands for [ValueError].  Python 3.11 and later
    read further ISO 8601 spellings of a date as well; this store never
    holds one, since every write goes through [isoformat].  The facts
    below need of the parser only that it inverts [isoformat] and that
    what it yields is a date. *)
Definition fromisoformat (s : string) : option date :=
  if negb (Nat.eqb (String.length s) 10) then None
  else
    '(year, s) ← parse_digits 4 0 s;
    s ← expect_dash s;
    '(month, s) ← parse_digits 2 0 s;
    s ← expect_dash s;
    '(day, _) ← parse_digits 2 0 s;
    new_date year month day.

(** A length that no spelling of a date has.  [date.fromisoformat]
    raises [ValueError] at once for a text that is not 10 bytes long and,
    from Python 3.11 on, where it also reads [YYYYMMDD] and the week
    spellings, for one that is not 7, 8 or 10 bytes long: a text of
    another length is rejected by every version. *)
Definition no_date_length (s : string) : bool :=
  let n := String.length s in
  negb (Nat.eqb n 7 || Nat.eqb n 8 || Nat.eqb n 10).

Definition leap_extra (b : bool) : Z := if b then 1 else 0.

(** The check that [month_of_yday] splits day [n] of a year correctly;
    the proofs run it over the days of a year. *)
Definition yday_ok (leapyear : bool) (n : Z) : bool :=
  let '(m, d) := month_of_yday leapyear n in
  (1 <=? m) && (m <=? 12) && (0 <=? d)
  && (d <? DAYS_IN_MONTH m + leap_extra ((m =? 2) && leapyear))
  && (DAYS_BEFORE_MONTH m + leap_extra ((2 <? m) && leapyear) + d =? n).

End Calendar.

(* ===================================================================== *)
(** * Python values and exceptions *)
(* ===================================================================== *)

Module Py.

(** The exceptions that the modelled code can meet. *)
Inductive exn : Type :=
  | ValueError | TypeError | AttributeError | OverflowError
  | TimeoutExpired | OSError.

(** A computation returns a value or raises. *)
Inductive result (A : Type) : Type :=
  | Ok (a : A)
  | Raise (e : exn).
Arguments Ok {A} a.
Arguments Raise {A} e.

#[global] Instance result_ret : MRet result := fun A a => Ok a.
#[global] Instance result_bind : MBind result :=
  fun A B f m => match m with Ok a => f a | Raise e => Raise e end.

Definition or_raise {A : Type} (e : exn) (o : option A) : result A :=
  match o with Some a => Ok a | None => Raise e end.

(** [str(z)] and the [{z}] of an f-string, for an integer. *)
Definition str_int (z : Z) : string := NilZero.string_of_int (Z.to_int z).

(** [int(x)] for a finite float [x]: every finite float is a rational
    number, and [int] drops its fractional part (rounds toward zero). *)
Definition int_of_float (x : Q) : Z := Z.quot (Qnum x) (Zpos (Qden x)).

(** [x >= n] for a float [x] and an integer [n]; Python compares the two
    exactly. *)
Definition float_ge_int (x : Q) (n : Z) : bool := Qle_bool (inject_Z n) x.

(** Truth value of a text or [None]. *)
Definition truthy (o : option string) : bool :=
  match o with
  | None => false
  | Some s => negb (String.eqb s "")
  end.

(** The integers that [sqlite3] binds to a [?] of a statement: those of
    64 bits with sign, SQLite's INTEGER.  Binding any other [int] raises
    [OverflowError], which no handler of the modelled code catches; the
    tables hold no such id, and the facts about an id that a table does
    not hold, or about a number passed on to a statement, are stated for
    integers that can be bound. *)
Definition sqlite_int (n : Z) : bool := (- 2 ^ 63 <=? n) && (n <? 2 ^ 63).

(** [o == s] for a text-or-[None] [o] and a text [s]. *)
Definition eq_text (o : option string) (s : string) : bool :=
  match o with
  | None => false
  | Some s' => String.eqb s' s
  end.

End Py.

(* ===================================================================== *)
(** * The streak tracker *)
(* ===================================================================== *)

(** The store is an in-memory image of tables [habits] and [habit_log].
    Its statements are taken to succeed: a failing store ([sqlite3.Error])
    is outside the model.  [date.today()] is a parameter [today] of every
    operation. *)

Module Streak.
Import Calendar Py.

(** A row of table [habits], keyed by its [id] in the store.
    [last_completed] is a text column: [None] is SQL [NULL]. *)
Record habit : Type := mk_habit {
  name : string;
  description : string;
  streak_count : Z;
  last_completed : option string;
  goal_frequency : string;
  active : Z
}.

(** A row of table [habit_log] as [complete_habit] inserts it (the store
    fills the timestamp column itself). *)
Record habit_log_row : Type := mk_log {
  habit_id : Z;
  notes : string
}.

Record store : Type := mk_store {
  habits : gmap Z habit;
  habit_log : list habit_log_row
}.

(** [INSERT INTO habit_log (habit_id, notes) VALUES (?, ?)] *)
Definition insert_log (id : Z) (n : string) (db : store) : store :=
  mk_store (habits db) (habit_log db ++ [mk_log id n]).

(** [UPDATE habits SET ... WHERE id = ?] *)
Definition update_habit_row (f : habit -> habit) (id : Z) (db : store) : store :=
  mk_store (alter f id (habits db)) (habit_log db).

(** [SET streak_count = streak_count + 1, last_completed = ?] *)
Definition set_continue (t : string) (h : habit) : habit :=
  mk_habit (name h) (description h) (streak_count h + 1) (Some t)
           (goal_frequency h) (active h).

(** [SET streak_count = 1, last_completed = ?] *)
Definition set_restart (t : string) (h : habit) : habit :=
  mk_habit (name h) (description h) 1 (Some t) (goal_frequency h) (active h).

(** [SET last_completed = ?] *)
Definition set_last_completed (t : string) (h : habit) : habit :=
  mk_habit (name h) (description h) (streak_count h) (Some t)
           (goal_frequency h) (active h).

(** What a call leaves behind: the value returned or the exception that
    escapes, the lines printed, and the committed store. *)
Record outcome (A : Type) : Type := mk_outcome {
  returned : result A;
  printed : list string;
  committed : store
}.
Arguments mk_outcome {A} _ _ _.
Arguments returned {A} _.
Arguments printed {A} _.
Arguments committed {A} _.

(** The statements of [complete_habit] after the log insert: the streak
    update, run on the open transaction [tx]. *)
Definition update_streak (today : date) (goal_frequency : string)
    (last_completed : option string) (habit_id : Z) (tx : store) : result store :=
  if String.eqb goal_frequency "daily" then
    if truthy last_completed then
      last_date ← or_raise ValueError (last_completed ≫= fromisoformat);
      yesterday ← or_raise OverflowError (sub_days today 1);
      if last_date =? yesterday then
        (* Streak continues *)
        Ok (update_habit_row (set_continue (isoformat today)) habit_id tx)
      else
        yesterday ← or_raise OverflowError (sub_days today 1);
        if last_date <? yesterday then
          (* Streak reset *)
          Ok (update_habit_row (set_restart (isoformat today)) habit_id tx)
        else Ok tx
    else
      (* First completion *)
      Ok (update_habit_row (set_restart (isoformat today)) habit_id tx)
  else if String.eqb goal_frequency "weekly" then
    Ok (update_habit_row (set_last_completed (isoformat today)) habit_id tx)
  else if String.eqb goal_frequency "monthly" then
    Ok (update_habit_row (set_last_completed (isoformat today)) habit_id tx)
  else Ok tx.

(** [StreakTracker.complete_habit], with [today] for [date.today()].
    The insert and the update belong to one transaction: an exception
    that escapes before [commit] leaves the committed store as it was. *)
Definition complete_habit (db : store) (today : date) (habit_id : Z)
    (notes : string) : outcome bool :=
  match habits db !! habit_id with
  | None =>
      mk_outcome (Ok false)
        ["Habit " +:+ str_int habit_id +:+ " not found"] db
  | Some row =>
      let goal_frequency := goal_frequency row in
      let last_completed := last_completed row in
      (* Check if already completed today (for daily habits) *)
      if String.eqb goal_frequency "daily"
         && eq_text last_completed (isoformat today)
      then mk_outcome (Ok false) ["Habit already completed today"] db
      else
        (* Log the completion *)
        let tx := insert_log habit_id notes db in
        (* Update streak count and last_completed *)
        match update_streak today goal_frequency last_completed habit_id tx with
        | Ok tx' => mk_outcome (Ok true) [] tx'
        | Raise e => mk_outcome (Raise e) [] db
        end
  end.

(** A run of completion calls on the same day, one per note. *)
Fixpoint complete_each (db : store) (today : date) (habit_id : Z)
    (notes : list string) : list (result bool) * store :=
  match notes with
  | [] => ([], db)
  | n :: rest =>
      let o := complete_habit db today habit_id n in
      let '(rs, db') := complete_each (committed o) today habit_id rest in
      (returned o :: rs, db')
  end.

(** [days_since] as [get_habit_status] and [get_habit_reminders] compute
    it: [None] when there is no last completion. *)
Definition days_since_completion (today : date)
    (last_completed : option string) : result (option Z) :=
  if truthy last_completed then
    last_date ← or_raise ValueError (last_completed ≫= fromisoformat);
    Ok (Some (days_between today last_date))
  else Ok None.

(** The message of a reminder. *)
Definition reminder_message (name : string) (streak : Z)
    (days_since : option Z) : string :=
  match days_since with
  | None =>
      (* First time - encouraging *)
      "Ready to start '" +:+ name +:+ "'? First step is the hardest!"
  | Some days_since =>
      if days_since =? 1 then
        if 1 <? streak then
          "'" +:+ name +:+ "' - keep that " +:+ str_int streak
              +:+ "-day streak going! 🔥"
        else "Time for '" +:+ name +:+ "' - you've got this!"
      else if days_since =? 2 then
        (* Missed one day - gentle, no shame *)
        "'" +:+ name +:+ "' - no worries, just pick it back up when ready."
      else if days_since <=? 7 then
        (* Missed a few days - still gentle *)
        "'" +:+ name +:+ "' - when you're ready to jump back in."
      else
        (* Longer break - very gentle *)
        "'" +:+ name +:+ "' - waiting for you when inspiration strikes."
  end.

Record reminder : Type := mk_reminder {
  r_habit_id : Z;
  r_name : string;
  r_streak_count : Z;
  r_days_since : option Z;
  r_message : string
}.

(** The body of the loop of [get_habit_reminders] for one selected row:
    [None] when the row is skipped. *)
Definition reminder_of_row (today : date) (r : Z * habit) : result (option reminder) :=
  let '(habit_id, h) := r in
  let name := name h in
  let streak := streak_count h in
  let last_completed := last_completed h in
  (* Check if completed today *)
  if eq_text last_completed (isoformat today) then Ok None
  else
    days_since ← days_since_completion today last_completed;
    Ok (Some (mk_reminder habit_id name streak days_since
                (reminder_message name streak days_since))).

(** [WHERE active = 1 AND goal_frequency = 'daily'] *)
Definition active_daily (r : Z * habit) : bool :=
  (active r.2 =? 1) && String.eqb (goal_frequency r.2) "daily".

Fixpoint collect_reminders (today : date) (rows : list (Z * habit))
    (reminders : list reminder) : result (list reminder) :=
  match rows with
  | [] => Ok reminders
  | r :: rest =>
      o ← reminder_of_row today r;
      collect_reminders today rest
        (match o with Some x => reminders ++ [x] | None => reminders end)
  end.

(** [StreakTracker.get_habit_reminders]; the rows come in the order of
    the store. *)
Definition get_habit_reminders (db : store) (today : date) : result (list reminder) :=
  collect_reminders today
    (List.filter active_daily (map_to_list (habits db))) [].

(** ** Status, updates and commands *)

(** The dictionary that [get_habit_status] returns. *)
Record habit_status : Type := mk_status {
  st_id : Z;
  st_name : string;
  st_description : string;
  st_streak_count : Z;
  st_last_completed : option string;
  st_goal_frequency : string;
  st_active : Z;
  st_days_since_completion : option Z
}.

(** [StreakTracker.get_habit_status]: [Ok None] when there is no such
    habit. *)
Definition get_habit_status (db : store) (today : date) (habit_id : Z)
    : result (option habit_status) :=
  match habits db !! habit_id with
  | None => Ok None
  | Some row =>
      (* Calculate additional info *)
      let last_completed := last_completed row in
      days_since ← days_since_completion today last_completed;
      Ok (Some (mk_status habit_id (name row) (description row)
                  (streak_count row) last_completed (goal_frequency row)
                  (active row) days_since))
  end.

(** The assignments that [update_habit] collects, applied to a row. *)
Definition apply_updates (name description : option string)
    (active : option bool) (goal_frequency : option string) (h : habit) : habit :=
  mk_habit (default (Streak.name h) name)
           (default (Streak.description h) description)
           (streak_count h)
           (last_completed h)
           (default (Streak.goal_frequency h) goal_frequency)
           (match active with
            | Some b => if b then 1 else 0
            | None => Streak.active h
            end).

Section Schema.

(** The schema of table [habits] is not part of the source.  Its verdict
    on the table that an [UPDATE] would leave is a parameter: [None] when
    the constraints hold, the text of the [sqlite3.Error] otherwise. *)
Variable constraint_error : gmap Z habit -> option string.

(** [StreakTracker.update_habit]. *)
Definition update_habit (db : store) (habit_id : Z)
    (name description : option string) (active : option bool)
    (goal_frequency : option string) : outcome bool :=
  match name, description, active, goal_frequency with
  | None, None, None, None =>
      mk_outcome (Ok false) ["No updates specified"] db
  | _, _, _, _ =>
      let tx :=
        update_habit_row (apply_updates name description active goal_frequency)
          habit_id db in
      match constraint_error (habits tx) with
      | None => mk_outcome (Ok true) [] tx
      | Some e => mk_outcome (Ok false) ["Error updating habit: " +:+ e] db
      end
  end.

End Schema.

(** [x or 'alt'] for a text [x] inside an f-string. *)
Definition text_or (x : option string) (alt : string) : string :=
  if truthy x then default "" x else alt.

(** The lines that the [status] command prints. *)
Definition command_status (db : store) (today : date) (habit_id : Z)
    : result (list string) :=
  status ← get_habit_status db today habit_id;
  match status with
  | None => Ok []
  | Some st =>
      Ok [String "010"%char ("=== " +:+ st_name st +:+ " ===");
          "Description: " +:+ text_or (Some (st_description st)) "None";
          "Streak: " +:+ str_int (st_streak_count st) +:+ " days";
          "Frequency: " +:+ st_goal_frequency st;
          "Last completed: " +:+ text_or (st_last_completed st) "Never";
          "Days since: "
            +:+ match st_days_since_completion st with
                | None => "Never"
                | Some d => if d =? 0 then "Never" else str_int d
                end;
          "Active: " +:+ str_int (st_active st)]
  end.

(** The [complete] command: [complete_habit], then on success the line
    with the streak that [get_habit_status] reports. *)
Definition command_complete (db : store) (today : date) (habit_id : Z)
    (notes : string) : outcome unit :=
  let o := complete_habit db today habit_id notes in
  match returned o with
  | Ok true =>
      match get_habit_status (committed o) today habit_id with
      | Ok (Some st) =>
          mk_outcome (Ok tt)
            (printed o
             ++ ["✓ '" +:+ st_name st +:+ "' completed! Streak: "
                   +:+ str_int (st_streak_count st) +:+ " 🔥"])
            (committed o)
      | Ok None => mk_outcome (Raise TypeError) (printed o) (committed o)
      | Raise e => mk_outcome (Raise e) (printed o) (committed o)
      end
  | Ok false => mk_outcome (Ok tt) (printed o) (committed o)
  | Raise e => mk_outcome (Raise e) (printed o) (committed o)
  end.

(** One completion a day with empty notes, on [k] days from [first] on. *)
Fixpoint complete_daily (db : store) (first : date) (habit_id : Z) (k : nat)
    : store :=
  match k with
  | O => db
  | S k' =>
      complete_daily (committed (complete_habit db first habit_id ""))
        (first + 1) habit_id k'
  end.

End Streak.

(* ===================================================================== *)
(** * The focus-session manager *)
(* ===================================================================== *)

(** The provider call and the clock are parameters: [run] is what
    [subprocess.run] left, [now] is [datetime.now()]. *)

Module Focus.
Import Calendar Py.

(** A naive [datetime]: microseconds since 0001-01-01T00:00:00. *)
Definition datetime := Z.

Definition US_PER_SECOND : Z := 1000000.
Definition US_PER_MINUTE : Z := 60 * US_PER_SECOND.
Definition US_PER_HOUR : Z := 60 * US_PER_MINUTE.
Definition US_PER_DAY : Z := 24 * US_PER_HOUR.

(** [datetime.max], 9999-12-31T23:59:59.999999. *)
Definition datetime_max : datetime := date_max * US_PER_DAY - 1.

(** [t + timedelta(hours=h)]. *)
Definition add_hours (t : datetime) (h : Z) : result datetime :=
  let t' := t + h * US_PER_HOUR in
  if (0 <=? t') && (t' <=? datetime_max) then Ok t' else Raise OverflowError.

(** [(t1 - t2).total_seconds() / 60].  The quotient is kept exact, in
    lowest terms; the source computes it in binary floating point, which
    for the gaps of a calendar agrees with it on every comparison with an
    integer and on the integer part. *)
Definition minutes_between (t1 t2 : datetime) : Q :=
  Qred (Qmake (t1 - t2) (Z.to_pos US_PER_MINUTE)).

Definition pad6 (n : Z) : string := pad4 (n / 100) +:+ pad2 (n mod 100).

(** [t.isoformat()] for a naive [datetime]. *)
Definition datetime_isoformat (t : datetime) : string :=
  let us := t mod US_PER_SECOND in
  let s := t / US_PER_SECOND in
  isoformat (t / US_PER_DAY + 1) +:+ "T"
    +:+ pad2 (s / 3600 mod 24) +:+ ":" +:+ pad2 (s / 60 mod 60) +:+ ":"
    +:+ pad2 (s mod 60)
    +:+ (if us =? 0 then "" else "." +:+ pad6 us).

(** What [datetime.fromisoformat] yields: a naive value, or an aware one
    with its offset from UTC. *)
Inductive parsed_datetime : Type :=
  | Naive (t : datetime)
  | Aware (t : datetime) (utcoffset : Z).

(** Comparing with a naive [datetime]: an aware operand is a [TypeError]. *)
Definition naive_of (p : parsed_datetime) : result datetime :=
  match p with
  | Naive t => Ok t
  | Aware _ _ => Raise TypeError
  end.

Definition parsed_add_hours (p : parsed_datetime) (h : Z) : result parsed_datetime :=
  match p with
  | Naive t => t' ← add_hours t h; Ok (Naive t')
  | Aware t off => t' ← add_hours t h; Ok (Aware t' off)
  end.

(** A decoded JSON document. *)
#[local] Set Warnings "-register-all".
Inductive json : Type :=
  | JNull
  | JBool (b : bool)
  | JNumber (x : Q)
  | JString (s : string)
  | JArray (items : list json)
  | JObject (members : list (string * json)).

(** [d[key]] of a decoded object: of two members with one key the later
    one counts. *)
Fixpoint member (key : string) (members : list (string * json)) : option json :=
  match members with
  | [] => None
  | (k, v) :: rest =>
      match member key rest with
      | Some v' => Some v'
      | None => if String.eqb k key then Some v else None
      end
  end.

(** [v.get(key, default)]: only a [dict] has [get]. *)
Definition get (v : json) (key : string) (dflt : json) : result json :=
  match v with
  | JObject members => Ok (default dflt (member key members))
  | _ => Raise AttributeError
  end.

(** Truth value of a decoded JSON value. *)
Definition json_truthy (v : json) : bool :=
  match v with
  | JNull => false
  | JBool b => b
  | JNumber x => negb (Qeq_bool x 0)
  | JString s => negb (String.eqb s "")
  | JArray items => negb (Nat.eqb (List.length items) 0)
  | JObject members => negb (Nat.eqb (List.length members) 0)
  end.

Fixpoint chars (s : string) : list json :=
  match s with
  | EmptyString => []
  | String c s' => JString (String c EmptyString) :: chars s'
  end.

Fixpoint keys (members : list (string * json)) : list json :=
  match members with
  | [] => []
  | (k, _) :: rest =>
      match member k rest with
      | Some _ => keys rest
      | None => JString k :: keys rest
      end
  end.

(** What [for event in v] walks over. *)
Definition iterate (v : json) : result (list json) :=
  match v with
  | JArray items => Ok items
  | JObject members => Ok (keys members)
  | JString s => Ok (chars s)
  | _ => Raise TypeError
  end.

(** [s.replace(old, new)] for a one-character [old]. *)
Fixpoint replace_char (old : ascii) (new : string) (s : string) : string :=
  match s with
  | EmptyString => EmptyString
  | String c s' =>
      if Ascii.eqb c old then new +:+ replace_char old new s'
      else String c (replace_char old new s')
  end.

(** [v.replace("Z", "+00:00")]: only a [str] has [replace]. *)
Definition replace_Z (v : json) : result string :=
  match v with
  | JString s => Ok (replace_char "Z"%char "+00:00" s)
  | _ => Raise AttributeError
  end.

(** An entry of the list that [get_calendar_events] returns. *)
Record event : Type := mk_event {
  ev_start : datetime;
  ev_end : datetime;
  ev_summary : json;
  ev_description : json
}.

(** [sorted(events, key=lambda x: x["start"])]: stable. *)
Fixpoint insert_by_start (e : event) (l : list event) : list event :=
  match l with
  | [] => [e]
  | x :: rest =>
      if ev_start e <=? ev_start x then e :: l
      else x :: insert_by_start e rest
  end.

Definition sorted_by_start (l : list event) : list event :=
  List.fold_right insert_by_start [] l.

(** What [subprocess.run] of the provider command leaves: a completed
    process, or an exception ([TimeoutExpired] after 30 seconds, [OSError]
    when the program cannot be started). *)
Inductive run_result : Type :=
  | Completed (returncode : Z) (stdout : string)
  | RunRaised (e : exn).

Section Provider.

(** [json.loads]: [None] stands for [JSONDecodeError], a [ValueError]. *)
Variable json_loads : string -> option json.

(** [datetime.fromisoformat]: [None] stands for [ValueError]. *)
Variable datetime_fromisoformat : string -> option parsed_datetime.

(** The [try] block inside the loop, for one item with a true
    [start_str]: the event to append, if any. *)
Definition event_of_item (now future : datetime) (item start_str end_str : json)
    : result (option event) :=
  s ← replace_Z start_str;
  start ← or_raise ValueError (datetime_fromisoformat s);
  end_ ←
    (if json_truthy end_str then
       s ← replace_Z end_str;
       or_raise ValueError (datetime_fromisoformat s)
     else parsed_add_hours start 1);
  start_naive ← naive_of start;
  if start_naive <=? future then
    end_naive ← naive_of end_;
    if now <? end_naive then
      summary ← get item "summary" (JString "No title");
      description ← get item "description" (JString "");
      Ok (Some (mk_event start_naive end_naive summary description))
    else Ok None
  else Ok None.

Fixpoint filter_events (now future : datetime) (items : list json)
    (filtered_events : list event) : result (list event) :=
  match items with
  | [] => Ok filtered_events
  | item :: rest =>
      start_obj ← get item "start" (JObject []);
      start_str ← get start_obj "dateTime" (JString "");
      end_obj ← get item "end" (JObject []);
      end_str ← get end_obj "dateTime" (JString "");
      if negb (json_truthy start_str) then
        filter_events now future rest filtered_events
      else
        match event_of_item now future item start_str end_str with
        | Ok (Some e) => filter_events now future rest (filtered_events ++ [e])
        | Ok None => filter_events now future rest filtered_events
        | Raise ValueError | Raise TypeError =>
            filter_events now future rest filtered_events
        | Raise e => Raise e
        end
  end.

(** The body of the outer [try] of [get_calendar_events]. *)
Definition fetch_events (run : run_result) (now : datetime) (hours_ahead : Z)
    : result (list event) :=
  match run with
  | RunRaised e => Raise e
  | Completed returncode stdout =>
      if negb (returncode =? 0) then Ok []
      else
        events ← or_raise ValueError (json_loads stdout);
        future ← add_hours now hours_ahead;
        items_v ← get events "items" (JArray []);
        items ← iterate items_v;
        filtered_events ← filter_events now future items [];
        Ok (sorted_by_start filtered_events)
  end.

(** The faults of the provider call that the specification names: a
    non-zero exit status, a timeout, a response that does not parse. *)
Inductive provider_fault : run_result -> Prop :=
  | fault_exit_status (returncode : Z) (stdout : string) :
      returncode <> 0 -> provider_fault (Completed returncode stdout)
  | fault_timeout : provider_fault (RunRaised TimeoutExpired)
  | fault_parse (stdout : string) :
      json_loads stdout = None -> provider_fault (Completed 0 stdout).

(** [FocusSession.get_calendar_events]: [except Exception] turns every
    exception into the empty list. *)
Definition get_calendar_events (run : run_result) (now : datetime)
    (hours_ahead : Z) : list event :=
  match fetch_events run now hours_ahead with
  | Ok events => events
  | Raise _ => []
  end.

End Provider.

(** Busy intervals in ascending order of start, each with its start
    before its end: what the specification takes the input to be. *)
Fixpoint sorted_busy (events : list event) : bool :=
  match events with
  | [] => true
  | e :: rest =>
      (ev_start e <? ev_end e)
      && match rest with
         | [] => true
         | e' :: _ => ev_start e <=? ev_start e'
         end
      && sorted_busy rest
  end.

(** An entry of the list that [find_focus_opportunities] returns; a key
    that the dictionary lacks is [None]. *)
Record opportunity : Type := mk_opportunity {
  opp_start : datetime;
  opp_end : datetime;
  opp_duration : Q;
  opp_after_event : option json;
  opp_before_event : option json
}.

(** The first block of [find_focus_opportunities]: the opportunity from
    [now] to the first event. *)
Definition leading_opportunity (events : list event) (now : datetime)
    (min_minutes : Z) : list opportunity :=
  match events with
  | [] => []
  | first :: _ =>
      let first_gap_end := ev_start first in
      if now <? first_gap_end then
        let duration := minutes_between first_gap_end now in
        if float_ge_int duration min_minutes then
          [mk_opportunity now first_gap_end duration None
             (Some (ev_summary first))]
        else []
      else []
  end.

(** The loop of [find_focus_opportunities]: the opportunities between
    events [i] and [i + 1]. *)
Fixpoint between_opportunities (events : list event) (min_minutes : Z)
    : list opportunity :=
  match events with
  | e :: ((e' :: _) as rest) =>
      let gap_start := ev_end e in
      let gap_end := ev_start e' in
      let duration := minutes_between gap_end gap_start in
      (if float_ge_int duration min_minutes then
         [mk_opportunity gap_start gap_end duration
            (Some (ev_summary e)) (Some (ev_summary e'))]
       else [])
      ++ between_opportunities rest min_minutes
  | _ => []
  end.

(** [FocusSession.find_focus_opportunities] on the [events] that
    [get_calendar_events] returned, with [now] for [datetime.now()]. *)
Definition find_focus_opportunities (events : list event) (now : datetime)
    (min_minutes : Z) : list opportunity :=
  leading_opportunity events now min_minutes
  ++ between_opportunities events min_minutes.

Record proposal : Type := mk_proposal {
  p_start : string;
  p_end : string;
  duration_minutes : Z;
  suggested_timer : string;
  task_name : string;
  energy : option Z;
  context_after : option json;
  context_before : option json
}.

(** [FocusSession.propose_focus_session]. *)
Definition propose_focus_session (opp : opportunity)
    (task_name : option string) (energy : option Z) : proposal :=
  let duration_minutes := int_of_float (opp_duration opp) in
  (* Suggest focus timer based on duration *)
  let suggested_timer :=
    if 240 <=? duration_minutes then "120 min (deep work block)"
    else if 180 <=? duration_minutes then "90 min (3 pomodoros + long break)"
    else if 120 <=? duration_minutes then "90 min (focus block)"
    else str_int (duration_minutes - 15) +:+ " min (focus session)" in
  mk_proposal
    (datetime_isoformat (opp_start opp))
    (datetime_isoformat (opp_end opp))
    duration_minutes
    suggested_timer
    (if truthy task_name then default "" task_name else "TBD")
    energy
    (opp_after_event opp)
    (opp_before_event opp).

(** [FocusSession.scan_and_propose] on the opportunities found. *)
Definition scan_and_propose (events : list event) (now : datetime)
    (min_minutes : Z) : list proposal :=
  List.map (fun opp => propose_focus_session opp None None)
    (find_focus_opportunities events now min_minutes).

(** [item.get(key, {}).get("dateTime", "")], as the loop of
    [get_calendar_events] reads the start and the end of an item. *)
Definition date_time_of (item : json) (key : string) : result json :=
  obj ← get item key (JObject []); get obj "dateTime" (JString "").

(** Busy intervals that follow one another without overlap: each starts
    no later than it ends, and ends no later than the next one starts. *)
Fixpoint non_overlapping (events : list event) : bool :=
  match events with
  | [] => true
  | e :: rest =>
      (ev_start e <=? ev_end e)
      && match rest with
         | [] => true
         | e' :: _ => ev_end e <=? ev_start e'
         end
      && non_overlapping rest
  end.

(** ** Focus sessions in the store *)

(** A row of table [focus_sessions], keyed by its [id]; [None] is SQL
    [NULL]. *)
Record session : Type := mk_session {
  start_time : string;
  planned_duration : Z;
  session_task_name : string;
  energy_before : option Z;
  end_time : option string;
  actual_duration : option Z;
  outcome : option string;
  energy_after : option Z;
  notes : option string
}.

(** What a call on table [focus_sessions] leaves behind: the value
    returned or the exception that escapes, the lines printed, and the
    committed table.  The statements are taken to succeed. *)
Record session_result (A : Type) : Type := mk_session_result {
  session_returned : result A;
  session_printed : list string;
  session_committed : gmap Z session
}.
Arguments mk_session_result {A} _ _ _.
Arguments session_returned {A} _.
Arguments session_printed {A} _.
Arguments session_committed {A} _.

(** [SET end_time = ?, actual_duration = ?, outcome = ?, energy_after = ?,
    notes = ?] *)
Definition set_ended (end_time : string) (actual_duration : Z)
    (outcome : string) (energy_after : option Z) (notes : string)
    (s : session) : session :=
  mk_session (start_time s) (planned_duration s) (session_task_name s)
             (energy_before s) (Some end_time) (Some actual_duration)
             (Some outcome) energy_after (Some notes).

(** [WHERE end_time IS NULL] *)
Definition not_ended (r : Z * session) : bool :=
  match end_time r.2 with
  | None => true
  | Some _ => false
  end.

(** [ORDER BY start_time DESC LIMIT 1] over the rows that are not ended:
    texts compare byte by byte.  Of several rows with the greatest start
    time the store may return any; this picks the first in the order of
    the table. *)
Definition later_start (a b : Z * session) : Z * session :=
  if String.ltb (start_time a.2) (start_time b.2) then b else a.

Definition latest_active (sessions : gmap Z session) : option (Z * session) :=
  match List.filter not_ended (map_to_list sessions) with
  | [] => None
  | r :: rest => Some (List.fold_left later_start rest r)
  end.

(** The dictionary that [get_active_session] returns. *)
Record active_session : Type := mk_active {
  active_id : Z;
  active_start_time : string;
  elapsed_minutes : Z;
  active_planned_duration : Z;
  active_task_name : string;
  active_energy_before : option Z
}.

Section Sessions.

Variable datetime_fromisoformat : string -> option parsed_datetime.

(** [datetime.now() - datetime.fromisoformat(text)] in whole minutes:
    [int((now - start).total_seconds() / 60)]. *)
Definition minutes_since (now : datetime) (text : string) : result Z :=
  start ← or_raise ValueError (datetime_fromisoformat text);
  start_naive ← naive_of start;
  Ok (int_of_float (minutes_between now start_naive)).

(** [FocusSession.end_focus_session], with [now] for [datetime.now()]. *)
Definition end_focus_session (sessions : gmap Z session) (now : datetime)
    (session_id : Z) (outcome : string) (energy_after : option Z)
    (notes : string) : session_result bool :=
  match sessions !! session_id with
  | None =>
      mk_session_result (Ok false)
        ["Session " +:+ str_int session_id +:+ " not found"] sessions
  | Some row =>
      match minutes_since now (start_time row) with
      | Raise e => mk_session_result (Raise e) [] sessions
      | Ok actual_duration =>
          mk_session_result (Ok true) []
            (alter (set_ended (datetime_isoformat now) actual_duration
                      outcome energy_after notes)
                   session_id sessions)
      end
  end.

(** [FocusSession.get_active_session]. *)
Definition get_active_session (sessions : gmap Z session) (now : datetime)
    : result (option active_session) :=
  match latest_active sessions with
  | Some (id, row) =>
      elapsed ← minutes_since now (start_time row);
      Ok (Some (mk_active id (start_time row) elapsed (planned_duration row)
                  (session_task_name row) (energy_before row)))
  | None => Ok None
  end.

End Sessions.

End Focus.

(* ===================================================================== *)
(** * Sample data *)
(* ===================================================================== *)

Module Samples.
Import Calendar Py Streak Focus.

(** 2026-11-03, and the days around it. *)
Definition nov3 : date := 739923.

(** A store with the single daily habit "exercise" under id 1. *)
Definition exercise (streak : Z) (last : option string) : habit :=
  mk_habit "exercise" "" streak last "daily" 1.

Definition reading (streak : Z) (last : option string) : habit :=
  mk_habit "reading" "" streak last "weekly" 1.

Definition one_habit (h : habit) : store := mk_store {[ 1 := h ]} [].

(** One completion of habit 1 on each of [days], in turn. *)
Fixpoint complete_on (db : store) (days : list date) : store :=
  match days with
  | [] => db
  | d :: rest => complete_on (committed (complete_habit db d 1 "")) rest
  end.

(** 2026-11-03 at [h]:[m] o'clock. *)
Definition at_time (h m : Z) : datetime :=
  (nov3 - 1) * US_PER_DAY + h * US_PER_HOUR + m * US_PER_MINUTE.

Definition meeting (label : string) (start end_ : datetime) : event :=
  mk_event start end_ (JString label) (JString "").

(** Two meetings back to back, 09:00-10:00 and 10:00-11:00. *)
Definition back_to_back : list event :=
  [meeting "standup" (at_time 9 0) (at_time 10 0);
   meeting "review" (at_time 10 0) (at_time 11 0)].

(** A morning meeting and an afternoon one, 09:00-10:00 and 14:00-15:00. *)
Definition two_meetings : list event :=
  [meeting "standup" (at_time 9 0) (at_time 10 0);
   meeting "review" (at_time 14 0) (at_time 15 0)].

(** An opportunity of [x] minutes starting at 08:00. *)
Definition free_minutes (x : Q) : opportunity :=
  mk_opportunity (at_time 8 0) (at_time 12 0) x None None.

(** The double nearest to 239.9. *)
Definition double_239_9 : Q := 8440730864110797 # 35184372088832.


(** A response of the provider to run the fetch on: a meeting from 09:00
    to 10:00 in naive local time, one from 14:00 to 15:00 in UTC, and an
    item whose start is [null]. *)
Definition item_standup : json :=
  JObject [("summary", JString "standup");
           ("start", JObject [("dateTime", JString "2026-11-03T09:00:00")]);
           ("end", JObject [("dateTime", JString "2026-11-03T10:00:00")])].

Definition item_utc : json :=
  JObject [("summary", JString "review");
           ("start", JObject [("dateTime", JString "2026-11-03T14:00:00Z")]);
           ("end", JObject [("dateTime", JString "2026-11-03T15:00:00Z")])].

Definition item_null_start : json :=
  JObject [("summary", JString "draft"); ("start", JNull)].

(** A decoder that knows two texts, and a parser that knows the times of
    the items above. *)
Definition sample_loads (s : string) : option json :=
  if String.eqb s "good" then
    Some (JObject [("items", JArray [item_utc; item_standup])])
  else if String.eqb s "spoiled" then
    Some (JObject [("items", JArray [item_standup; item_null_start])])
  else None.

Definition sample_parse (s : string) : option parsed_datetime :=
  if String.eqb s "2026-11-03T09:00:00" then Some (Naive (at_time 9 0))
  else if String.eqb s "2026-11-03T10:00:00" then Some (Naive (at_time 10 0))
  else if String.eqb s "2026-11-03T14:00:00+00:00" then Some (Aware (at_time 14 0) 0)
  else if String.eqb s "2026-11-03T15:00:00+00:00" then Some (Aware (at_time 15 0) 0)
  else None.


(** A store with two daily habits: "exercise" with a streak that ran up
    to the day before 2026-11-03, and "stretch", never completed. *)
Definition stretch (streak : Z) (last : option string) : habit :=
  mk_habit "stretch" "" streak last "daily" 1.

Definition two_habits : store :=
  mk_store (<[ 2 := stretch 0 None ]> {[ 1 := exercise 5 (Some "2026-11-02") ]})
           [].

(** The same two habits, with an unreadable text in the second. *)
Definition unreadable_habits : store :=
  mk_store (<[ 2 := stretch 0 (Some "yesterday") ]>
              {[ 1 := exercise 5 (Some "2026-11-02") ]})
           [].

(** Two sessions that were started at 09:00 and at 09:30 and not ended. *)
Definition writing : session :=
  mk_session "2026-11-03T09:00:00" 90 "writing" (Some 6)
             None None None None None.

Definition reviewing : session :=
  mk_session "2026-11-03T10:00:00" 90 "reviewing" None
             None None None None None.

Definition two_sessions : gmap Z session :=
  <[ 2 := reviewing ]> {[ 1 := writing ]}.

End Samples.

(* ===================================================================== *)
(** * Facts about the calendar *)
(* ===================================================================== *)

Import Calendar Py.

(** Settles the integer tests of an [if] chain that the hypotheses decide. *)
Ltac settle_test t :=
  first [ replace t with true by lia | replace t with false by lia ].

Ltac settle_tests :=
  repeat match goal with
         | |- context [if ?t then _ else _] => settle_test t
         end.

Section CalendarFacts.

Lemma days_before_year_split (a b c d : Z) :
  0 <= b <= 3 -> 0 <= c <= 24 -> 0 <= d <= 3 ->
  days_before_year (400 * a + 100 * b + 4 * c + d + 1)
  = DI400Y * a + DI100Y * b + DI4Y * c + 365 * d.
Proof.
  intros Hb Hc Hd. unfold days_before_year, DI400Y, DI100Y, DI4Y.
  replace (400 * a + 100 * b + 4 * c + d + 1 - 1)
    with (400 * a + 100 * b + 4 * c + d) by lia.
  assert (H4 : (400 * a + 100 * b + 4 * c + d) / 4 = 100 * a + 25 * b + c).
  { symmetry. apply (Z.div_unique _ 4 _ d); lia. }
  assert (H100 : (400 * a + 100 * b + 4 * c + d) / 100 = 4 * a + b).
  { symmetry. apply (Z.div_unique _ 100 _ (4 * c + d)); lia. }
  assert (H400 : (400 * a + 100 * b + 4 * c + d) / 400 = a).
  { symmetry. apply (Z.div_unique _ 400 _ (100 * b + 4 * c + d)); lia. }
  rewrite H4, H100, H400. lia.
Qed.

Lemma is_leap_split (a b c d : Z) :
  0 <= b <= 3 -> 0 <= c <= 24 -> 0 <= d <= 3 ->
  is_leap (400 * a + 100 * b + 4 * c + d + 1)
  = (d =? 3) && (negb (c =? 24) || (b =? 3)).
Proof.
  intros Hb Hc Hd. unfold is_leap.
  assert (H4 : (400 * a + 100 * b + 4 * c + d + 1) mod 4 = (d + 1) mod 4).
  { replace (400 * a + 100 * b + 4 * c + d + 1)
      with (d + 1 + (100 * a + 25 * b + c) * 4) by lia.
    apply Z.mod_add. lia. }
  assert (H100 : (400 * a + 100 * b + 4 * c + d + 1) mod 100
                 = (4 * c + d + 1) mod 100).
  { replace (400 * a + 100 * b + 4 * c + d + 1)
      with (4 * c + d + 1 + (4 * a + b) * 100) by lia.
    apply Z.mod_add. lia. }
  assert (H400 : (400 * a + 100 * b + 4 * c + d + 1) mod 400
                 = (100 * b + 4 * c + d + 1) mod 400).
  { replace (400 * a + 100 * b + 4 * c + d + 1)
      with (100 * b + 4 * c + d + 1 + a * 400) by lia.
    apply Z.mod_add. lia. }
  rewrite H4, H100, H400.
  destruct (Z.eqb_spec d 3) as [-> | Hd3].
  - change ((3 + 1) mod 4 =? 0) with true. cbn [andb].
    destruct (Z.eqb_spec c 24) as [-> | Hc24].
    + change ((4 * 24 + 3 + 1) mod 100 =? 0) with true. cbn [negb orb].
      destruct (Z.eqb_spec b 3) as [-> | Hb3]; [reflexivity |].
      apply Z.eqb_neq. intros E.
      apply Z.mod_divide in E; [| lia]. destruct E as [k E]. lia.
    + assert (E : (4 * c + 3 + 1) mod 100 <> 0).
      { intros E. apply Z.mod_divide in E; [| lia]. destruct E as [k E]. lia. }
      apply Z.eqb_neq in E. rewrite E. reflexivity.
  - assert (E : (d + 1) mod 4 <> 0).
    { intros E. apply Z.mod_divide in E; [| lia]. destruct E as [k E]. lia. }
    apply Z.eqb_neq in E. rewrite E. reflexivity.
Qed.

Lemma yday_ok_all (leapyear : bool) (n : Z) :
  0 <= n < 365 + leap_extra leapyear -> yday_ok leapyear n = true.
Proof.
  intros Hn.
  assert (Hall : forallb (fun k => yday_ok leapyear (Z.of_nat k))
                   (seq 0 (Z.to_nat (365 + leap_extra leapyear))) = true).
  { destruct leapyear; vm_compute; reflexivity. }
  rewrite forallb_forall in Hall.
  specialize (Hall (Z.to_nat n)).
  rewrite Z2Nat.id in Hall by lia. apply Hall.
  apply in_seq. destruct leapyear; cbn [leap_extra] in *; lia.
Qed.

Lemma month_of_yday_spec (leapyear : bool) (n m d : Z) :
  0 <= n < 365 + leap_extra leapyear ->
  month_of_yday leapyear n = (m, d) ->
  1 <= m <= 12
  /\ 0 <= d < DAYS_IN_MONTH m + leap_extra ((m =? 2) && leapyear)
  /\ DAYS_BEFORE_MONTH m + leap_extra ((2 <? m) && leapyear) + d = n.
Proof.
  intros Hn Hm. pose proof (yday_ok_all leapyear n Hn) as H.
  unfold yday_ok in H. rewrite Hm in H.
  repeat (apply andb_prop in H; destruct H as [H ?]).
  lia.
Qed.

Lemma is_leap_extra (y m : Z) :
  days_before_month y m = DAYS_BEFORE_MONTH m + leap_extra ((2 <? m) && is_leap y).
Proof. reflexivity. Qed.

Lemma days_in_month_extra (y m : Z) :
  1 <= m <= 12 ->
  days_in_month y m = DAYS_IN_MONTH m + leap_extra ((m =? 2) && is_leap y).
Proof.
  intros Hm. unfold days_in_month.
  destruct (Z.eqb_spec m 2) as [-> | Hne]; cbn [andb].
  - destruct (is_leap y); reflexivity.
  - cbn [leap_extra]. lia.
Qed.

(** [ord2ymd] lands on a real calendar day, and [ymd2ord] undoes it. *)
Lemma ord2ymd_spec (n y m d : Z) :
  valid_date n ->
  ord2ymd n = (y, m, d) ->
  MINYEAR <= y <= MAXYEAR /\ 1 <= m <= 12 /\ 1 <= d <= days_in_month y m
  /\ ymd2ord y m d = n.
Proof.
  unfold valid_date, date_min, date_max, MINYEAR, MAXYEAR. intros Hn.
  unfold ord2ymd.
  pose proof (Z.div_mod (n - 1) DI400Y ltac:(discriminate)) as E1.
  pose proof (Z.mod_pos_bound (n - 1) DI400Y eq_refl) as B1.
  set (a := (n - 1) / DI400Y) in *. set (r1 := (n - 1) mod DI400Y) in *.
  pose proof (Z.div_mod r1 DI100Y ltac:(discriminate)) as E2.
  pose proof (Z.mod_pos_bound r1 DI100Y eq_refl) as B2.
  set (b := r1 / DI100Y) in *. set (r2 := r1 mod DI100Y) in *.
  pose proof (Z.div_mod r2 DI4Y ltac:(discriminate)) as E3.
  pose proof (Z.mod_pos_bound r2 DI4Y eq_refl) as B3.
  set (c := r2 / DI4Y) in *. set (r3 := r2 mod DI4Y) in *.
  pose proof (Z.div_mod r3 365 ltac:(discriminate)) as E4.
  pose proof (Z.mod_pos_bound r3 365 eq_refl) as B4.
  set (e := r3 / 365) in *. set (r4 := r3 mod 365) in *.
  unfold DI400Y, DI100Y, DI4Y in E1, E2, E3, B1, B2, B3.
  clearbody a r1 b r2 c r3 e r4.
  assert (Ha : 0 <= a <= 24) by lia.
  assert (Hb : 0 <= b <= 4) by lia.
  assert (Hc : 0 <= c <= 24) by lia.
  assert (He : 0 <= e <= 4) by lia.
  destruct ((e =? 4) || (b =? 4)) eqn:Hedge.
  - (* the last day of a four-year or four-hundred-year cycle *)
    intros [= <- <- <-].
    assert (Hy : exists b' c',
               0 <= b' <= 3 /\ 0 <= c' <= 24 /\ (c' <> 24 \/ b' = 3)
               /\ a * 400 + 1 + b * 100 + c * 4 + e - 1
                  = 400 * a + 100 * b' + 4 * c' + 3 + 1
               /\ n = DI400Y * a + DI100Y * b' + DI4Y * c' + 365 * 3 + 366).
    { unfold DI400Y, DI100Y, DI4Y.
      apply orb_prop in Hedge. destruct Hedge as [H | H]; apply Z.eqb_eq in H.
      - destruct (Z.eq_dec b 4) as [Hb4 | Hb4].
        + exists 3, 24. lia.
        + exists b, c. lia.
      - exists 3, 24. lia. }
    destruct Hy as (b' & c' & Hb' & Hc' & Hleap & -> & Hn').
    unfold ymd2ord. rewrite is_leap_extra, days_in_month_extra by lia.
    rewrite days_before_year_split, is_leap_split by lia.
    replace (3 =? 3) with true by reflexivity.
    assert (Hl : negb (c' =? 24) || (b' =? 3) = true).
    { destruct Hleap as [H | ->].
      - apply Z.eqb_neq in H. rewrite H. reflexivity.
      - apply orb_true_r. }
    rewrite Hl. cbn [andb leap_extra Z.ltb Z.eqb Pos.eqb Z.compare Pos.compare
                     Pos.compare_cont DAYS_BEFORE_MONTH DAYS_IN_MONTH].
    unfold DI400Y, DI100Y, DI4Y in *. lia.
  - apply orb_false_elim in Hedge. destruct Hedge as [He4 Hb4].
    apply Z.eqb_neq in He4, Hb4.
    set (leapyear := (e =? 3) && (negb (c =? 24) || (b =? 3))).
    destruct (month_of_yday leapyear r4) as [m0 d0] eqn:Hmd.
    intros [= <- <- <-].
    apply month_of_yday_spec in Hmd; [| destruct leapyear; cbn [leap_extra]; lia].
    destruct Hmd as (Hm & Hd & Hsum).
    replace (a * 400 + 1 + b * 100 + c * 4 + e)
      with (400 * a + 100 * b + 4 * c + e + 1) by lia.
    unfold ymd2ord. rewrite is_leap_extra, days_in_month_extra by lia.
    rewrite days_before_year_split, is_leap_split by lia.
    fold leapyear. unfold DI400Y, DI100Y, DI4Y. lia.
Qed.

Lemma days_before_year_bounds (y : Z) :
  MINYEAR <= y <= MAXYEAR ->
  0 <= days_before_year y <= 3651694
  /\ (is_leap y = true -> days_before_year y <= 3650599).
Proof.
  unfold MINYEAR, MAXYEAR, days_before_year, is_leap. intros Hy.
  pose proof (Z.div_mod (y - 1) 4 ltac:(discriminate)).
  pose proof (Z.mod_pos_bound (y - 1) 4 eq_refl).
  pose proof (Z.div_mod (y - 1) 100 ltac:(discriminate)).
  pose proof (Z.mod_pos_bound (y - 1) 100 eq_refl).
  pose proof (Z.div_mod (y - 1) 400 ltac:(discriminate)).
  pose proof (Z.mod_pos_bound (y - 1) 400 eq_refl).
  split; [lia |].
  intros Hleap. apply andb_prop in Hleap. destruct Hleap as [Hdiv4 _].
  apply Z.eqb_eq in Hdiv4.
  pose proof (Z.div_mod y 4 ltac:(discriminate)). lia.
Qed.

(** Every date that the constructor accepts is in [date.min .. date.max]. *)
Lemma new_date_valid (y m d : Z) (o : date) :
  new_date y m d = Some o -> valid_date o.
Proof.
  unfold new_date. destruct (_ && _) eqn:Hok; [| discriminate].
  intros [= <-].
  repeat (apply andb_prop in Hok; destruct Hok as [Hok ?]).
  assert (Hy : MINYEAR <= y <= MAXYEAR) by lia.
  assert (Hm : 1 <= m <= 12) by lia.
  assert (Hd : 1 <= d <= days_in_month y m) by lia.
  clear - Hy Hm Hd.
  destruct (days_before_year_bounds y Hy) as [Hb Hbl].
  rewrite days_in_month_extra in Hd by lia.
  unfold valid_date, date_min, date_max, ymd2ord. rewrite is_leap_extra.
  destruct (is_leap y); [specialize (Hbl eq_refl) | clear Hbl];
    assert (Hcases : m = 1 \/ m = 2 \/ m = 3 \/ m = 4 \/ m = 5 \/ m = 6
                     \/ m = 7 \/ m = 8 \/ m = 9 \/ m = 10 \/ m = 11 \/ m = 12)
      by lia;
    repeat (destruct Hcases as [-> | Hcases]); try subst m;
    cbn [andb leap_extra Z.ltb Z.eqb Pos.eqb Z.compare Pos.compare
         Pos.compare_cont DAYS_BEFORE_MONTH DAYS_IN_MONTH] in *; lia.
Qed.

(** ** [fromisoformat] inverts [isoformat] *)

Lemma append_cons (c : ascii) (s1 s2 : string) :
  String c s1 +:+ s2 = String c (s1 +:+ s2).
Proof. reflexivity. Qed.

Lemma append_nil (s : string) : "" +:+ s = s.
Proof. reflexivity. Qed.

Lemma digit_value_digit (k : Z) :
  0 <= k <= 9 -> digit_value (digit k) = Some k.
Proof.
  intros Hk. unfold digit_value, digit.
  rewrite nat_ascii_embedding by lia.
  replace (Z.of_nat (48 + Z.to_nat k)) with (48 + k) by lia.
  replace ((48 <=? 48 + k) && (48 + k <=? 57)) with true by lia.
  f_equal. lia.
Qed.

Lemma parse_digits_step (k : nat) (acc v : Z) (s : string) :
  0 <= v <= 9 ->
  parse_digits (S k) acc (String (digit v) s) = parse_digits k (acc * 10 + v) s.
Proof. intros Hv. cbn [parse_digits]. rewrite digit_value_digit by lia. reflexivity. Qed.

Lemma parse_pad2 (n acc : Z) (s : string) :
  0 <= n <= 99 ->
  parse_digits 2 acc (pad2 n +:+ s) = Some (acc * 100 + n, s).
Proof.
  intros Hn. unfold pad2. rewrite !append_cons, append_nil.
  pose proof (Z.div_mod n 10 ltac:(discriminate)).
  pose proof (Z.mod_pos_bound n 10 eq_refl).
  rewrite !parse_digits_step by lia. cbn [parse_digits]. do 2 f_equal. lia.
Qed.

Lemma parse_pad4 (n : Z) (s : string) :
  0 <= n <= 9999 ->
  parse_digits 4 0 (pad4 n +:+ s) = Some (n, s).
Proof.
  intros Hn. unfold pad4. rewrite 2!append_cons.
  pose proof (Z.div_mod n 1000 ltac:(discriminate)).
  pose proof (Z.mod_pos_bound n 1000 eq_refl).
  pose proof (Z.div_mod n 100 ltac:(discriminate)).
  pose proof (Z.mod_pos_bound n 100 eq_refl).
  pose proof (Z.div_mod (n / 100) 10 ltac:(discriminate)).
  pose proof (Z.mod_pos_bound (n / 100) 10 eq_refl).
  rewrite 2!parse_digits_step by lia.
  rewrite parse_pad2 by lia. do 2 f_equal. lia.
Qed.

Lemma isoformat_length (d : date) : String.length (isoformat d) = 10%nat.
Proof. unfold isoformat. destruct (ord2ymd d) as [[y m] dd]. reflexivity. Qed.

Lemma fromisoformat_isoformat (d : date) :
  valid_date d -> fromisoformat (isoformat d) = Some d.
Proof.
  intros Hd. unfold fromisoformat. rewrite isoformat_length.
  cbn [Nat.eqb negb]. unfold isoformat.
  destruct (ord2ymd d) as [[y m] dd] eqn:E.
  apply ord2ymd_spec in E; [| exact Hd].
  destruct E as (Hy & Hm & Hdd & Hord).
  unfold MINYEAR, MAXYEAR in Hy.
  assert (Hdim : days_in_month y m <= 31).
  { rewrite days_in_month_extra by lia.
    assert (Hcases : m = 1 \/ m = 2 \/ m = 3 \/ m = 4 \/ m = 5 \/ m = 6
                     \/ m = 7 \/ m = 8 \/ m = 9 \/ m = 10 \/ m = 11 \/ m = 12)
      by lia.
    destruct (is_leap y);
      repeat (destruct Hcases as [-> | Hcases]); try subst m;
      cbn; lia. }
  rewrite parse_pad4 by lia. rewrite append_cons, append_nil.
  cbn [mbind option_bind expect_dash].
  rewrite parse_pad2 by lia. rewrite append_cons, append_nil.
  cbn [mbind option_bind expect_dash].
  replace (pad2 dd) with (pad2 dd +:+ "") by (unfold pad2; reflexivity).
  rewrite parse_pad2 by lia. cbn [mbind option_bind].
  replace (0 * 100 + m) with m by lia. replace (0 * 100 + dd) with dd by lia.
  unfold new_date, MINYEAR, MAXYEAR.
  replace (_ && _) with true by lia.
  f_equal. exact Hord.
Qed.

Lemma fromisoformat_valid (s : string) (d : date) :
  fromisoformat s = Some d -> valid_date d.
Proof.
  unfold fromisoformat. destruct (negb _); [discriminate |].
  destruct (parse_digits 4 0 s) as [[y s1] |]; [| discriminate].
  cbn [mbind option_bind].
  destruct (expect_dash s1) as [s2 |]; [| discriminate]. cbn [mbind option_bind].
  destruct (parse_digits 2 0 s2) as [[m s3] |]; [| discriminate].
  cbn [mbind option_bind].
  destruct (expect_dash s3) as [s4 |]; [| discriminate]. cbn [mbind option_bind].
  destruct (parse_digits 2 0 s4) as [[dd s5] |]; [| discriminate].
  cbn [mbind option_bind]. apply new_date_valid.
Qed.

Lemma isoformat_inj (d1 d2 : date) :
  valid_date d1 -> valid_date d2 -> isoformat d1 = isoformat d2 -> d1 = d2.
Proof.
  intros H1 H2 E. apply fromisoformat_isoformat in H1, H2.
  rewrite E in H1. congruence.
Qed.

Lemma isoformat_not_empty (d : date) : isoformat d <> "".
Proof.
  intros E. pose proof (isoformat_length d) as H. rewrite E in H. discriminate.
Qed.

(** A stored text that reads as another day than today is not today's text. *)
Lemma parsed_other_day (s : string) (d today : date) :
  valid_date today -> fromisoformat s = Some d -> d <> today ->
  s <> isoformat today.
Proof.
  intros Ht Hs Hne ->. rewrite fromisoformat_isoformat in Hs by exact Ht.
  congruence.
Qed.

End CalendarFacts.

(* ===================================================================== *)
(** * Facts about the streak tracker *)
(* ===================================================================== *)

Section StreakFacts.
Import Streak.

Lemma eq_text_same (s : string) : eq_text (Some s) s = true.
Proof. cbn. apply String.eqb_refl. Qed.

Lemma eq_text_other (o : option string) (s : string) :
  o <> Some s -> eq_text o s = false.
Proof.
  destruct o as [s' |]; [| reflexivity]. intros H. cbn.
  apply String.eqb_neq. congruence.
Qed.

Lemma truthy_false (o : option string) :
  truthy o = false -> o = None \/ o = Some "".
Proof.
  destruct o as [s |]; [| auto]. cbn. intros H.
  apply negb_false_iff, String.eqb_eq in H. subst. auto.
Qed.

Lemma truthy_parsed (s : string) (d : date) :
  fromisoformat s = Some d -> truthy (Some s) = true.
Proof.
  intros H. cbn. apply negb_true_iff, String.eqb_neq. intros ->. discriminate.
Qed.

(** An [UPDATE] of an existing row, after the log insert. *)
Lemma update_after_insert (f : habit -> habit) (id : Z) (n : string)
    (db : store) (h : habit) :
  habits db !! id = Some h ->
  update_habit_row f id (insert_log id n db)
  = mk_store (<[id := f h]> (habits db)) (habit_log db ++ [mk_log id n]).
Proof.
  intros Hh. unfold update_habit_row, insert_log. cbn. f_equal.
  apply map_eq. intros j. rewrite lookup_alter, lookup_insert.
  destruct (decide (id = j)) as [<- |]; [rewrite Hh |]; reflexivity.
Qed.

(** A daily habit with no last completion: the streak is seeded. *)
Lemma complete_daily_first (db : store) (today : date) (id : Z) (n : string)
    (h : habit) :
  habits db !! id = Some h ->
  goal_frequency h = "daily" ->
  truthy (last_completed h) = false ->
  complete_habit db today id n
  = mk_outcome (Ok true) []
      (mk_store (<[id := set_restart (isoformat today) h]> (habits db))
                (habit_log db ++ [mk_log id n])).
Proof.
  intros Hh Hg Hl. unfold complete_habit. rewrite Hh, Hg.
  rewrite eq_text_other.
  2:{ intros E. destruct (truthy_false _ Hl) as [E' | E']; rewrite E' in E;
      [discriminate |]. injection E as E. symmetry in E.
      exact (isoformat_not_empty _ E). }
  cbn [String.eqb Ascii.eqb Bool.eqb andb]. unfold update_streak.
  cbn [String.eqb Ascii.eqb Bool.eqb]. rewrite Hl.
  rewrite (update_after_insert _ _ _ _ _ Hh). reflexivity.
Qed.

(** A daily habit whose last completion reads as a day other than today:
    the completion is logged, and the streak moves by comparing that day
    with yesterday. *)
Lemma complete_daily_parsed (db : store) (today : date) (id : Z) (n : string)
    (h : habit) (s : string) (last : date) :
  habits db !! id = Some h ->
  goal_frequency h = "daily" ->
  last_completed h = Some s ->
  fromisoformat s = Some last ->
  date_min < today <= date_max ->
  last <> today ->
  complete_habit db today id n
  = mk_outcome (Ok true) []
      (mk_store
         (if last =? today - 1
          then <[id := set_continue (isoformat today) h]> (habits db)
          else if last <? today - 1
               then <[id := set_restart (isoformat today) h]> (habits db)
               else habits db)
         (habit_log db ++ [mk_log id n])).
Proof.
  intros Hh Hg Hl Hs Ht Hne. unfold complete_habit. rewrite Hh, Hg, Hl.
  rewrite eq_text_other.
  2:{ intros [= E]. revert E. apply (parsed_other_day s last today); auto.
      unfold valid_date. lia. }
  cbn [String.eqb Ascii.eqb Bool.eqb andb]. unfold update_streak.
  cbn [String.eqb Ascii.eqb Bool.eqb]. rewrite (truthy_parsed s last Hs).
  cbn [mbind option_bind]. rewrite Hs. unfold sub_days.
  replace ((date_min <=? today - 1) && (today - 1 <=? date_max)) with true
    by (unfold date_min, date_max in *; lia).
  cbn [or_raise mbind result_bind].
  destruct (last =? today - 1).
  - rewrite (update_after_insert _ _ _ _ _ Hh). reflexivity.
  - destruct (last <? today - 1).
    + rewrite (update_after_insert _ _ _ _ _ Hh). reflexivity.
    + reflexivity.
Qed.

(** A daily habit already completed today: the call is refused. *)
Lemma complete_daily_again (db : store) (today : date) (id : Z) (n : string)
    (h : habit) :
  habits db !! id = Some h ->
  goal_frequency h = "daily" ->
  last_completed h = Some (isoformat today) ->
  complete_habit db today id n
  = mk_outcome (Ok false) ["Habit already completed today"] db.
Proof.
  intros Hh Hg Hl. unfold complete_habit. rewrite Hh, Hg, Hl.
  rewrite eq_text_same. reflexivity.
Qed.

Lemma complete_each_again (db : store) (today : date) (id : Z)
    (ns : list string) (h : habit) :
  habits db !! id = Some h ->
  goal_frequency h = "daily" ->
  last_completed h = Some (isoformat today) ->
  complete_each db today id ns = (List.map (fun _ => Ok false) ns, db).
Proof.
  intros Hh Hg Hl. induction ns as [| n ns IH]; [reflexivity |].
  cbn [complete_each List.map].
  rewrite (complete_daily_again db today id n h Hh Hg Hl).
  cbn [committed returned]. rewrite IH. reflexivity.
Qed.

(** C1. A completion of an existing daily habit, dated [today], follows
    the daily streak rule: with no last completion the streak becomes 1;
    with the last completion on the day before [today] the streak grows
    by 1; with an earlier last completion the streak restarts at 1.  In
    each case the call succeeds, the completion is logged, and
    [last_completed] becomes the text of [today], which reads back as
    [today]. *)
Theorem daily_completion_follows_streak_rule (db : store) (today : date)
    (id : Z) (n : string) (h : habit) :
  valid_date today ->
  habits db !! id = Some h ->
  goal_frequency h = "daily" ->
  let row streak :=
    mk_habit (name h) (description h) streak (Some (isoformat today))
             (goal_frequency h) (active h) in
  let completed streak :=
    mk_outcome (Ok true) []
      (mk_store (<[id := row streak]> (habits db))
                (habit_log db ++ [mk_log id n])) in
  (last_completed h = None ->
     complete_habit db today id n = completed 1)
  /\ (forall s last,
        last_completed h = Some s -> fromisoformat s = Some last ->
        last = today - 1 ->
        complete_habit db today id n = completed (streak_count h + 1))
  /\ (forall s last,
        last_completed h = Some s -> fromisoformat s = Some last ->
        last < today - 1 ->
        complete_habit db today id n = completed 1)
  /\ fromisoformat (isoformat today) = Some today.
Proof.
  intros Ht Hh Hg row completed. unfold valid_date in Ht.
  split; [| split; [| split]].
  - intros Hl. apply complete_daily_first; auto. rewrite Hl. reflexivity.
  - intros s last Hl Hs Hlast.
    pose proof (fromisoformat_valid s last Hs) as Hv. unfold valid_date in Hv.
    rewrite (complete_daily_parsed db today id n h s last) by (auto; lia).
    replace (last =? today - 1) with true by lia. reflexivity.
  - intros s last Hl Hs Hlast.
    pose proof (fromisoformat_valid s last Hs) as Hv. unfold valid_date in Hv.
    rewrite (complete_daily_parsed db today id n h s last) by (auto; lia).
    replace (last =? today - 1) with false by lia.
    replace (last <? today - 1) with true by lia. reflexivity.
  - apply fromisoformat_isoformat. exact Ht.
Qed.

(** C3. A daily habit whose [last_completed] is the text of [today]: a
    completion dated [today] returns [False], tells the caller so, and
    leaves the store as it was, however often it is repeated.  Hence a
    first completion of the day followed by any number of repeats adds
    exactly one row to the log. *)
Theorem same_day_completion_is_rejected (db : store) (today : date)
    (id : Z) (h : habit) :
  habits db !! id = Some h ->
  goal_frequency h = "daily" ->
  (last_completed h = Some (isoformat today) ->
     (forall n,
        complete_habit db today id n
        = mk_outcome (Ok false) ["Habit already completed today"] db)
     /\ (forall ns,
           complete_each db today id ns
           = (List.map (fun _ => Ok false) ns, db)))
  /\ (valid_date today ->
      (truthy (last_completed h) = false
       \/ exists s last, last_completed h = Some s
                         /\ fromisoformat s = Some last /\ last < today) ->
      forall n ns, exists db',
        complete_each db today id (n :: ns)
        = (Ok true :: List.map (fun _ => Ok false) ns, db')
        /\ habit_log db' = habit_log db ++ [mk_log id n]).
Proof.
  intros Hh Hg. split.
  - intros Hl. split.
    + intros n. exact (complete_daily_again db today id n h Hh Hg Hl).
    + intros ns. exact (complete_each_again db today id ns h Hh Hg Hl).
  - intros Ht Hfirst n ns. unfold valid_date in Ht.
    assert (Hone : exists h',
               complete_habit db today id n
               = mk_outcome (Ok true) []
                   (mk_store (<[id := h']> (habits db))
                             (habit_log db ++ [mk_log id n]))
               /\ goal_frequency h' = "daily"
               /\ last_completed h' = Some (isoformat today)).
    { destruct Hfirst as [Hl | (s & last & Hl & Hs & Hlast)].
      - exists (set_restart (isoformat today) h).
        rewrite (complete_daily_first db today id n h Hh Hg Hl). auto.
      - pose proof (fromisoformat_valid s last Hs) as Hv.
        unfold valid_date in Hv.
        rewrite (complete_daily_parsed db today id n h s last) by (auto; lia).
        destruct (Z.eqb_spec last (today - 1)) as [E | E].
        + exists (set_continue (isoformat today) h). auto.
        + replace (last <? today - 1) with true by lia.
          exists (set_restart (isoformat today) h). auto. }
    destruct Hone as (h' & Hc & Hg' & Hl').
    eexists. cbn [complete_each]. rewrite Hc. cbn [committed returned].
    rewrite (complete_each_again _ today id ns h'); cbn [habits]; auto.
    apply lookup_insert_eq.
Qed.

(** C6. A completion of an existing weekly or monthly habit always
    succeeds: the completion is logged, [last_completed] becomes the text
    of [today], and the streak count stays as it was. *)
Theorem weekly_monthly_completion_keeps_streak (db : store) (today : date)
    (id : Z) (n : string) (h : habit) :
  habits db !! id = Some h ->
  goal_frequency h = "weekly" \/ goal_frequency h = "monthly" ->
  complete_habit db today id n
  = mk_outcome (Ok true) []
      (mk_store
         (<[id := mk_habit (name h) (description h) (streak_count h)
                    (Some (isoformat today)) (goal_frequency h) (active h)]>
            (habits db))
         (habit_log db ++ [mk_log id n])).
Proof.
  intros Hh Hg. unfold complete_habit. rewrite Hh.
  destruct Hg as [Hg | Hg]; rewrite Hg;
    cbn [String.eqb Ascii.eqb Bool.eqb andb]; unfold update_streak;
    cbn [String.eqb Ascii.eqb Bool.eqb];
    rewrite (update_after_insert _ _ _ _ _ Hh);
    unfold set_last_completed; rewrite Hg; reflexivity.
Qed.

(** C10. A daily habit whose [last_completed] reads as a day after
    [today]: the completion succeeds and is logged, and table [habits] is
    left exactly as it was. *)
Theorem future_last_completed_only_logs (db : store) (today : date)
    (id : Z) (n : string) (h : habit) (s : string) (last : date) :
  habits db !! id = Some h ->
  goal_frequency h = "daily" ->
  last_completed h = Some s ->
  fromisoformat s = Some last ->
  date_min < today ->
  today < last ->
  s <> isoformat today
  /\ complete_habit db today id n
     = mk_outcome (Ok true) []
         (mk_store (habits db) (habit_log db ++ [mk_log id n])).
Proof.
  intros Hh Hg Hl Hs Hmin Hlast.
  pose proof (fromisoformat_valid s last Hs) as Hv. unfold valid_date in Hv.
  split.
  - apply (parsed_other_day s last today); auto; unfold valid_date; lia.
  - rewrite (complete_daily_parsed db today id n h s last) by (auto; lia).
    replace (last =? today - 1) with false by lia.
    replace (last <? today - 1) with false by lia. reflexivity.
Qed.

Lemma nov3_valid : valid_date Samples.nov3.
Proof. unfold valid_date, date_min, date_max, Samples.nov3. lia. Defined.

(** The rule at work on 2026-11-03: a habit never completed, one completed
    the day before, and one completed three days before. *)
Lemma daily_completion_follows_streak_rule_witness :
  complete_habit (Samples.one_habit (Samples.exercise 0 None))
                 Samples.nov3 1 "first"
  = mk_outcome (Ok true) []
      (mk_store {[ 1 := Samples.exercise 1 (Some "2026-11-03") ]}
                [mk_log 1 "first"])
  /\ complete_habit (Samples.one_habit (Samples.exercise 4 (Some "2026-11-02")))
                    Samples.nov3 1 "next"
     = mk_outcome (Ok true) []
         (mk_store {[ 1 := Samples.exercise 5 (Some "2026-11-03") ]}
                   [mk_log 1 "next"])
  /\ complete_habit (Samples.one_habit (Samples.exercise 4 (Some "2026-10-31")))
                    Samples.nov3 1 "back"
     = mk_outcome (Ok true) []
         (mk_store {[ 1 := Samples.exercise 1 (Some "2026-11-03") ]}
                   [mk_log 1 "back"]).
Proof.
  split; [| split].
  - exact (proj1 (daily_completion_follows_streak_rule
                    (Samples.one_habit (Samples.exercise 0 None))
                    Samples.nov3 1 "first" _ nov3_valid eq_refl eq_refl)
                 eq_refl).
  - exact (proj1 (proj2 (daily_completion_follows_streak_rule
                    (Samples.one_habit (Samples.exercise 4 (Some "2026-11-02")))
                    Samples.nov3 1 "next" _ nov3_valid eq_refl eq_refl))
                 "2026-11-02" 739922 eq_refl eq_refl eq_refl).
  - exact (proj1 (proj2 (proj2 (daily_completion_follows_streak_rule
                    (Samples.one_habit (Samples.exercise 4 (Some "2026-10-31")))
                    Samples.nov3 1 "back" _ nov3_valid eq_refl eq_refl)))
                 "2026-10-31" 739920 eq_refl eq_refl eq_refl).
Defined.

(** A habit already completed on 2026-11-03, and a first completion of
    that day followed by two repeats. *)
Lemma same_day_completion_is_rejected_witness :
  (forall n,
     complete_habit (Samples.one_habit (Samples.exercise 1 (Some "2026-11-03")))
                    Samples.nov3 1 n
     = mk_outcome (Ok false) ["Habit already completed today"]
         (Samples.one_habit (Samples.exercise 1 (Some "2026-11-03"))))
  /\ exists db',
       complete_each (Samples.one_habit (Samples.exercise 0 None))
                     Samples.nov3 1 ["a"; "b"; "c"]
       = ([Ok true; Ok false; Ok false], db')
       /\ habit_log db' = [mk_log 1 "a"].
Proof.
  split.
  - exact (proj1 (proj1 (same_day_completion_is_rejected
                    (Samples.one_habit (Samples.exercise 1 (Some "2026-11-03")))
                    Samples.nov3 1 _ eq_refl eq_refl) eq_refl)).
  - exact (proj2 (same_day_completion_is_rejected
                    (Samples.one_habit (Samples.exercise 0 None))
                    Samples.nov3 1 _ eq_refl eq_refl)
                 nov3_valid (or_introl eq_refl) "a" ["b"; "c"]).
Defined.

(** A weekly habit completed a second time on the same day. *)
Lemma weekly_monthly_completion_keeps_streak_witness :
  complete_habit (Samples.one_habit (Samples.reading 7 (Some "2026-11-03")))
                 Samples.nov3 1 "again"
  = mk_outcome (Ok true) []
      (mk_store {[ 1 := Samples.reading 7 (Some "2026-11-03") ]}
                [mk_log 1 "again"]).
Proof.
  exact (weekly_monthly_completion_keeps_streak
           (Samples.one_habit (Samples.reading 7 (Some "2026-11-03")))
           Samples.nov3 1 "again" _ eq_refl (or_introl eq_refl)).
Defined.

(** A last completion recorded two days ahead of 2026-11-03. *)
Lemma future_last_completed_only_logs_witness :
  "2026-11-05" <> isoformat Samples.nov3
  /\ complete_habit (Samples.one_habit (Samples.exercise 4 (Some "2026-11-05")))
                    Samples.nov3 1 "early"
     = mk_outcome (Ok true) []
         (mk_store {[ 1 := Samples.exercise 4 (Some "2026-11-05") ]}
                   [mk_log 1 "early"]).
Proof.
  exact (future_last_completed_only_logs
           (Samples.one_habit (Samples.exercise 4 (Some "2026-11-05")))
           Samples.nov3 1 "early" _ "2026-11-05" 739925
           eq_refl eq_refl eq_refl eq_refl eq_refl eq_refl).
Defined.

(** ** Reminders *)

Lemma reminder_of_row_returns (today : date) (id : Z) (h : habit) :
  (exists ds, days_since_completion today (last_completed h) = Ok ds) ->
  exists o, reminder_of_row today (id, h) = Ok o.
Proof.
  intros [ds Hds]. unfold reminder_of_row.
  destruct (eq_text _ _); [eauto |]. rewrite Hds. cbn. eauto.
Qed.

Lemma collect_reminders_returns (today : date) (rows : list (Z * habit)) :
  (forall r, In r rows -> exists o, reminder_of_row today r = Ok o) ->
  forall acc, exists rs,
    collect_reminders today rows acc = Ok rs
    /\ (forall x, In x acc -> In x rs)
    /\ (forall r x, In r rows -> reminder_of_row today r = Ok (Some x) -> In x rs).
Proof.
  induction rows as [| r rows IH]; intros Hrows acc.
  - exists acc. cbn. repeat split; auto. intros r x [].
  - destruct (Hrows r (or_introl eq_refl)) as [o Ho].
    set (acc' := match o with Some x => acc ++ [x] | None => acc end).
    destruct (IH (fun r' Hr' => Hrows r' (or_intror Hr')) acc')
      as (rs & Hrs & Hacc & Hin).
    exists rs. cbn [collect_reminders]. rewrite Ho. cbn [mbind result_bind].
    fold acc'. split; [exact Hrs |]. split.
    + intros x Hx. apply Hacc. unfold acc'.
      destruct o; [apply in_or_app |]; auto.
    + intros r' x [<- | Hr'] Hx.
      * rewrite Ho in Hx. injection Hx as ->. apply Hacc. unfold acc'.
        apply in_or_app. right. left. reflexivity.
      * eapply Hin; eauto.
Qed.

Lemma selected_rows (db : store) (id : Z) (h : habit) :
  In (id, h) (List.filter active_daily (map_to_list (habits db)))
  <-> habits db !! id = Some h
      /\ active h = 1 /\ goal_frequency h = "daily".
Proof.
  rewrite filter_In, <- list_elem_of_In, elem_of_map_to_list.
  unfold active_daily. cbn [snd].
  rewrite andb_true_iff, Z.eqb_eq, String.eqb_eq. tauto.
Qed.

(** C7. For an active daily habit whose [last_completed] is not the text
    of [today], the reminder carries the message that the days since the
    last completion and the streak count select: none, the first-step
    message; 1, the streak message when the streak exceeds 1 and the plain
    encouragement otherwise; 2, the no-worries message; 3 to 7, the
    jump-back-in message; more than 7, the waiting-for-you message.  The
    reminder is in the list that [get_habit_reminders] returns, and rows
    with the same name, streak and days yield the same message. *)
Theorem reminder_tier_by_days_and_streak (today : date) (id : Z) (h : habit)
    (ds : option Z) :
  active h = 1 ->
  goal_frequency h = "daily" ->
  last_completed h <> Some (isoformat today) ->
  days_since_completion today (last_completed h) = Ok ds ->
  let msg := reminder_message (name h) (streak_count h) ds in
  let r := mk_reminder id (name h) (streak_count h) ds msg in
  reminder_of_row today (id, h) = Ok (Some r)
  /\ (forall db,
        habits db !! id = Some h ->
        (forall id' h',
           habits db !! id' = Some h' ->
           active h' = 1 -> goal_frequency h' = "daily" ->
           exists ds', days_since_completion today (last_completed h') = Ok ds') ->
        exists rs, get_habit_reminders db today = Ok rs /\ In r rs)
  /\ (ds = None ->
      msg = "Ready to start '" +:+ name h +:+ "'? First step is the hardest!")
  /\ (ds = Some 1 -> 1 < streak_count h ->
      msg = "'" +:+ name h +:+ "' - keep that " +:+ str_int (streak_count h)
                +:+ "-day streak going! 🔥")
  /\ (ds = Some 1 -> streak_count h <= 1 ->
      msg = "Time for '" +:+ name h +:+ "' - you've got this!")
  /\ (ds = Some 2 ->
      msg = "'" +:+ name h +:+ "' - no worries, just pick it back up when ready.")
  /\ (forall k, ds = Some k -> 3 <= k <= 7 ->
      msg = "'" +:+ name h +:+ "' - when you're ready to jump back in.")
  /\ (forall k, ds = Some k -> 7 < k ->
      msg = "'" +:+ name h +:+ "' - waiting for you when inspiration strikes.")
  /\ (forall today' id' h' r',
        reminder_of_row today' (id', h') = Ok (Some r') ->
        name h' = name h -> streak_count h' = streak_count h ->
        r_days_since r' = ds ->
        r_message r' = msg).
Proof.
  intros Ha Hg Hl Hds msg r.
  assert (Hrow : reminder_of_row today (id, h) = Ok (Some r)).
  { unfold reminder_of_row. rewrite eq_text_other by exact Hl.
    rewrite Hds. reflexivity. }
  split; [exact Hrow |]. split.
  { intros db Hh Hall.
    destruct (collect_reminders_returns today
                (List.filter active_daily (map_to_list (habits db)))) with (acc := @nil reminder)
      as (rs & Hrs & _ & Hin).
    - intros [id' h'] Hr. apply selected_rows in Hr.
      destruct Hr as (Hh' & Ha' & Hg').
      apply reminder_of_row_returns. eauto.
    - exists rs. split; [exact Hrs |].
      apply (Hin (id, h)); [| exact Hrow].
      apply selected_rows. auto. }
  unfold msg, reminder_message.
  repeat split;
    try (intros; subst ds; settle_tests; reflexivity).
  - intros today' id' h' r' Hr' Hn Hs Hd. unfold reminder_of_row in Hr'.
    destruct (eq_text _ _); [discriminate |].
    destruct (days_since_completion today' (last_completed h')) as [ds' | e];
      [| discriminate].
    cbn in Hr'. injection Hr' as <-. cbn in Hd. subst ds'.
    cbn. rewrite Hn, Hs. reflexivity.
Qed.

(** The examples of the specification: one day since the last completion
    with a streak of 5, and ten days since with a streak of 5. *)
Lemma reminder_tier_by_days_and_streak_witness :
  reminder_of_row Samples.nov3 (1, Samples.exercise 5 (Some "2026-11-02"))
  = Ok (Some (mk_reminder 1 "exercise" 5 (Some 1)
                "'exercise' - keep that 5-day streak going! 🔥"))
  /\ reminder_of_row Samples.nov3 (1, Samples.exercise 5 (Some "2026-10-24"))
     = Ok (Some (mk_reminder 1 "exercise" 5 (Some 10)
                   "'exercise' - waiting for you when inspiration strikes.")).
Proof.
  split.
  - exact (proj1 (reminder_tier_by_days_and_streak
                    Samples.nov3 1 (Samples.exercise 5 (Some "2026-11-02"))
                    (Some 1) eq_refl eq_refl
                    ltac:(vm_compute; discriminate) eq_refl)).
  - exact (proj1 (reminder_tier_by_days_and_streak
                    Samples.nov3 1 (Samples.exercise 5 (Some "2026-10-24"))
                    (Some 10) eq_refl eq_refl
                    ltac:(vm_compute; discriminate) eq_refl)).
Defined.

End StreakFacts.

(* ===================================================================== *)
(** * Facts about the focus-session manager *)
(* ===================================================================== *)

Section FocusFacts.
Import Focus.

(** ** The integer part of a duration *)

Lemma int_of_float_nonneg (x : Q) :
  (0 <= x)%Q ->
  0 <= int_of_float x
  /\ (inject_Z (int_of_float x) <= x < inject_Z (int_of_float x + 1))%Q.
Proof.
  destruct x as [p q]. unfold int_of_float, Qle, Qlt. cbn. intros Hp.
  assert (Hp' : 0 <= p) by lia.
  pose proof (Z.quot_rem' p (Z.pos q)) as E.
  pose proof (Z.rem_bound_pos p (Z.pos q) Hp' ltac:(lia)) as B.
  pose proof (Z.quot_pos p (Z.pos q) Hp' ltac:(lia)) as Q0.
  nia.
Qed.

Lemma int_of_float_nonpos (x : Q) :
  (x <= 0)%Q ->
  int_of_float x <= 0
  /\ (inject_Z (int_of_float x - 1) < x <= inject_Z (int_of_float x))%Q.
Proof.
  destruct x as [p q]. unfold int_of_float, Qle, Qlt. cbn. intros Hp.
  assert (Hp' : 0 <= - p) by lia.
  pose proof (Z.quot_rem' (- p) (Z.pos q)) as E.
  pose proof (Z.rem_bound_pos (- p) (Z.pos q) Hp' ltac:(lia)) as B.
  pose proof (Z.quot_pos (- p) (Z.pos q) Hp' ltac:(lia)) as Q0.
  rewrite Z.quot_opp_l in E, Q0 by lia.
  nia.
Qed.

(** Against a positive whole number, a duration and its integer part
    compare alike. *)
Lemma int_of_float_ge (x : Q) (n : Z) :
  0 < n -> (n <= int_of_float x <-> (inject_Z n <= x)%Q).
Proof.
  intros Hn. destruct (Qlt_le_dec x 0) as [Hneg | Hpos].
  - destruct (int_of_float_nonpos x (Qlt_le_weak _ _ Hneg)) as [Hk _].
    split; [lia |]. intros H. exfalso.
    assert (Hc : (inject_Z n <= 0)%Q) by (eapply Qle_trans; [exact H | apply Qlt_le_weak, Hneg]).
    unfold Qle in Hc. cbn in Hc. lia.
  - destruct (int_of_float_nonneg x Hpos) as [Hk [Hlo Hhi]].
    split; intros H.
    + eapply Qle_trans; [| exact Hlo]. rewrite <- Zle_Qle. exact H.
    + assert (Hlt : (inject_Z n < inject_Z (int_of_float x + 1))%Q)
        by (eapply Qle_lt_trans; eauto).
      rewrite <- Zlt_Qlt in Hlt. lia.
Qed.

Lemma str_int_nonpos (z : Z) :
  z <= 0 -> str_int z = "0" \/ exists digits, str_int z = String "-" digits.
Proof.
  intros Hz. destruct z as [| p | p]; [left; reflexivity | lia |].
  right. unfold str_int. cbn. eauto.
Qed.

(** ** The proposer *)

(** C2. The proposal's suggested timer follows the tiers on the gap's
    whole minutes, the first match from the top winning: at least 240,
    the deep work block; from 180 to 239, three pomodoros and a long
    break; from 120 to 179, the focus block; below 120, the minutes less
    15 as a focus session, which shows a number that is zero or negative
    when the minutes are 15 or fewer. *)
Theorem suggested_timer_follows_tiers (opp : opportunity)
    (task : option string) (level : option Z) :
  let p := propose_focus_session opp task level in
  let m := duration_minutes p in
  m = int_of_float (opp_duration opp)
  /\ (240 <= m -> suggested_timer p = "120 min (deep work block)")
  /\ (180 <= m < 240 -> suggested_timer p = "90 min (3 pomodoros + long break)")
  /\ (120 <= m < 180 -> suggested_timer p = "90 min (focus block)")
  /\ (m < 120 ->
      suggested_timer p = str_int (m - 15) +:+ " min (focus session)")
  /\ (m - 15 <= 0 ->
      str_int (m - 15) = "0"
      \/ exists digits, str_int (m - 15) = String "-" digits).
Proof.
  cbn zeta. unfold propose_focus_session. cbn [duration_minutes suggested_timer].
  set (m := int_of_float (opp_duration opp)).
  repeat split; try (intros H; settle_tests; reflexivity).
  apply str_int_nonpos.
Qed.

(** C9. The proposer drops the fractional part of the duration, toward
    zero, before it picks the tier, and records the whole minutes in the
    proposal: a duration from 180 up to but not including 240 minutes
    gets the pomodoro tier, whatever its fraction. *)
Theorem proposer_truncates_duration (opp : opportunity)
    (task : option string) (level : option Z) :
  let x := opp_duration opp in
  let p := propose_focus_session opp task level in
  let m := duration_minutes p in
  ((0 <= x)%Q -> 0 <= m /\ (inject_Z m <= x < inject_Z (m + 1))%Q)
  /\ ((x <= 0)%Q -> m <= 0 /\ (inject_Z (m - 1) < x <= inject_Z m)%Q)
  /\ ((240 <= x)%Q -> suggested_timer p = "120 min (deep work block)")
  /\ ((180 <= x < 240)%Q ->
      180 <= m < 240
      /\ suggested_timer p = "90 min (3 pomodoros + long break)")
  /\ ((120 <= x < 180)%Q ->
      120 <= m < 180 /\ suggested_timer p = "90 min (focus block)")
  /\ ((x < 120)%Q ->
      m < 120
      /\ suggested_timer p = str_int (m - 15) +:+ " min (focus session)").
Proof.
  cbn zeta. unfold propose_focus_session. cbn [duration_minutes suggested_timer].
  set (x := opp_duration opp). set (m := int_of_float x).
  pose proof (int_of_float_ge x 240 eq_refl) as H240.
  pose proof (int_of_float_ge x 180 eq_refl) as H180.
  pose proof (int_of_float_ge x 120 eq_refl) as H120.
  fold m in H240, H180, H120.
  assert (Hbelow : forall n, (n <= m <-> (inject_Z n <= x)%Q) ->
                             (x < inject_Z n)%Q -> m < n).
  { intros n Hn Hlt. apply Z.lt_nge. intros Hc. apply Hn in Hc.
    exact (Qlt_not_le _ _ Hlt Hc). }
  split; [apply int_of_float_nonneg |].
  split; [apply int_of_float_nonpos |].
  split; [| split; [| split]].
  - intros H. apply H240 in H. settle_tests. reflexivity.
  - intros [Hlo Hhi]. apply H180 in Hlo. apply (Hbelow 240 H240) in Hhi.
    split; [lia |]. settle_tests. reflexivity.
  - intros [Hlo Hhi]. apply H120 in Hlo. apply (Hbelow 180 H180) in Hhi.
    split; [lia |]. settle_tests. reflexivity.
  - intros Hhi. apply (Hbelow 120 H120) in Hhi.
    split; [lia |]. settle_tests. reflexivity.
Qed.

(** ** The gap finder *)

(** The threshold test, in microseconds. *)
Lemma long_enough_iff (t1 t2 : datetime) (min_minutes : Z) :
  float_ge_int (minutes_between t1 t2) min_minutes = true
  <-> min_minutes * US_PER_MINUTE <= t1 - t2.
Proof.
  unfold float_ge_int, minutes_between.
  rewrite Qle_bool_iff, Qred_correct.
  unfold Qle. cbn [Qnum Qden inject_Z].
  change (Z.pos (Z.to_pos US_PER_MINUTE)) with US_PER_MINUTE. lia.
Qed.

Lemma minutes_between_pos (t1 t2 : datetime) :
  (0 < minutes_between t1 t2)%Q <-> t2 < t1.
Proof.
  unfold minutes_between. rewrite Qred_correct.
  unfold Qlt. cbn [Qnum Qden].
  change (Z.pos (Z.to_pos US_PER_MINUTE)) with US_PER_MINUTE. lia.
Qed.

(** Every opportunity of the loop names the event before it, spans from
    the end of an event to the start of the next, and passed the
    threshold. *)
Lemma between_opportunities_in (events : list event) (min_minutes : Z)
    (g : opportunity) :
  In g (between_opportunities events min_minutes) ->
  exists i e e',
    events !! i = Some e /\ events !! S i = Some e'
    /\ g = mk_opportunity (ev_end e) (ev_start e')
             (minutes_between (ev_start e') (ev_end e))
             (Some (ev_summary e)) (Some (ev_summary e'))
    /\ min_minutes * US_PER_MINUTE <= ev_start e' - ev_end e.
Proof.
  induction events as [| e rest IH]; [intros [] |].
  destruct rest as [| e' rest']; [intros [] |].
  cbn [between_opportunities]. intros Hg. apply in_app_or in Hg.
  destruct Hg as [Hg | Hg].
  - destruct (float_ge_int _ _) eqn:Hlong; [| destruct Hg].
    destruct Hg as [<- | []]. exists 0%nat, e, e'.
    apply long_enough_iff in Hlong. auto.
  - destruct (IH Hg) as (i & a & b & Ha & Hb & Hgap & Hlong).
    exists (S i), a, b. auto.
Qed.

(** C4. With a first event that starts after [now], the gap finder emits
    the leading gap from [now] to that start exactly when the gap is at
    least [min_minutes] long.  When emitted it comes first, it names no
    event before it and the first event after it, and it is the only
    opportunity that names no event before it. *)
Theorem leading_gap_iff_long_enough (first : event) (rest : list event)
    (now : datetime) (min_minutes : Z) :
  now < ev_start first ->
  let events := first :: rest in
  let gap :=
    mk_opportunity now (ev_start first)
      (minutes_between (ev_start first) now) None (Some (ev_summary first)) in
  let found := find_focus_opportunities events now min_minutes in
  (In gap found <-> min_minutes * US_PER_MINUTE <= ev_start first - now)
  /\ (min_minutes * US_PER_MINUTE <= ev_start first - now ->
      found = gap :: between_opportunities events min_minutes)
  /\ (forall g, In g found -> opp_after_event g = None -> g = gap).
Proof.
  intros Hnow events gap found.
  assert (Hlead : leading_opportunity events now min_minutes
                  = if float_ge_int (minutes_between (ev_start first) now)
                         min_minutes
                    then [gap] else []).
  { unfold leading_opportunity, events.
    replace (now <? ev_start first) with true by lia. reflexivity. }
  assert (Hbetween : forall g,
             In g (between_opportunities events min_minutes) ->
             opp_after_event g <> None).
  { intros g Hg. apply between_opportunities_in in Hg.
    destruct Hg as (i & e & e' & _ & _ & -> & _). discriminate. }
  unfold found, find_focus_opportunities. rewrite Hlead.
  destruct (float_ge_int _ _) eqn:Hlong.
  - apply long_enough_iff in Hlong. split; [| split].
    + split; [auto | intros _; left; reflexivity].
    + reflexivity.
    + intros g [<- | Hg] Hnone; [reflexivity |].
      exfalso. exact (Hbetween g Hg Hnone).
  - assert (Hshort : ~ min_minutes * US_PER_MINUTE <= ev_start first - now).
    { intros H. apply long_enough_iff in H. congruence. }
    split; [| split].
    + split; [| tauto]. cbn [app]. intros Hg.
      exfalso. exact (Hbetween gap Hg eq_refl).
    + tauto.
    + intros g Hg Hnone. exfalso. exact (Hbetween g Hg Hnone).
Qed.

(** At 07:00, before meetings at 09:00 and 14:00, with the default
    threshold of 120 minutes. *)
Lemma leading_gap_iff_long_enough_witness :
  find_focus_opportunities Samples.two_meetings (Samples.at_time 7 0) 120
  = [mk_opportunity (Samples.at_time 7 0) (Samples.at_time 9 0) (120 # 1)
       None (Some (JString "standup"));
     mk_opportunity (Samples.at_time 10 0) (Samples.at_time 14 0) (240 # 1)
       (Some (JString "standup")) (Some (JString "review"))].
Proof.
  refine (eq_trans
            (proj1 (proj2 (leading_gap_iff_long_enough
                             (Samples.meeting "standup" (Samples.at_time 9 0)
                                (Samples.at_time 10 0))
                             [Samples.meeting "review" (Samples.at_time 14 0)
                                (Samples.at_time 15 0)]
                             (Samples.at_time 7 0) 120 eq_refl)) _) _).
  - vm_compute. discriminate.
  - vm_compute. reflexivity.
Defined.

(** C5, the failing input.  With a threshold of zero minutes, at 08:00,
    two meetings back to back (09:00 to 10:00 and 10:00 to 11:00) yield an
    opportunity of zero minutes between them.  The gap before the first
    event is emitted only when that event starts after [now]; the loop
    over the pairs of events has no such test beside the threshold. *)
Lemma zero_threshold_emits_empty_gap :
  exists (events : list event) (now : datetime) (min_minutes : Z)
         (e e' : event) (g : opportunity),
    sorted_busy events = true
    /\ events !! 0%nat = Some e /\ events !! 1%nat = Some e'
    /\ ev_start e' <= ev_end e
    /\ In g (find_focus_opportunities events now min_minutes)
    /\ opp_start g = ev_end e /\ opp_end g = ev_start e'
    /\ (opp_duration g <= 0)%Q.
Proof.
  exists Samples.back_to_back, (Samples.at_time 8 0), 0.
  exists (Samples.meeting "standup" (Samples.at_time 9 0) (Samples.at_time 10 0)).
  exists (Samples.meeting "review" (Samples.at_time 10 0) (Samples.at_time 11 0)).
  exists (mk_opportunity (Samples.at_time 10 0) (Samples.at_time 10 0) 0
            (Some (JString "standup")) (Some (JString "review"))).
  split; [reflexivity |]. split; [reflexivity |]. split; [reflexivity |].
  split; [apply Z.leb_le; reflexivity |].
  split; [vm_compute; right; left; reflexivity |].
  split; [reflexivity |]. split; [reflexivity |].
  apply Qle_bool_iff. reflexivity.
Qed.

(** X28. With a threshold of at least one minute, every opportunity that
    the gap finder emits ends after it starts and has a positive
    duration; hence for an adjacent pair of events where the first ends
    at or after the start of the second, no opportunity from the end of
    the first to the start of the second is emitted. *)
Theorem positive_threshold_skips_overlaps (events : list event)
    (now : datetime) (min_minutes : Z) :
  0 < min_minutes ->
  let found := find_focus_opportunities events now min_minutes in
  (forall g, In g found ->
     opp_start g < opp_end g /\ (0 < opp_duration g)%Q)
  /\ (forall i e e',
        events !! i = Some e -> events !! S i = Some e' ->
        ev_start e' <= ev_end e ->
        forall g, In g found ->
          ~ (opp_start g = ev_end e /\ opp_end g = ev_start e')).
Proof.
  intros Hmin found.
  assert (Hpos : forall g, In g found ->
                   opp_start g < opp_end g /\ (0 < opp_duration g)%Q).
  { intros g Hg. unfold found, find_focus_opportunities in Hg.
    apply in_app_or in Hg. destruct Hg as [Hg | Hg].
    - unfold leading_opportunity in Hg.
      destruct events as [| first rest]; [destruct Hg |].
      destruct (now <? ev_start first) eqn:Hnow; [| destruct Hg].
      destruct (float_ge_int _ _); [| destruct Hg].
      destruct Hg as [<- | []]. cbn [opp_start opp_end opp_duration].
      rewrite minutes_between_pos. lia.
    - apply between_opportunities_in in Hg.
      destruct Hg as (i & e & e' & _ & _ & -> & Hlong).
      cbn [opp_start opp_end opp_duration]. rewrite minutes_between_pos.
      unfold US_PER_MINUTE, US_PER_SECOND in Hlong. lia. }
  split; [exact Hpos |].
  intros i e e' _ _ Hoverlap g Hg [Hs He].
  destruct (Hpos g Hg) as [Hlt _]. lia.
Qed.

(** Back-to-back meetings under the default threshold: only the leading
    gap from 07:00 is emitted. *)
Lemma positive_threshold_skips_overlaps_witness :
  (forall g,
     In g (find_focus_opportunities Samples.back_to_back
             (Samples.at_time 7 0) 120) ->
     opp_start g < opp_end g /\ (0 < opp_duration g)%Q)
  /\ find_focus_opportunities Samples.back_to_back (Samples.at_time 7 0) 120
     = [mk_opportunity (Samples.at_time 7 0) (Samples.at_time 9 0) 120
          None (Some (JString "standup"))].
Proof.
  split.
  - exact (proj1 (positive_threshold_skips_overlaps Samples.back_to_back
                    (Samples.at_time 7 0) 120 eq_refl)).
  - vm_compute. reflexivity.
Defined.

(** ** The calendar fetch *)

(** Whatever escapes the body of [get_calendar_events] becomes the empty
    list. *)
Lemma get_calendar_events_absorbs
    (json_loads : string -> option json)
    (datetime_fromisoformat : string -> option parsed_datetime)
    (run : run_result) (now : datetime) (hours_ahead : Z) (e : exn) :
  fetch_events json_loads datetime_fromisoformat run now hours_ahead = Raise e ->
  get_calendar_events json_loads datetime_fromisoformat run now hours_ahead = [].
Proof. intros H. unfold get_calendar_events. rewrite H. reflexivity. Qed.

(** C8. When the provider call exits with a non-zero status, times out,
    or answers with text that does not parse, [get_calendar_events]
    returns the empty list, and the gap finder then finds nothing. *)
Theorem provider_fault_yields_no_events
    (json_loads : string -> option json)
    (datetime_fromisoformat : string -> option parsed_datetime)
    (run : run_result) (now : datetime) (hours_ahead : Z) :
  provider_fault json_loads run ->
  get_calendar_events json_loads datetime_fromisoformat run now hours_ahead = []
  /\ forall now' min_minutes,
       find_focus_opportunities
         (get_calendar_events json_loads datetime_fromisoformat run now
            hours_ahead)
         now' min_minutes
       = [].
Proof.
  intros Hfault.
  assert (Hnone : get_calendar_events json_loads datetime_fromisoformat run
                    now hours_ahead = []).
  { destruct Hfault as [rc out Hrc | | out Hparse].
    - unfold get_calendar_events, fetch_events.
      replace (rc =? 0) with false by lia. reflexivity.
    - reflexivity.
    - apply (get_calendar_events_absorbs _ _ _ _ _ ValueError).
      unfold fetch_events. cbn [Z.eqb negb]. rewrite Hparse. reflexivity. }
  split; [exact Hnone |]. intros now' min_minutes. rewrite Hnone. reflexivity.
Qed.

(** The three faults, with a decoder that rejects the text it is given. *)
Lemma provider_fault_yields_no_events_witness :
  get_calendar_events (fun _ => None) (fun _ => None)
    (Completed 1 "") (Samples.at_time 8 0) 8 = []
  /\ get_calendar_events (fun _ => None) (fun _ => None)
       (RunRaised TimeoutExpired) (Samples.at_time 8 0) 8 = []
  /\ get_calendar_events (fun _ => None) (fun _ => None)
       (Completed 0 "<html>") (Samples.at_time 8 0) 8 = [].
Proof.
  split; [| split].
  - exact (proj1 (provider_fault_yields_no_events (fun _ => None) (fun _ => None)
                    (Completed 1 "") (Samples.at_time 8 0) 8
                    (fault_exit_status _ 1 "" ltac:(discriminate)))).
  - exact (proj1 (provider_fault_yields_no_events (fun _ => None) (fun _ => None)
                    (RunRaised TimeoutExpired) (Samples.at_time 8 0) 8
                    (fault_timeout _))).
  - exact (proj1 (provider_fault_yields_no_events (fun _ => None) (fun _ => None)
                    (Completed 0 "<html>") (Samples.at_time 8 0) 8
                    (fault_parse _ "<html>" eq_refl))).
Defined.

End FocusFacts.

(* ===================================================================== *)
(** * Worked examples *)
(* ===================================================================== *)

Section Examples.
Import Streak Focus.

Example ymd2ord_epoch : ymd2ord 1970 1 1 = 719163.
Proof. reflexivity. Qed.

Example ord2ymd_epoch : ord2ymd 719163 = (1970, 1, 1).
Proof. reflexivity. Qed.

Example ord2ymd_last_day : ord2ymd date_max = (9999, 12, 31).
Proof. reflexivity. Qed.

Example ord2ymd_leap_day : ord2ymd (ymd2ord 2024 2 29) = (2024, 2, 29).
Proof. reflexivity. Qed.

Example ord2ymd_end_of_cycle : ord2ymd (ymd2ord 2000 12 31) = (2000, 12, 31).
Proof. reflexivity. Qed.

Example isoformat_nov3 : isoformat Samples.nov3 = "2026-11-03".
Proof. reflexivity. Qed.

Example fromisoformat_nov3 : fromisoformat "2026-11-03" = Some Samples.nov3.
Proof. reflexivity. Qed.

Example fromisoformat_no_such_day : fromisoformat "2026-02-29" = None.
Proof. reflexivity. Qed.

Example fromisoformat_not_a_date : fromisoformat "yesterday" = None.
Proof. reflexivity. Qed.

Example datetime_isoformat_seven : 
  datetime_isoformat (Samples.at_time 7 0) = "2026-11-03T07:00:00".
Proof. reflexivity. Qed.

(** The end-to-end scenario of the specification: completions on three
    days in a row give a streak of 3; after a skipped day the next
    completion gives a streak of 1. *)
Example three_days_in_a_row :
  streak_count
    <$> habits (Samples.complete_on (Samples.one_habit (Samples.exercise 0 None))
                  [Samples.nov3; Samples.nov3 + 1; Samples.nov3 + 2]) !! 1
  = Some 3.
Proof. vm_compute. reflexivity. Qed.

Example skipped_day_resets :
  let db := Samples.complete_on (Samples.one_habit (Samples.exercise 0 None))
              [Samples.nov3; Samples.nov3 + 1; Samples.nov3 + 2;
               Samples.nov3 + 4] in
  (streak_count <$> habits db !! 1) = Some 1
  /\ (last_completed <$> habits db !! 1) = Some (Some "2026-11-07")
  /\ List.length (habit_log db) = 4%nat.
Proof. vm_compute. repeat split; reflexivity. Qed.

(** A text that is neither empty nor a date: the call raises, and the
    log insert is not committed. *)
Example malformed_last_completed :
  complete_habit (Samples.one_habit (Samples.exercise 2 (Some "yesterday")))
                 Samples.nov3 1 ""
  = mk_outcome (Raise ValueError) []
      (Samples.one_habit (Samples.exercise 2 (Some "yesterday"))).
Proof. reflexivity. Qed.

(** The tier boundary of the specification: 239 and 240 whole minutes. *)
Example propose_239 :
  suggested_timer (propose_focus_session (Samples.free_minutes 239) None None)
  = "90 min (3 pomodoros + long break)".
Proof. reflexivity. Qed.

Example propose_240 :
  suggested_timer (propose_focus_session (Samples.free_minutes 240) None None)
  = "120 min (deep work block)".
Proof. reflexivity. Qed.

(** 239.9 minutes, as the exact decimal and as the double nearest to it. *)
Example propose_239_9 :
  let p := propose_focus_session (Samples.free_minutes (2399 # 10)) None None in
  duration_minutes p = 239
  /\ suggested_timer p = "90 min (3 pomodoros + long break)".
Proof. split; reflexivity. Qed.

Example propose_239_9_double :
  let p := propose_focus_session
             (Samples.free_minutes Samples.double_239_9) None None in
  duration_minutes p = 239
  /\ suggested_timer p = "90 min (3 pomodoros + long break)".
Proof. split; reflexivity. Qed.

(** A gap of ten minutes: the suggestion shows minus five minutes. *)
Example propose_10 :
  suggested_timer (propose_focus_session (Samples.free_minutes 10) None None)
  = "-5 min (focus session)".
Proof. reflexivity. Qed.

(** A negative duration is cut toward zero, not down. *)
Example int_of_float_negative : int_of_float (- (5 # 2)) = -2.
Proof. reflexivity. Qed.

(** Overlapping meetings under a negative threshold: a gap of minus
    thirty minutes is emitted. *)
Example negative_threshold_emits_negative_gap :
  find_focus_opportunities
    [Samples.meeting "standup" (Samples.at_time 9 0) (Samples.at_time 10 30);
     Samples.meeting "review" (Samples.at_time 10 0) (Samples.at_time 11 0)]
    (Samples.at_time 9 15) (-60)
  = [mk_opportunity (Samples.at_time 10 30) (Samples.at_time 10 0) (- (30 # 1))
       (Some (JString "standup")) (Some (JString "review"))].
Proof. vm_compute. reflexivity. Qed.

(** An empty calendar yields no opportunity. *)
Example no_events_no_gaps (now : datetime) (min_minutes : Z) :
  find_focus_opportunities [] now min_minutes = [].
Proof. reflexivity. Qed.

End Examples.

(* ===================================================================== *)
(** * Further facts about the gap finder and the proposer *)
(* ===================================================================== *)

Section GapFacts.
Import Focus.

Lemma lookup_In {A : Type} (l : list A) (i : nat) (x : A) :
  l !! i = Some x -> In x l.
Proof. intros H. apply list_elem_of_In. eapply list_elem_of_lookup_2. exact H. Qed.

(** One turn of the loop of [find_focus_opportunities]. *)
Lemma between_opportunities_cons (e e' : event) (rest : list event)
    (min_minutes : Z) :
  between_opportunities (e :: e' :: rest) min_minutes
  = (if float_ge_int (minutes_between (ev_start e') (ev_end e)) min_minutes
     then [mk_opportunity (ev_end e) (ev_start e')
             (minutes_between (ev_start e') (ev_end e))
             (Some (ev_summary e)) (Some (ev_summary e'))]
     else [])
    ++ between_opportunities (e' :: rest) min_minutes.
Proof. reflexivity. Qed.

Lemma between_opportunities_length (events : list event) (min_minutes : Z) :
  (List.length (between_opportunities events min_minutes)
   <= Nat.pred (List.length events))%nat.
Proof.
  induction events as [| e rest IH]; [cbn; lia |].
  destruct rest as [| e' rest']; [cbn; lia |].
  rewrite between_opportunities_cons, length_app.
  cbn [List.length Nat.pred] in *.
  destruct (float_ge_int _ _); cbn [List.length]; lia.
Qed.

Lemma found_opportunity_shape (events : list event) (now : datetime)
    (min_minutes : Z) (g : opportunity) :
  In g (find_focus_opportunities events now min_minutes) ->
  opp_duration g = minutes_between (opp_end g) (opp_start g)
  /\ min_minutes * US_PER_MINUTE <= opp_end g - opp_start g
  /\ (exists e, In e events /\ opp_end g = ev_start e
                /\ opp_before_event g = Some (ev_summary e))
  /\ ((opp_start g = now /\ opp_after_event g = None)
      \/ exists e, In e events /\ opp_start g = ev_end e
                   /\ opp_after_event g = Some (ev_summary e)).
Proof.
  intros Hg.
  unfold find_focus_opportunities in Hg. apply in_app_or in Hg.
  destruct Hg as [Hg | Hg].
  - unfold leading_opportunity in Hg.
    destruct events as [| first rest]; [destruct Hg |].
    destruct (now <? ev_start first); [| destruct Hg].
    destruct (float_ge_int _ _) eqn:Hlong; [| destruct Hg].
    destruct Hg as [<- | []]. cbn [opp_start opp_end opp_duration
                                    opp_after_event opp_before_event].
    apply long_enough_iff in Hlong.
    split; [reflexivity |]. split; [exact Hlong |]. split.
    + exists first. split; [left; reflexivity | auto].
    + left. auto.
  - apply between_opportunities_in in Hg.
    destruct Hg as (i & e & e' & Hi & Hi' & -> & Hlong).
    cbn [opp_start opp_end opp_duration opp_after_event opp_before_event].
    split; [reflexivity |]. split; [exact Hlong |]. split.
    + exists e'. split; [exact (lookup_In _ _ _ Hi') | auto].
    + right. exists e. split; [exact (lookup_In _ _ _ Hi) | auto].
Qed.

(** X1. Every opportunity that the gap finder returns is at least
    [min_minutes] long, carries as duration the minutes between its two
    ends, and ends at the start of an event of the list, which it names
    as the event after it; it starts at [now] and names no event before
    it, or starts at the end of an event that it names.  So nothing is
    returned that would reach past the last event. *)
Theorem opportunities_meet_threshold (events : list event) (now : datetime)
    (min_minutes : Z) :
  Forall
    (fun g =>
       opp_duration g = minutes_between (opp_end g) (opp_start g)
       /\ min_minutes * US_PER_MINUTE <= opp_end g - opp_start g
       /\ (exists e, In e events /\ opp_end g = ev_start e
                     /\ opp_before_event g = Some (ev_summary e))
       /\ ((opp_start g = now /\ opp_after_event g = None)
           \/ exists e, In e events /\ opp_start g = ev_end e
                        /\ opp_after_event g = Some (ev_summary e)))
    (find_focus_opportunities events now min_minutes).
Proof.
  apply List.Forall_forall. intros g Hg.
  exact (found_opportunity_shape events now min_minutes g Hg).
Qed.

(** X2. Two neighbouring events with at least [min_minutes] minutes
    between the end of the first and the start of the second yield an
    opportunity for exactly that stretch, naming both events. *)
Theorem long_enough_pair_is_found (events : list event) (now : datetime)
    (min_minutes : Z) (i : nat) (e e' : event) :
  events !! i = Some e ->
  events !! S i = Some e' ->
  min_minutes * US_PER_MINUTE <= ev_start e' - ev_end e ->
  In (mk_opportunity (ev_end e) (ev_start e')
        (minutes_between (ev_start e') (ev_end e))
        (Some (ev_summary e)) (Some (ev_summary e')))
     (find_focus_opportunities events now min_minutes).
Proof.
  intros Hi Hi' Hlong. unfold find_focus_opportunities.
  apply in_or_app. right. clear now.
  revert i Hi Hi'. induction events as [| a rest IH]; intros i Hi Hi'.
  - discriminate.
  - destruct rest as [| b rest']; [destruct i; discriminate |].
    rewrite between_opportunities_cons. apply in_or_app.
    destruct i as [| i].
    + cbn in Hi, Hi'. injection Hi as <-. injection Hi' as <-.
      left. apply long_enough_iff in Hlong. rewrite Hlong. left. reflexivity.
    + right. apply (IH i); assumption.
Qed.

Lemma long_enough_pair_is_found_witness :
  In (mk_opportunity (Samples.at_time 10 0) (Samples.at_time 14 0) 240
        (Some (JString "standup")) (Some (JString "review")))
     (find_focus_opportunities Samples.two_meetings (Samples.at_time 9 30) 120).
Proof.
  exact (long_enough_pair_is_found Samples.two_meetings (Samples.at_time 9 30)
           120 0 _ _ eq_refl eq_refl ltac:(vm_compute; discriminate)).
Defined.

(** X3. The gap finder returns at most one opportunity per event, and
    none for an empty calendar. *)
Theorem opportunities_at_most_events (events : list event) (now : datetime)
    (min_minutes : Z) :
  (List.length (find_focus_opportunities events now min_minutes)
   <= List.length events)%nat.
Proof.
  unfold find_focus_opportunities. rewrite length_app.
  pose proof (between_opportunities_length events min_minutes) as Hb.
  set (b := List.length (between_opportunities events min_minutes)) in *.
  clearbody b. unfold leading_opportunity.
  destruct events as [| first rest]; [cbn in *; lia |].
  cbn [List.length Nat.pred] in *.
  destruct (now <? ev_start first); [| cbn; lia].
  destruct (float_ge_int _ _); cbn; lia.
Qed.

End GapFacts.

Section FreeWindows.
Import Focus.

Lemma non_overlapping_cons (e : event) (rest : list event) :
  non_overlapping (e :: rest) = true ->
  ev_start e <= ev_end e
  /\ non_overlapping rest = true
  /\ Forall (fun x => ev_end e <= ev_start x /\ ev_start x <= ev_end x) rest.
Proof.
  revert e. induction rest as [| e' rest IH]; intros e H.
  - cbn in H. split; [lia |]. split; [reflexivity | constructor].
  - cbn [non_overlapping] in H.
    apply andb_prop in H. destruct H as [H Hrest].
    apply andb_prop in H. destruct H as [He Hee'].
    destruct (IH e' Hrest) as (He' & Hrest' & Hall).
    split; [lia |]. split; [exact Hrest |].
    constructor; [lia |].
    eapply Forall_impl; [exact Hall |]. cbn. intros x [Hx1 Hx2]. lia.
Qed.

Lemma between_opportunities_free (events : list event) (min_minutes : Z) :
  non_overlapping events = true ->
  forall g x,
    In g (between_opportunities events min_minutes) -> In x events ->
    ev_end x <= opp_start g \/ opp_end g <= ev_start x.
Proof.
  induction events as [| e rest IH]; [intros _ g x [] |].
  destruct rest as [| e' rest']; [intros _ g x [] |].
  intros Hno g x Hg Hx.
  destruct (non_overlapping_cons _ _ Hno) as (He & Hrest & Hall).
  destruct (non_overlapping_cons _ _ Hrest) as (He' & _ & Hall').
  rewrite between_opportunities_cons in Hg. apply in_app_or in Hg.
  destruct Hg as [Hg | Hg].
  - destruct (float_ge_int _ _); [| destruct Hg].
    destruct Hg as [<- | []]. cbn [opp_start opp_end].
    destruct Hx as [<- | [<- | Hx]]; [left; lia | right; lia |].
    right. rewrite Forall_forall in Hall'.
    apply list_elem_of_In in Hx. specialize (Hall' x Hx). lia.
  - destruct Hx as [<- | Hx]; [| exact (IH Hrest g x Hg Hx)].
    left. apply between_opportunities_in in Hg.
    destruct Hg as (i & a & b & Ha & _ & -> & _). cbn [opp_start].
    apply lookup_In in Ha. rewrite Forall_forall in Hall.
    apply list_elem_of_In in Ha. specialize (Hall a Ha). lia.
Qed.

(** X4. When the events follow one another without overlap, every
    opportunity that the gap finder returns is free: each event ends no
    later than the opportunity starts, or starts no earlier than the
    opportunity ends. *)
Theorem opportunities_avoid_events (events : list event) (now : datetime)
    (min_minutes : Z) :
  non_overlapping events = true ->
  Forall
    (fun g =>
       Forall (fun x => ev_end x <= opp_start g \/ opp_end g <= ev_start x)
              events)
    (find_focus_opportunities events now min_minutes).
Proof.
  intros Hno. apply List.Forall_forall. intros g Hg.
  apply List.Forall_forall. intros x Hx.
  unfold find_focus_opportunities in Hg. apply in_app_or in Hg.
  destruct Hg as [Hg | Hg].
  - unfold leading_opportunity in Hg.
    destruct events as [| first rest]; [destruct Hg |].
    destruct (now <? ev_start first); [| destruct Hg].
    destruct (float_ge_int _ _); [| destruct Hg].
    destruct Hg as [<- | []]. cbn [opp_start opp_end]. right.
    destruct Hx as [<- | Hx]; [lia |].
    destruct (non_overlapping_cons _ _ Hno) as (He & _ & Hall).
    rewrite Forall_forall in Hall. apply list_elem_of_In in Hx.
    specialize (Hall x Hx). lia.
  - exact (between_opportunities_free events min_minutes Hno g x Hg Hx).
Qed.

Lemma opportunities_avoid_events_witness :
  Forall
    (fun g =>
       Forall (fun x => ev_end x <= opp_start g \/ opp_end g <= ev_start x)
              Samples.two_meetings)
    (find_focus_opportunities Samples.two_meetings (Samples.at_time 7 0) 120).
Proof.
  exact (opportunities_avoid_events Samples.two_meetings (Samples.at_time 7 0)
           120 eq_refl).
Defined.

End FreeWindows.

Section ScanFacts.
Import Focus.

(** The integer part of a duration is no less than any whole number that
    the duration reaches. *)
Lemma int_of_float_reaches (x : Q) (n : Z) :
  (inject_Z n <= x)%Q -> n <= int_of_float x.
Proof.
  intros Hn. destruct (Qlt_le_dec x 0) as [Hneg | Hpos].
  - destruct (int_of_float_nonpos x (Qlt_le_weak _ _ Hneg)) as [_ [_ Hhi]].
    rewrite Zle_Qle. eapply Qle_trans; eauto.
  - destruct (int_of_float_nonneg x Hpos) as [_ [_ Hhi]].
    assert (Hlt : (inject_Z n < inject_Z (int_of_float x + 1))%Q)
      by (eapply Qle_lt_trans; eauto).
    rewrite <- Zlt_Qlt in Hlt. lia.
Qed.

(** X5. Every proposal of [scan_and_propose] offers at least
    [min_minutes] whole minutes, for a task still to be decided and with
    no energy level.  So with a threshold of 120 minutes or more, as the
    scan command passes, the suggested timer is one of the three fixed
    ones and never the computed one; and with a threshold of 16 minutes
    or more a computed suggestion shows a positive number of minutes. *)
Theorem scan_proposals_reach_threshold (events : list event) (now : datetime)
    (min_minutes : Z) :
  Forall
    (fun p =>
       min_minutes <= duration_minutes p
       /\ task_name p = "TBD" /\ energy p = None
       /\ (120 <= min_minutes ->
           suggested_timer p = "120 min (deep work block)"
           \/ suggested_timer p = "90 min (3 pomodoros + long break)"
           \/ suggested_timer p = "90 min (focus block)")
       /\ (16 <= min_minutes -> duration_minutes p < 120 ->
           0 < duration_minutes p - 15
           /\ suggested_timer p
              = str_int (duration_minutes p - 15) +:+ " min (focus session)"))
    (scan_and_propose events now min_minutes).
Proof.
  unfold scan_and_propose. apply List.Forall_forall. intros p Hp.
  apply in_map_iff in Hp. destruct Hp as (g & <- & Hg).
  assert (Hlong : min_minutes <= int_of_float (opp_duration g)).
  { apply int_of_float_reaches.
    destruct (found_opportunity_shape events now min_minutes g Hg)
      as (-> & Hus & _).
    apply Qle_bool_iff. apply long_enough_iff. exact Hus. }
  unfold propose_focus_session.
  cbn [duration_minutes task_name energy suggested_timer truthy].
  set (m := int_of_float (opp_duration g)) in *.
  split; [exact Hlong |]. split; [reflexivity |]. split; [reflexivity |].
  split.
  - intros Hmin.
    destruct (Z.leb_spec 240 m); [auto |].
    destruct (Z.leb_spec 180 m); [auto |].
    right. right. settle_tests. reflexivity.
  - intros Hmin Hm. split; [lia |]. settle_tests. reflexivity.
Qed.

End ScanFacts.

(* ===================================================================== *)
(** * Further facts about the calendar fetch *)
(* ===================================================================== *)

Section FetchFacts.
Import Focus.

Variable json_loads : string -> option json.
Variable datetime_fromisoformat : string -> option parsed_datetime.

Lemma insert_by_start_In (e x : event) (l : list event) :
  In x (insert_by_start e l) <-> x = e \/ In x l.
Proof.
  induction l as [| y l IH]; cbn [insert_by_start].
  - cbn. intuition.
  - destruct (ev_start e <=? ev_start y); cbn [In]; [intuition |].
    rewrite IH. intuition.
Qed.

Lemma sorted_by_start_In (x : event) (l : list event) :
  In x (sorted_by_start l) <-> In x l.
Proof.
  unfold sorted_by_start. induction l as [| y l IH]; [reflexivity |].
  cbn [fold_right]. rewrite insert_by_start_In, IH. cbn. intuition.
Qed.

Lemma insert_by_start_sorted (e : event) (l : list event) :
  StronglySorted (fun a b : event => ev_start a <= ev_start b) l -> StronglySorted (fun a b : event => ev_start a <= ev_start b) (insert_by_start e l).
Proof.
  induction l as [| y l IH]; intros Hl; cbn [insert_by_start].
  - repeat constructor.
  - inversion Hl as [| ? ? Hl' Hy]; subst.
    destruct (Z.leb_spec (ev_start e) (ev_start y)) as [Hle | Hgt].
    + constructor; [exact Hl |]. constructor; [exact Hle |].
      eapply List.Forall_impl; [| exact Hy]. cbn. intros a Ha. lia.
    + constructor; [exact (IH Hl') |].
      apply List.Forall_forall. intros a Ha. apply insert_by_start_In in Ha.
      destruct Ha as [-> | Ha]; [lia |].
      rewrite List.Forall_forall in Hy. exact (Hy a Ha).
Qed.

Lemma sorted_by_start_sorted (l : list event) :
  StronglySorted (fun a b : event => ev_start a <= ev_start b) (sorted_by_start l).
Proof.
  unfold sorted_by_start. induction l as [| y l IH]; [constructor |].
  cbn [fold_right]. apply insert_by_start_sorted. exact IH.
Qed.

(** What the [try] block appends passed both tests of the window. *)
Lemma event_of_item_in_window (now future : datetime)
    (item start_str end_str : json) (e : event) :
  event_of_item datetime_fromisoformat now future item start_str end_str
  = Ok (Some e) ->
  ev_start e <= future /\ now < ev_end e.
Proof.
  unfold event_of_item.
  destruct (replace_Z start_str) as [s |]; [| discriminate].
  cbn [mbind result_bind].
  destruct (datetime_fromisoformat s) as [start |]; [| discriminate].
  cbn [or_raise mbind result_bind].
  destruct (if json_truthy end_str then _ else _) as [end_ |]; [| discriminate].
  cbn [mbind result_bind].
  destruct (naive_of start) as [start_naive |]; [| discriminate].
  cbn [mbind result_bind].
  destruct (Z.leb_spec start_naive future) as [Hs |]; [| discriminate].
  destruct (naive_of end_) as [end_naive |]; [| discriminate].
  cbn [mbind result_bind].
  destruct (Z.ltb_spec now end_naive) as [He |]; [| discriminate].
  destruct (get item "summary" _) as [summary |]; [| discriminate].
  cbn [mbind result_bind].
  destruct (get item "description" _) as [description |]; [| discriminate].
  cbn [mbind result_bind]. intros [= <-]. cbn. auto.
Qed.

(** One turn of the loop of [get_calendar_events]. *)
Lemma filter_events_cons (now future : datetime) (item : json)
    (rest : list json) (acc : list event) :
  filter_events datetime_fromisoformat now future (item :: rest) acc
  = start_str ← date_time_of item "start";
    end_str ← date_time_of item "end";
    if negb (json_truthy start_str) then
      filter_events datetime_fromisoformat now future rest acc
    else
      match event_of_item datetime_fromisoformat now future item
              start_str end_str with
      | Ok (Some e) =>
          filter_events datetime_fromisoformat now future rest (acc ++ [e])
      | Ok None => filter_events datetime_fromisoformat now future rest acc
      | Raise ValueError | Raise TypeError =>
          filter_events datetime_fromisoformat now future rest acc
      | Raise e => Raise e
      end.
Proof.
  cbn [filter_events]. unfold date_time_of.
  destruct (get item "start" _) as [so |]; [| reflexivity].
  cbn [mbind result_bind].
  destruct (get so "dateTime" _) as [ss |]; [| reflexivity].
  cbn [mbind result_bind].
  destruct (get item "end" _) as [eo |]; [| reflexivity].
  cbn [mbind result_bind].
  destruct (get eo "dateTime" _) as [es |]; reflexivity.
Qed.

Lemma filter_events_keeps (P : event -> Prop) (now future : datetime)
    (items : list json) :
  (forall item start_str end_str e,
     event_of_item datetime_fromisoformat now future item start_str end_str
     = Ok (Some e) -> P e) ->
  forall acc evs,
    filter_events datetime_fromisoformat now future items acc = Ok evs ->
    Forall P acc -> Forall P evs.
Proof.
  intros HP. induction items as [| item rest IH]; intros acc evs Hevs Hacc.
  - cbn in Hevs. injection Hevs as <-. exact Hacc.
  - rewrite filter_events_cons in Hevs.
    destruct (date_time_of item "start") as [ss |]; [| discriminate].
    cbn [mbind result_bind] in Hevs.
    destruct (date_time_of item "end") as [es |]; [| discriminate].
    cbn [mbind result_bind] in Hevs.
    destruct (negb (json_truthy ss)); [exact (IH acc evs Hevs Hacc) |].
    destruct (event_of_item _ _ _ _ _ _) as [[e |] | []] eqn:He;
      try discriminate; try exact (IH acc evs Hevs Hacc).
    apply (IH (acc ++ [e]) evs Hevs).
    apply Forall_app. split; [exact Hacc |].
    constructor; [| constructor]. exact (HP _ _ _ _ He).
Qed.

(** X6. Whatever the provider answered, the events that
    [get_calendar_events] returns lie in the window (each starts no later
    than [hours_ahead] hours from [now] and ends after [now]) and come in
    ascending order of start. *)
Theorem fetched_events_in_window_and_sorted (run : run_result)
    (now : datetime) (hours_ahead : Z) :
  let events :=
    get_calendar_events json_loads datetime_fromisoformat run now hours_ahead in
  Forall (fun e => ev_start e <= now + hours_ahead * US_PER_HOUR
                   /\ now < ev_end e) events
  /\ StronglySorted (fun a b => ev_start a <= ev_start b) events.
Proof.
  cbn zeta. unfold get_calendar_events.
  destruct (fetch_events _ _ _ _ _) as [events |] eqn:Hfetch;
    [| split; constructor].
  unfold fetch_events in Hfetch.
  destruct run as [returncode stdout |]; [| discriminate].
  destruct (negb (returncode =? 0)).
  { injection Hfetch as <-. split; constructor. }
  destruct (json_loads stdout) as [doc |]; [| discriminate].
  cbn [or_raise mbind result_bind] in Hfetch.
  unfold add_hours in Hfetch.
  destruct (_ && _); [| discriminate].
  cbn [mbind result_bind] in Hfetch.
  destruct (get doc "items" _) as [items_v |]; [| discriminate].
  cbn [mbind result_bind] in Hfetch.
  destruct (iterate items_v) as [items |]; [| discriminate].
  cbn [mbind result_bind] in Hfetch.
  destruct (filter_events _ _ _ _ _) as [filtered |] eqn:Hfilter;
    [| discriminate].
  cbn [mbind result_bind] in Hfetch. injection Hfetch as <-.
  split; [| apply sorted_by_start_sorted].
  apply List.Forall_forall. intros e He.
  apply (proj1 (sorted_by_start_In _ _)) in He.
  pose proof (filter_events_keeps
                (fun e => ev_start e <= now + hours_ahead * US_PER_HOUR
                          /\ now < ev_end e)
                now (now + hours_ahead * US_PER_HOUR) items
                (fun item ss es e' => event_of_item_in_window _ _ _ _ _ e')
                [] filtered Hfilter (List.Forall_nil _)) as Hall.
  rewrite List.Forall_forall in Hall. exact (Hall e He).
Qed.

Lemma filter_events_raises_on (now future : datetime) (item : json)
    (items : list json) :
  In item items ->
  date_time_of item "start" = Raise AttributeError
  \/ date_time_of item "end" = Raise AttributeError ->
  forall acc, exists e,
    filter_events datetime_fromisoformat now future items acc = Raise e.
Proof.
  intros Hin Hbad. induction items as [| x rest IH]; [destruct Hin |].
  intros acc. rewrite filter_events_cons.
  destruct Hin as [-> | Hin].
  - destruct Hbad as [-> | Hend]; [cbn; eauto |].
    destruct (date_time_of item "start"); [| cbn; eauto].
    cbn [mbind result_bind]. rewrite Hend. cbn. eauto.
  - destruct (date_time_of x "start") as [ss |]; [| cbn; eauto].
    cbn [mbind result_bind].
    destruct (date_time_of x "end") as [es |]; [| cbn; eauto].
    cbn [mbind result_bind].
    destruct (negb (json_truthy ss)); [apply (IH Hin) |].
    destruct (event_of_item _ _ _ _ _ _) as [[e |] | []];
      solve [apply (IH Hin) | eauto].
Qed.

(** X7. One item of the response that is not an object, or whose start
    or end is not an object, empties the whole fetch: the
    [AttributeError] leaves the loop, and [get_calendar_events] returns
    the empty list even when the other items are well formed. *)
Theorem malformed_item_empties_fetch (stdout : string)
    (members : list (string * json)) (items : list json) (item : json)
    (now : datetime) (hours_ahead : Z) :
  json_loads stdout = Some (JObject members) ->
  member "items" members = Some (JArray items) ->
  In item items ->
  date_time_of item "start" = Raise AttributeError
  \/ date_time_of item "end" = Raise AttributeError ->
  get_calendar_events json_loads datetime_fromisoformat
    (Completed 0 stdout) now hours_ahead
  = [].
Proof.
  intros Hdoc Hitems Hin Hbad.
  unfold get_calendar_events, fetch_events. cbn [Z.eqb negb].
  rewrite Hdoc. cbn [or_raise mbind result_bind].
  destruct (add_hours now hours_ahead) as [future |]; [| reflexivity].
  cbn [mbind result_bind get]. rewrite Hitems.
  cbn [default from_option id mbind result_bind iterate].
  destruct (filter_events_raises_on now future item items Hin Hbad [])
    as [e ->].
  reflexivity.
Qed.

Lemma filter_events_grows (now future : datetime) (items : list json) :
  forall acc evs,
    filter_events datetime_fromisoformat now future items acc = Ok evs ->
    forall x, In x acc -> In x evs.
Proof.
  induction items as [| item rest IH]; intros acc evs Hevs x Hx.
  - cbn in Hevs. injection Hevs as <-. exact Hx.
  - rewrite filter_events_cons in Hevs.
    destruct (date_time_of item "start") as [ss |]; [| discriminate].
    cbn [mbind result_bind] in Hevs.
    destruct (date_time_of item "end") as [es |]; [| discriminate].
    cbn [mbind result_bind] in Hevs.
    destruct (negb (json_truthy ss)); [exact (IH acc evs Hevs x Hx) |].
    destruct (event_of_item _ _ _ _ _ _) as [[e |] | []];
      try discriminate; try exact (IH acc evs Hevs x Hx).
    apply (IH (acc ++ [e]) evs Hevs). apply in_or_app. auto.
Qed.

Lemma filter_events_finds (now future : datetime) (item start_str end_str : json)
    (e : event) (items : list json) :
  In item items ->
  date_time_of item "start" = Ok start_str ->
  date_time_of item "end" = Ok end_str ->
  json_truthy start_str = true ->
  event_of_item datetime_fromisoformat now future item start_str end_str
  = Ok (Some e) ->
  forall acc evs,
    filter_events datetime_fromisoformat now future items acc = Ok evs ->
    In e evs.
Proof.
  intros Hin Hs He Ht Hev. induction items as [| x rest IH]; [destruct Hin |].
  intros acc evs Hevs. rewrite filter_events_cons in Hevs.
  destruct Hin as [-> | Hin].
  - rewrite Hs, He in Hevs. cbn [mbind result_bind] in Hevs.
    rewrite Ht, Hev in Hevs. cbn [negb] in Hevs.
    apply (filter_events_grows _ _ _ _ _ Hevs). apply in_or_app.
    right. left. reflexivity.
  - destruct (date_time_of x "start") as [ss |]; [| discriminate].
    cbn [mbind result_bind] in Hevs.
    destruct (date_time_of x "end") as [es |]; [| discriminate].
    cbn [mbind result_bind] in Hevs.
    destruct (negb (json_truthy ss)); [exact (IH Hin acc evs Hevs) |].
    destruct (event_of_item datetime_fromisoformat now future x ss es)
      as [[e' |] | []];
      try discriminate; exact (IH Hin _ evs Hevs).
Qed.

(** X8. When nothing escapes the fetch, an item of the response whose
    start and end texts read as naive times inside the window is among
    the events returned, with its summary and description, or
    "No title" and the empty text where the item has none. *)
Theorem well_formed_item_is_fetched (stdout : string)
    (members item_members : list (string * json)) (items : list json)
    (s s' : string) (ts te : datetime) (now : datetime) (hours_ahead : Z)
    (events : list event) :
  json_loads stdout = Some (JObject members) ->
  member "items" members = Some (JArray items) ->
  In (JObject item_members) items ->
  date_time_of (JObject item_members) "start" = Ok (JString s) ->
  date_time_of (JObject item_members) "end" = Ok (JString s') ->
  s <> "" -> s' <> "" ->
  datetime_fromisoformat (replace_char "Z" "+00:00" s) = Some (Naive ts) ->
  datetime_fromisoformat (replace_char "Z" "+00:00" s') = Some (Naive te) ->
  ts <= now + hours_ahead * US_PER_HOUR ->
  now < te ->
  fetch_events json_loads datetime_fromisoformat (Completed 0 stdout)
    now hours_ahead = Ok events ->
  In (mk_event ts te
        (default (JString "No title") (member "summary" item_members))
        (default (JString "") (member "description" item_members)))
     (get_calendar_events json_loads datetime_fromisoformat
        (Completed 0 stdout) now hours_ahead).
Proof.
  intros Hdoc Hitems Hin Hs Hs' Hne Hne' Hts Hte Hwin Hnow Hfetch.
  unfold get_calendar_events. rewrite Hfetch.
  unfold fetch_events in Hfetch. cbn [Z.eqb negb] in Hfetch.
  rewrite Hdoc in Hfetch. cbn [or_raise mbind result_bind] in Hfetch.
  unfold add_hours in Hfetch.
  destruct (_ && _); [| discriminate].
  cbn [mbind result_bind get] in Hfetch. rewrite Hitems in Hfetch.
  cbn [default from_option id mbind result_bind iterate] in Hfetch.
  destruct (filter_events _ _ _ _ _) as [filtered |] eqn:Hfilter;
    [| discriminate].
  cbn [mbind result_bind] in Hfetch. injection Hfetch as <-.
  apply sorted_by_start_In.
  refine (filter_events_finds _ _ _ _ _ _ _ Hin Hs Hs' _ _ [] filtered Hfilter).
  - cbn. apply negb_true_iff, String.eqb_neq. exact Hne.
  - unfold event_of_item. cbn [replace_Z mbind result_bind].
    rewrite Hts. cbn [or_raise mbind result_bind json_truthy].
    replace (negb (String.eqb s' "")) with true
      by (symmetry; apply negb_true_iff, String.eqb_neq; exact Hne').
    cbn [replace_Z mbind result_bind]. rewrite Hte.
    cbn [or_raise mbind result_bind naive_of].
    replace (ts <=? now + hours_ahead * US_PER_HOUR) with true by lia.
    replace (now <? te) with true by lia.
    reflexivity.
Qed.

(** X9. An item whose start text the parser rejects, or reads as a time
    with a UTC offset while its end text reads as some time, is passed
    over: the loop goes on as if the item were not in the response. *)
Theorem unreadable_or_aware_start_is_skipped (now future : datetime)
    (l1 l2 : list json) (acc : list event) (item : json) (s : string)
    (end_str : json) :
  date_time_of item "start" = Ok (JString s) ->
  s <> "" ->
  date_time_of item "end" = Ok end_str ->
  datetime_fromisoformat (replace_char "Z" "+00:00" s) = None
  \/ (exists t off s' p,
        datetime_fromisoformat (replace_char "Z" "+00:00" s)
        = Some (Aware t off)
        /\ end_str = JString s' /\ s' <> ""
        /\ datetime_fromisoformat (replace_char "Z" "+00:00" s') = Some p) ->
  filter_events datetime_fromisoformat now future (l1 ++ item :: l2) acc
  = filter_events datetime_fromisoformat now future (l1 ++ l2) acc.
Proof.
  intros Hs Hne He Hcase. revert acc.
  induction l1 as [| x l1 IH]; intros acc.
  - cbn [app]. rewrite filter_events_cons, Hs, He.
    cbn [mbind result_bind json_truthy].
    replace (negb (String.eqb s "")) with true
      by (symmetry; apply negb_true_iff, String.eqb_neq; exact Hne).
    cbn [negb]. unfold event_of_item. cbn [replace_Z mbind result_bind].
    destruct Hcase as [-> | (t & off & s' & p & -> & -> & Hne' & Hp)].
    + reflexivity.
    + cbn [or_raise mbind result_bind json_truthy].
      replace (negb (String.eqb s' "")) with true
        by (symmetry; apply negb_true_iff, String.eqb_neq; exact Hne').
      cbn [replace_Z mbind result_bind]. rewrite Hp. reflexivity.
  - cbn [app]. rewrite !filter_events_cons.
    destruct (date_time_of x "start") as [ss |]; [| reflexivity].
    cbn [mbind result_bind].
    destruct (date_time_of x "end") as [es |]; [| reflexivity].
    cbn [mbind result_bind].
    destruct (negb (json_truthy ss)); [apply IH |].
    destruct (event_of_item datetime_fromisoformat now future x ss es)
      as [[e |] | []]; solve [apply IH | reflexivity].
Qed.

End FetchFacts.

Section FetchWitnesses.
Import Focus.

Lemma malformed_item_empties_fetch_witness :
  get_calendar_events Samples.sample_loads Samples.sample_parse
    (Completed 0 "spoiled") (Samples.at_time 8 0) 8
  = [].
Proof.
  exact (malformed_item_empties_fetch Samples.sample_loads
           Samples.sample_parse "spoiled" _ _ Samples.item_null_start
           (Samples.at_time 8 0) 8 eq_refl eq_refl
           (or_intror (or_introl eq_refl)) (or_introl eq_refl)).
Defined.

Lemma well_formed_item_is_fetched_witness :
  In (mk_event (Samples.at_time 9 0) (Samples.at_time 10 0)
        (JString "standup") (JString ""))
     (get_calendar_events Samples.sample_loads Samples.sample_parse
        (Completed 0 "good") (Samples.at_time 8 0) 8).
Proof.
  refine (well_formed_item_is_fetched Samples.sample_loads
            Samples.sample_parse "good" _ _ _
            "2026-11-03T09:00:00" "2026-11-03T10:00:00"
            (Samples.at_time 9 0) (Samples.at_time 10 0)
            (Samples.at_time 8 0) 8 _
            eq_refl eq_refl (or_intror (or_introl eq_refl)) eq_refl eq_refl
            _ _ eq_refl eq_refl _ eq_refl eq_refl).
  - discriminate.
  - discriminate.
  - vm_compute. discriminate.
Defined.

Lemma unreadable_or_aware_start_is_skipped_witness :
  filter_events Samples.sample_parse (Samples.at_time 8 0) (Samples.at_time 16 0)
    ([] ++ Samples.item_utc :: [Samples.item_standup]) []
  = filter_events Samples.sample_parse (Samples.at_time 8 0)
      (Samples.at_time 16 0) ([] ++ [Samples.item_standup]) [].
Proof.
  refine (unreadable_or_aware_start_is_skipped Samples.sample_parse
            (Samples.at_time 8 0) (Samples.at_time 16 0) []
            [Samples.item_standup] [] Samples.item_utc
            "2026-11-03T14:00:00Z" (JString "2026-11-03T15:00:00Z")
            eq_refl _ eq_refl
            (or_intror (ex_intro _ (Samples.at_time 14 0)
               (ex_intro _ 0 (ex_intro _ "2026-11-03T15:00:00Z"
                  (ex_intro _ (Aware (Samples.at_time 15 0) 0)
                     (conj eq_refl (conj eq_refl (conj _ eq_refl))))))))).
  - discriminate.
  - discriminate.
Defined.

End FetchWitnesses.

(* ===================================================================== *)
(** * Further facts about the streak tracker *)
(* ===================================================================== *)

Section CompletionFacts.
Import Streak.

(** The ways a call of [complete_habit] can end. *)
Lemma complete_habit_cases (db : store) (today : date) (id : Z) (n : string) :
  let o := complete_habit db today id n in
  (exists line, o = mk_outcome (Ok false) [line] db)
  \/ (exists e, o = mk_outcome (Raise e) [] db)
  \/ o = mk_outcome (Ok true) []
           (mk_store (habits db) (habit_log db ++ [mk_log id n]))
  \/ (exists h f,
        habits db !! id = Some h
        /\ (f = set_continue (isoformat today)
            \/ f = set_restart (isoformat today)
            \/ f = set_last_completed (isoformat today))
        /\ o = mk_outcome (Ok true) []
                 (mk_store (<[id := f h]> (habits db))
                           (habit_log db ++ [mk_log id n]))).
Proof.
  cbn zeta. unfold complete_habit.
  destruct (habits db !! id) as [h |] eqn:Hh; [| left; eauto].
  destruct (_ && _); [left; eauto |].
  right. unfold update_streak.
  destruct (String.eqb (goal_frequency h) "daily").
  - destruct (truthy (last_completed h)).
    + destruct (last_completed h ≫= fromisoformat) as [last |];
        [| left; cbn; eauto].
      cbn [or_raise mbind result_bind].
      destruct (sub_days today 1) as [yesterday |]; [| left; cbn; eauto].
      cbn [or_raise mbind result_bind].
      destruct (last =? yesterday).
      * right. right. rewrite (update_after_insert _ _ _ _ _ Hh). eauto 8.
      * destruct (last <? yesterday); [| right; left; reflexivity].
        right. right. rewrite (update_after_insert _ _ _ _ _ Hh). eauto 8.
    + right. right. rewrite (update_after_insert _ _ _ _ _ Hh). eauto 8.
  - destruct (String.eqb (goal_frequency h) "weekly").
    + right. right. rewrite (update_after_insert _ _ _ _ _ Hh). eauto 8.
    + destruct (String.eqb (goal_frequency h) "monthly");
        [| right; left; reflexivity].
      right. right. rewrite (update_after_insert _ _ _ _ _ Hh). eauto 8.
Qed.

(** X10. A call of [complete_habit] is all or nothing: either it returns
    [True], prints nothing and has appended exactly its own row to the
    log, or it does not return [True] and the store is as it was. *)
Theorem completion_is_all_or_nothing (db : store) (today : date) (id : Z)
    (n : string) :
  let o := complete_habit db today id n in
  (returned o = Ok true /\ printed o = []
   /\ habit_log (committed o) = habit_log db ++ [mk_log id n])
  \/ (returned o <> Ok true /\ committed o = db).
Proof.
  cbn zeta.
  destruct (complete_habit_cases db today id n)
    as [[line ->] | [[e ->] | [-> | (h & f & _ & _ & ->)]]]; cbn.
  - right. split; [discriminate | reflexivity].
  - right. split; [discriminate | reflexivity].
  - left. auto.
  - left. auto.
Qed.

(** X11. [complete_habit] neither adds nor removes a habit, leaves every
    habit other than the one completed untouched, and of the completed
    one changes at most [streak_count] and [last_completed]; the new
    streak count is the old one, the old one plus 1, or 1. *)
Theorem completion_touches_one_row (db : store) (today : date) (id : Z)
    (n : string) (j : Z) :
  let after := habits (committed (complete_habit db today id n)) in
  (j <> id -> after !! j = habits db !! j)
  /\ match habits db !! j, after !! j with
     | Some h, Some h' =>
         name h' = name h /\ description h' = description h
         /\ goal_frequency h' = goal_frequency h /\ active h' = active h
         /\ (streak_count h' = streak_count h
             \/ streak_count h' = streak_count h + 1
             \/ streak_count h' = 1)
     | None, None => True
     | _, _ => False
     end.
Proof.
  cbn zeta.
  assert (Hsame : forall t : gmap Z habit,
             match t !! j, t !! j with
             | Some h, Some h' =>
                 name h' = name h /\ description h' = description h
                 /\ goal_frequency h' = goal_frequency h
                 /\ active h' = active h
                 /\ (streak_count h' = streak_count h
                     \/ streak_count h' = streak_count h + 1
                     \/ streak_count h' = 1)
             | None, None => True
             | _, _ => False
             end).
  { intros t. destruct (t !! j); auto 10. }
  destruct (complete_habit_cases db today id n)
    as [[line ->] | [[e ->] | [-> | (h & f & Hh & Hf & ->)]]];
    cbn [committed habits]; try (split; [reflexivity | apply Hsame]).
  split; [intros Hj; apply lookup_insert_ne; congruence |].
  destruct (decide (j = id)) as [-> | Hj].
  - rewrite Hh, lookup_insert_eq.
    destruct Hf as [-> | [-> | ->]]; cbn; auto 10.
  - rewrite lookup_insert_ne by congruence. apply Hsame.
Qed.

(** X12. Streak counts that are not negative stay so through any call
    of [complete_habit]. *)
Theorem completion_keeps_streaks_nonnegative (db : store) (today : date)
    (id : Z) (n : string) :
  (forall j h, habits db !! j = Some h -> 0 <= streak_count h) ->
  forall j h,
    habits (committed (complete_habit db today id n)) !! j = Some h ->
    0 <= streak_count h.
Proof.
  intros Hinv j h'.
  destruct (complete_habit_cases db today id n)
    as [[line ->] | [[e ->] | [-> | (h & f & Hh & Hf & ->)]]];
    cbn [committed habits]; try apply Hinv.
  destruct (decide (j = id)) as [-> | Hj].
  - rewrite lookup_insert_eq. intros [= <-]. specialize (Hinv id h Hh).
    destruct Hf as [-> | [-> | ->]]; cbn; lia.
  - rewrite lookup_insert_ne by congruence. apply Hinv.
Qed.

Lemma one_habit_streak_nonnegative (h0 : habit) :
  0 <= streak_count h0 ->
  forall j h, habits (Samples.one_habit h0) !! j = Some h -> 0 <= streak_count h.
Proof.
  intros H0 j h. unfold Samples.one_habit. cbn [habits].
  intros Hj. apply lookup_singleton_Some in Hj. destruct Hj as [_ <-].
  exact H0.
Qed.

Lemma completion_keeps_streaks_nonnegative_witness :
  0 <= streak_count (Samples.exercise 5 (Some "2026-11-03")).
Proof.
  exact (completion_keeps_streaks_nonnegative
           (Samples.one_habit (Samples.exercise 4 (Some "2026-11-02")))
           Samples.nov3 1 ""
           (one_habit_streak_nonnegative
              (Samples.exercise 4 (Some "2026-11-02")) ltac:(cbn; lia))
           1 (Samples.exercise 5 (Some "2026-11-03")) eq_refl).
Defined.

End CompletionFacts.

Section CompletionEdges.
Import Streak.

(** A text of a length that no date has is not read as a date. *)
Lemma no_date_length_unreadable (s : string) :
  no_date_length s = true -> fromisoformat s = None.
Proof.
  unfold no_date_length, fromisoformat. cbn zeta.
  destruct (Nat.eqb (String.length s) 10); [| reflexivity].
  rewrite !orb_true_r. discriminate.
Qed.

(** X13. For an id that SQLite can bind (64 bits with sign) and that is
    not in the store, [complete_habit] returns [False], says that the
    habit was not found and leaves the store as it was;
    [get_habit_status] returns [None], and the status command prints
    nothing. *)
Theorem unknown_habit_is_reported (db : store) (today : date) (id : Z)
    (n : string) :
  sqlite_int id = true ->
  habits db !! id = None ->
  complete_habit db today id n
  = mk_outcome (Ok false) ["Habit " +:+ str_int id +:+ " not found"] db
  /\ get_habit_status db today id = Ok None
  /\ command_status db today id = Ok [].
Proof.
  intros _ Hh. unfold command_status, get_habit_status, complete_habit.
  rewrite Hh. auto.
Qed.

Lemma unknown_habit_is_reported_witness :
  complete_habit (Samples.one_habit (Samples.exercise 0 None)) Samples.nov3 7 ""
  = mk_outcome (Ok false) ["Habit 7 not found"]
      (Samples.one_habit (Samples.exercise 0 None))
  /\ get_habit_status (Samples.one_habit (Samples.exercise 0 None))
       Samples.nov3 7 = Ok None
  /\ command_status (Samples.one_habit (Samples.exercise 0 None))
       Samples.nov3 7 = Ok [].
Proof.
  exact (unknown_habit_is_reported
           (Samples.one_habit (Samples.exercise 0 None)) Samples.nov3 7 ""
           eq_refl eq_refl).
Defined.

(** X14. A daily habit whose [last_completed] holds the empty text is
    completed like one never completed: the call succeeds, the completion
    is logged, the streak becomes 1 and [last_completed] the text of
    [today]. *)
Theorem empty_last_completed_counts_as_never (db : store) (today : date)
    (id : Z) (n : string) (h : habit) :
  habits db !! id = Some h ->
  goal_frequency h = "daily" ->
  last_completed h = Some "" ->
  complete_habit db today id n
  = mk_outcome (Ok true) []
      (mk_store
         (<[id := mk_habit (name h) (description h) 1 (Some (isoformat today))
                    (goal_frequency h) (active h)]> (habits db))
         (habit_log db ++ [mk_log id n])).
Proof.
  intros Hh Hg Hl. apply complete_daily_first; auto. rewrite Hl. reflexivity.
Qed.

Lemma empty_last_completed_counts_as_never_witness :
  complete_habit (Samples.one_habit (Samples.exercise 3 (Some "")))
    Samples.nov3 1 ""
  = mk_outcome (Ok true) []
      (mk_store {[ 1 := Samples.exercise 1 (Some "2026-11-03") ]}
                [mk_log 1 ""]).
Proof.
  exact (empty_last_completed_counts_as_never
           (Samples.one_habit (Samples.exercise 3 (Some ""))) Samples.nov3 1 ""
           _ eq_refl eq_refl eq_refl).
Defined.

(** X15. A daily habit whose [last_completed] holds a text that is not
    empty and has a length that no spelling of a date has (not 7, 8 or 10
    bytes): [complete_habit] raises [ValueError] and commits nothing, so
    the log row it had inserted is lost; and [get_habit_status] raises
    [ValueError] as well. *)
Theorem unreadable_last_completed_raises (db : store) (today : date)
    (id : Z) (n : string) (h : habit) (s : string) :
  valid_date today ->
  habits db !! id = Some h ->
  goal_frequency h = "daily" ->
  last_completed h = Some s ->
  s <> "" ->
  no_date_length s = true ->
  complete_habit db today id n = mk_outcome (Raise ValueError) [] db
  /\ get_habit_status db today id = Raise ValueError.
Proof.
  intros Ht Hh Hg Hl Hne Hs. apply no_date_length_unreadable in Hs.
  assert (Htruthy : truthy (Some s) = true)
    by (cbn; apply negb_true_iff, String.eqb_neq; exact Hne).
  split.
  - unfold complete_habit. rewrite Hh, Hg, Hl.
    rewrite eq_text_other.
    2:{ intros [= ->]. rewrite fromisoformat_isoformat in Hs by exact Ht.
        discriminate. }
    cbn [String.eqb Ascii.eqb Bool.eqb andb]. unfold update_streak.
    cbn [String.eqb Ascii.eqb Bool.eqb]. rewrite Htruthy.
    cbn [mbind option_bind]. rewrite Hs. reflexivity.
  - unfold get_habit_status, days_since_completion. rewrite Hh, Hl, Htruthy.
    cbn [mbind option_bind]. rewrite Hs. reflexivity.
Qed.

Lemma unreadable_last_completed_raises_witness :
  complete_habit (Samples.one_habit (Samples.exercise 2 (Some "yesterday")))
    Samples.nov3 1 ""
  = mk_outcome (Raise ValueError) []
      (Samples.one_habit (Samples.exercise 2 (Some "yesterday")))
  /\ get_habit_status (Samples.one_habit (Samples.exercise 2 (Some "yesterday")))
       Samples.nov3 1 = Raise ValueError.
Proof.
  exact (unreadable_last_completed_raises
           (Samples.one_habit (Samples.exercise 2 (Some "yesterday")))
           Samples.nov3 1 "" _ "yesterday" nov3_valid eq_refl eq_refl eq_refl
           ltac:(discriminate) eq_refl).
Defined.

(** X16. A habit whose cadence is none of daily, weekly and monthly:
    [complete_habit] succeeds and logs the completion, and leaves table
    [habits] as it was. *)
Theorem other_cadence_only_logs (db : store) (today : date) (id : Z)
    (n : string) (h : habit) :
  habits db !! id = Some h ->
  goal_frequency h <> "daily" ->
  goal_frequency h <> "weekly" ->
  goal_frequency h <> "monthly" ->
  complete_habit db today id n
  = mk_outcome (Ok true) []
      (mk_store (habits db) (habit_log db ++ [mk_log id n])).
Proof.
  intros Hh Hd Hw Hm. unfold complete_habit, update_streak. rewrite Hh.
  apply String.eqb_neq in Hd, Hw, Hm. rewrite Hd, Hw, Hm. reflexivity.
Qed.

Lemma other_cadence_only_logs_witness :
  complete_habit
    (mk_store {[ 1 := mk_habit "taxes" "" 0 None "yearly" 1 ]} [])
    Samples.nov3 1 "filed"
  = mk_outcome (Ok true) []
      (mk_store {[ 1 := mk_habit "taxes" "" 0 None "yearly" 1 ]}
                [mk_log 1 "filed"]).
Proof.
  exact (other_cadence_only_logs
           (mk_store {[ 1 := mk_habit "taxes" "" 0 None "yearly" 1 ]} [])
           Samples.nov3 1 "filed" _ eq_refl
           ltac:(discriminate) ltac:(discriminate) ltac:(discriminate)).
Defined.

(** A run of daily completions that continues a streak. *)
Lemma complete_daily_continues (k : nat) :
  forall (db : store) (first : date) (id : Z) (h : habit),
    habits db !! id = Some h ->
    goal_frequency h = "daily" ->
    last_completed h = Some (isoformat (first - 1)) ->
    date_min < first ->
    first + Z.of_nat k - 1 <= date_max ->
    let db' := complete_daily db first id k in
    habits db' !! id
    = Some (mk_habit (name h) (description h)
              (streak_count h + Z.of_nat k)
              (Some (isoformat (first + Z.of_nat k - 1)))
              (goal_frequency h) (active h))
    /\ habit_log db' = habit_log db ++ repeat (mk_log id "") k.
Proof.
  induction k as [| k IH]; intros db first id h Hh Hg Hl Hmin Hmax; cbn zeta.
  - cbn [complete_daily repeat]. rewrite app_nil_r, Hh.
    replace (first + Z.of_nat 0 - 1) with (first - 1) by lia.
    replace (streak_count h + Z.of_nat 0) with (streak_count h) by lia.
    rewrite <- Hl. destruct h. auto.
  - cbn [complete_daily].
    assert (Hparse : fromisoformat (isoformat (first - 1)) = Some (first - 1))
      by (apply fromisoformat_isoformat; unfold valid_date, date_min in *; lia).
    rewrite (complete_daily_parsed db first id "" h (isoformat (first - 1))
               (first - 1))
      by (auto; unfold date_min in *; lia).
    replace (first - 1 =? first - 1) with true by lia.
    cbn [committed].
    destruct (IH (mk_store (<[id := set_continue (isoformat first) h]> (habits db))
                           (habit_log db ++ [mk_log id ""]))
                 (first + 1) id (set_continue (isoformat first) h))
      as [Hrow Hlog]; cbn [habits habit_log set_continue goal_frequency
                             last_completed]; auto; try lia.
    + apply lookup_insert_eq.
    + replace (first + 1 - 1) with first by lia. reflexivity.
    + cbn zeta in Hrow, Hlog. rewrite Hrow, Hlog.
      cbn [set_continue name description streak_count goal_frequency active
             habit_log repeat].
      replace (streak_count h + 1 + Z.of_nat k)
        with (streak_count h + Z.of_nat (S k)) by lia.
      replace (first + 1 + Z.of_nat k - 1)
        with (first + Z.of_nat (S k) - 1) by lia.
      split; [reflexivity |]. rewrite <- app_assoc. reflexivity.
Qed.

(** X17. A daily habit with no last completion, completed once a day on
    [k + 1] days in a row from [first] on, ends with a streak of [k + 1],
    the last of those days as [last_completed], and [k + 1] new rows in
    the log. *)
Theorem consecutive_days_build_streak (db : store) (first : date) (id : Z)
    (k : nat) (h : habit) :
  habits db !! id = Some h ->
  goal_frequency h = "daily" ->
  truthy (last_completed h) = false ->
  date_min <= first ->
  first + Z.of_nat k <= date_max ->
  let db' := complete_daily db first id (S k) in
  habits db' !! id
  = Some (mk_habit (name h) (description h) (1 + Z.of_nat k)
            (Some (isoformat (first + Z.of_nat k)))
            (goal_frequency h) (active h))
  /\ habit_log db' = habit_log db ++ repeat (mk_log id "") (S k).
Proof.
  intros Hh Hg Hl Hmin Hmax. cbn zeta. cbn [complete_daily].
  rewrite (complete_daily_first db first id "" h Hh Hg Hl). cbn [committed].
  destruct (complete_daily_continues k
              (mk_store (<[id := set_restart (isoformat first) h]> (habits db))
                        (habit_log db ++ [mk_log id ""]))
              (first + 1) id (set_restart (isoformat first) h))
    as [Hrow Hlog]; cbn [habits habit_log set_restart goal_frequency
                           last_completed]; auto; try (unfold date_min in *; lia).
  - apply lookup_insert_eq.
  - replace (first + 1 - 1) with first by lia. reflexivity.
  - cbn zeta in Hrow, Hlog. rewrite Hrow, Hlog.
    cbn [set_restart name description streak_count goal_frequency active
           habit_log repeat].
    replace (first + 1 + Z.of_nat k - 1) with (first + Z.of_nat k) by lia.
    split; [reflexivity |]. rewrite <- app_assoc. reflexivity.
Qed.

Lemma consecutive_days_build_streak_witness :
  habits (complete_daily (Samples.one_habit (Samples.exercise 0 None))
            Samples.nov3 1 30) !! 1
  = Some (Samples.exercise 30 (Some "2026-12-02"))
  /\ habit_log (complete_daily (Samples.one_habit (Samples.exercise 0 None))
                  Samples.nov3 1 30)
     = repeat (mk_log 1 "") 30.
Proof.
  exact (consecutive_days_build_streak
           (Samples.one_habit (Samples.exercise 0 None)) Samples.nov3 1 29
           _ eq_refl eq_refl eq_refl
           ltac:(vm_compute; discriminate) ltac:(vm_compute; discriminate)).
Defined.

End CompletionEdges.

Section ReminderFacts.
Import Streak.

Lemma reminder_of_row_some (today : date) (id : Z) (h : habit) (r : reminder) :
  reminder_of_row today (id, h) = Ok (Some r) ->
  last_completed h <> Some (isoformat today)
  /\ r_habit_id r = id /\ r_name r = name h
  /\ r_streak_count r = streak_count h
  /\ days_since_completion today (last_completed h) = Ok (r_days_since r)
  /\ r_message r = reminder_message (name h) (streak_count h) (r_days_since r).
Proof.
  unfold reminder_of_row.
  destruct (eq_text (last_completed h) (isoformat today)) eqn:Heq;
    [discriminate |].
  destruct (days_since_completion today (last_completed h)) as [ds |];
    [| discriminate].
  cbn [mbind result_bind]. intros [= <-]. cbn. repeat split; auto.
  intros Hl. rewrite Hl, eq_text_same in Heq. discriminate.
Qed.

Lemma reminder_of_row_raises (today : date) (row : Z * habit) (e : exn) :
  reminder_of_row today row = Raise e -> e = ValueError.
Proof.
  destruct row as [id h]. unfold reminder_of_row, days_since_completion.
  destruct (eq_text _ _); [discriminate |].
  destruct (truthy _); [| discriminate].
  destruct (last_completed h ≫= fromisoformat); cbn; congruence.
Qed.

Lemma collect_reminders_sound (today : date) (rows : list (Z * habit)) :
  forall acc rs,
    collect_reminders today rows acc = Ok rs ->
    exists rs',
      rs = acc ++ rs'
      /\ sublist (List.map r_habit_id rs') (List.map fst rows)
      /\ Forall (fun r => exists row, In row rows
                          /\ reminder_of_row today row = Ok (Some r)) rs'.
Proof.
  induction rows as [| row rest IH]; intros acc rs Hrs.
  - cbn in Hrs. injection Hrs as <-. exists []. rewrite app_nil_r.
    split; [reflexivity |]. split; constructor.
  - cbn [collect_reminders] in Hrs.
    destruct (reminder_of_row today row) as [o |] eqn:Hrow; [| discriminate].
    cbn [mbind result_bind] in Hrs.
    destruct (IH _ _ Hrs) as (rs' & -> & Hsub & Hall).
    assert (Hall' : Forall (fun r => exists row0, In row0 (row :: rest)
                      /\ reminder_of_row today row0 = Ok (Some r)) rs').
    { eapply List.Forall_impl; [| exact Hall].
      intros r (row0 & Hin & H0). exists row0. split; [right |]; auto. }
    destruct o as [x |].
    + exists (x :: rs'). rewrite <- app_assoc. split; [reflexivity |].
      split.
      * cbn [List.map]. destruct row as [id h].
        apply reminder_of_row_some in Hrow. destruct Hrow as (_ & -> & _).
        apply sublist_skip. exact Hsub.
      * constructor; [| exact Hall']. exists row. split; [left |]; auto.
    + exists rs'. split; [reflexivity |]. split; [| exact Hall'].
      cbn [List.map]. apply sublist_cons. exact Hsub.
Qed.

Lemma filter_fst_sublist {A B : Type} (f : A * B -> bool) (l : list (A * B)) :
  sublist (List.map fst (List.filter f l)) (List.map fst l).
Proof.
  induction l as [| x l IH]; [constructor |].
  cbn [List.filter List.map]. destruct (f x); cbn [List.map].
  - apply sublist_skip. exact IH.
  - apply sublist_cons. exact IH.
Qed.

(** What the list of reminders holds, when [get_habit_reminders]
    returns one. *)
Lemma reminders_sound (db : store) (today : date) (rs : list reminder) :
  get_habit_reminders db today = Ok rs ->
  NoDup (List.map r_habit_id rs)
  /\ forall r, In r rs ->
       exists h,
         habits db !! r_habit_id r = Some h
         /\ active h = 1 /\ goal_frequency h = "daily"
         /\ last_completed h <> Some (isoformat today)
         /\ r_name r = name h /\ r_streak_count r = streak_count h
         /\ days_since_completion today (last_completed h)
            = Ok (r_days_since r)
         /\ r_message r
            = reminder_message (name h) (streak_count h) (r_days_since r).
Proof.
  unfold get_habit_reminders. intros Hrs.
  apply collect_reminders_sound in Hrs.
  destruct Hrs as (rs' & -> & Hsub & Hall). cbn [app]. split.
  - refine (sublist_NoDup _ _ _ Hsub).
    refine (sublist_NoDup _ _ _ (filter_fst_sublist _ _)).
    apply NoDup_fst_map_to_list.
  - intros r Hr. rewrite List.Forall_forall in Hall.
    destruct (Hall r Hr) as ([id h] & Hin & Hrow).
    apply selected_rows in Hin. destruct Hin as (Hh & Ha & Hg).
    apply reminder_of_row_some in Hrow.
    destruct Hrow as (Hl & Hid & Hrest). exists h. rewrite Hid. auto.
Qed.

(** X18. Every reminder that [get_habit_reminders] returns belongs to an
    active daily habit of the store that was not completed today, and
    carries its name, its streak, the days since its last completion and
    the message for them; no habit gets two reminders. *)
Theorem reminders_only_for_due_habits (db : store) (today : date)
    (rs : list reminder) :
  get_habit_reminders db today = Ok rs ->
  NoDup (List.map r_habit_id rs)
  /\ Forall
       (fun r =>
          exists h,
            habits db !! r_habit_id r = Some h
            /\ active h = 1 /\ goal_frequency h = "daily"
            /\ last_completed h <> Some (isoformat today)
            /\ r_name r = name h /\ r_streak_count r = streak_count h
            /\ days_since_completion today (last_completed h)
               = Ok (r_days_since r)
            /\ r_message r
               = reminder_message (name h) (streak_count h) (r_days_since r))
       rs.
Proof.
  intros Hrs. destruct (reminders_sound db today rs Hrs) as [Hnd Hall].
  split; [exact Hnd |]. apply List.Forall_forall. exact Hall.
Qed.

Lemma collect_reminders_raises (today : date) (rows : list (Z * habit))
    (row : Z * habit) :
  In row rows ->
  reminder_of_row today row = Raise ValueError ->
  forall acc, collect_reminders today rows acc = Raise ValueError.
Proof.
  intros Hin Hrow. induction rows as [| x rest IH]; [destruct Hin |].
  intros acc. cbn [collect_reminders].
  destruct Hin as [-> | Hin]; [rewrite Hrow; reflexivity |].
  destruct (reminder_of_row today x) as [o | e] eqn:Hx.
  - cbn [mbind result_bind]. apply (IH Hin).
  - apply reminder_of_row_raises in Hx. subst e. reflexivity.
Qed.

(** X19. One active daily habit whose [last_completed] holds a text that
    is not empty and has a length that no spelling of a date has (not 7,
    8 or 10 bytes) makes [get_habit_reminders] raise [ValueError]: no
    reminder is returned for any habit. *)
Theorem unreadable_row_breaks_reminders (db : store) (today : date) (id : Z)
    (h : habit) (s : string) :
  valid_date today ->
  habits db !! id = Some h ->
  active h = 1 ->
  goal_frequency h = "daily" ->
  last_completed h = Some s ->
  s <> "" ->
  no_date_length s = true ->
  get_habit_reminders db today = Raise ValueError.
Proof.
  intros Ht Hh Ha Hg Hl Hne Hs. apply no_date_length_unreadable in Hs.
  unfold get_habit_reminders.
  apply (collect_reminders_raises today _ (id, h)).
  - apply selected_rows. auto.
  - unfold reminder_of_row, days_since_completion. rewrite Hl.
    rewrite eq_text_other.
    2:{ intros [= ->]. rewrite fromisoformat_isoformat in Hs by exact Ht.
        discriminate. }
    replace (truthy (Some s)) with true
      by (symmetry; cbn; apply negb_true_iff, String.eqb_neq; exact Hne).
    cbn [mbind option_bind]. rewrite Hs. reflexivity.
Qed.

(** X20. After a daily habit was completed today for the first time that
    day, [get_habit_reminders] holds no reminder for it. *)
Theorem completed_habit_gets_no_reminder (db : store) (today : date)
    (id : Z) (n : string) (h : habit) (rs : list reminder) :
  valid_date today ->
  habits db !! id = Some h ->
  goal_frequency h = "daily" ->
  (truthy (last_completed h) = false
   \/ exists s last, last_completed h = Some s
                     /\ fromisoformat s = Some last /\ last < today) ->
  get_habit_reminders (committed (complete_habit db today id n)) today
  = Ok rs ->
  Forall (fun r => r_habit_id r <> id) rs.
Proof.
  intros Ht Hh Hg Hfirst Hrs. unfold valid_date in Ht.
  assert (Hrow : exists h',
             habits (committed (complete_habit db today id n)) !! id = Some h'
             /\ last_completed h' = Some (isoformat today)).
  { destruct Hfirst as [Hl | (s & last & Hl & Hs & Hlast)].
    - rewrite (complete_daily_first db today id n h Hh Hg Hl).
      cbn [committed habits]. rewrite lookup_insert_eq. eauto.
    - pose proof (fromisoformat_valid s last Hs) as Hv.
      unfold valid_date in Hv.
      rewrite (complete_daily_parsed db today id n h s last) by (auto; lia).
      cbn [committed habits].
      destruct (Z.eqb_spec last (today - 1)).
      + rewrite lookup_insert_eq. eauto.
      + replace (last <? today - 1) with true by lia.
        rewrite lookup_insert_eq. eauto. }
  destruct Hrow as (h' & Hh' & Hl').
  apply List.Forall_forall. intros r Hr Hid.
  destruct (reminders_sound _ _ _ Hrs) as [_ Hall].
  destruct (Hall r Hr) as (h'' & Hh'' & _ & _ & Hne & _).
  rewrite Hid, Hh' in Hh''. injection Hh'' as <-. contradiction.
Qed.

End ReminderFacts.

Section ReminderWitnesses.
Import Streak.

Lemma reminders_only_for_due_habits_witness :
  get_habit_reminders Samples.two_habits Samples.nov3
  = Ok [mk_reminder 2 "stretch" 0 None
          "Ready to start 'stretch'? First step is the hardest!";
        mk_reminder 1 "exercise" 5 (Some 1)
          "'exercise' - keep that 5-day streak going! 🔥"]
  /\ NoDup [2; 1].
Proof.
  split; [reflexivity |].
  exact (proj1 (reminders_only_for_due_habits Samples.two_habits Samples.nov3
                  _ eq_refl)).
Defined.

Lemma unreadable_row_breaks_reminders_witness :
  get_habit_reminders Samples.unreadable_habits Samples.nov3
  = Raise ValueError.
Proof.
  exact (unreadable_row_breaks_reminders Samples.unreadable_habits
           Samples.nov3 2
           (Samples.stretch 0 (Some "yesterday")) "yesterday"
           nov3_valid eq_refl eq_refl eq_refl eq_refl
           ltac:(discriminate) eq_refl).
Defined.

Lemma completed_habit_gets_no_reminder_witness :
  Forall (fun r => r_habit_id r <> 1)
    [mk_reminder 2 "stretch" 0 None
       "Ready to start 'stretch'? First step is the hardest!"].
Proof.
  exact (completed_habit_gets_no_reminder Samples.two_habits Samples.nov3 1 ""
           (Samples.exercise 5 (Some "2026-11-02")) _ nov3_valid
           eq_refl eq_refl
           (or_intror (ex_intro _ "2026-11-02"
              (ex_intro _ 739922 (conj eq_refl (conj eq_refl eq_refl)))))
           eq_refl).
Defined.

End ReminderWitnesses.

Section StatusFacts.
Import Streak.

(** X21. After a first completion of the day of a daily habit, the
    [complete] command prints the line with the new streak, which is the
    old streak plus 1 when the last completion was the day before and 1
    otherwise; and [get_habit_status] reports that streak, today as the
    last completion and zero days since. *)
Theorem completion_is_reported (db : store) (today : date) (id : Z)
    (n : string) (h : habit) :
  valid_date today ->
  habits db !! id = Some h ->
  goal_frequency h = "daily" ->
  (truthy (last_completed h) = false
   \/ exists s last, last_completed h = Some s
                     /\ fromisoformat s = Some last /\ last < today) ->
  let streak :=
    match last_completed h ≫= fromisoformat with
    | Some last => if last =? today - 1 then streak_count h + 1 else 1
    | None => 1
    end in
  let db' := committed (complete_habit db today id n) in
  get_habit_status db' today id
  = Ok (Some (mk_status id (name h) (description h) streak
                (Some (isoformat today)) (goal_frequency h) (active h)
                (Some 0)))
  /\ command_complete db today id n
     = mk_outcome (Ok tt)
         ["✓ '" +:+ name h +:+ "' completed! Streak: " +:+ str_int streak
            +:+ " 🔥"]
         db'.
Proof.
  intros Ht Hh Hg Hfirst. cbn zeta.
  assert (Hiso : truthy (Some (isoformat today)) = true)
    by (apply (truthy_parsed _ today), fromisoformat_isoformat, Ht).
  assert (Hdone : exists f,
             (f = set_continue (isoformat today)
              \/ f = set_restart (isoformat today))
             /\ complete_habit db today id n
                = mk_outcome (Ok true) []
                    (mk_store (<[id := f h]> (habits db))
                              (habit_log db ++ [mk_log id n]))
             /\ streak_count (f h)
                = match last_completed h ≫= fromisoformat with
                  | Some last =>
                      if last =? today - 1 then streak_count h + 1 else 1
                  | None => 1
                  end).
  { unfold valid_date in Ht.
    destruct Hfirst as [Hl | (s & last & Hl & Hs & Hlast)].
    - exists (set_restart (isoformat today)).
      rewrite (complete_daily_first db today id n h Hh Hg Hl).
      split; [auto |]. split; [reflexivity |].
      destruct (truthy_false _ Hl) as [-> | ->]; reflexivity.
    - pose proof (fromisoformat_valid s last Hs) as Hv.
      unfold valid_date in Hv.
      rewrite (complete_daily_parsed db today id n h s last) by (auto; lia).
      rewrite Hl. cbn [mbind option_bind]. rewrite Hs.
      destruct (Z.eqb_spec last (today - 1)).
      + exists (set_continue (isoformat today)). auto.
      + replace (last <? today - 1) with true by lia.
        exists (set_restart (isoformat today)). auto. }
  destruct Hdone as (f & Hf & Hc & Hstreak).
  assert (Hstatus :
            get_habit_status (committed (complete_habit db today id n)) today id
            = Ok (Some (mk_status id (name h) (description h)
                          (streak_count (f h)) (Some (isoformat today))
                          (goal_frequency h) (active h) (Some 0)))).
  { rewrite Hc. cbn [committed]. unfold get_habit_status. cbn [habits].
    rewrite lookup_insert_eq. unfold days_since_completion.
    assert (Hl' : last_completed (f h) = Some (isoformat today))
      by (destruct Hf as [-> | ->]; reflexivity).
    rewrite Hl', Hiso. cbn [mbind option_bind].
    rewrite fromisoformat_isoformat by exact Ht.
    cbn [or_raise mbind result_bind]. unfold days_between.
    replace (today - today) with 0 by lia.
    destruct Hf as [-> | ->]; reflexivity. }
  rewrite <- Hstreak. split; [exact Hstatus |].
  unfold command_complete. rewrite Hstatus. rewrite Hc. reflexivity.
Qed.

Lemma completion_is_reported_witness :
  get_habit_status
    (committed (complete_habit Samples.two_habits Samples.nov3 1 ""))
    Samples.nov3 1
  = Ok (Some (mk_status 1 "exercise" "" 6 (Some "2026-11-03") "daily" 1
                (Some 0)))
  /\ command_complete Samples.two_habits Samples.nov3 1 ""
     = mk_outcome (Ok tt) ["✓ 'exercise' completed! Streak: 6 🔥"]
         (committed (complete_habit Samples.two_habits Samples.nov3 1 "")).
Proof.
  exact (completion_is_reported Samples.two_habits Samples.nov3 1 ""
           (Samples.exercise 5 (Some "2026-11-02")) nov3_valid
           eq_refl eq_refl
           (or_intror (ex_intro _ "2026-11-02"
              (ex_intro _ 739922 (conj eq_refl (conj eq_refl eq_refl)))))).
Defined.

(** X22. The status command shows "Days since: Never" for a habit that
    was completed today, as it does for a habit never completed; for a
    last completion on another day it shows the number of days. *)
Theorem status_shows_never_for_today (db : store) (today : date) (id : Z)
    (h : habit) :
  valid_date today ->
  habits db !! id = Some h ->
  let lines last_line days_line :=
    [String "010"%char ("=== " +:+ name h +:+ " ===");
     "Description: " +:+ (if String.eqb (description h) "" then "None"
                          else description h);
     "Streak: " +:+ str_int (streak_count h) +:+ " days";
     "Frequency: " +:+ goal_frequency h;
     "Last completed: " +:+ last_line;
     "Days since: " +:+ days_line;
     "Active: " +:+ str_int (active h)] in
  (last_completed h = Some (isoformat today) ->
   command_status db today id = Ok (lines (isoformat today) "Never"))
  /\ (truthy (last_completed h) = false ->
      command_status db today id = Ok (lines "Never" "Never"))
  /\ (forall s last,
        last_completed h = Some s -> fromisoformat s = Some last ->
        last <> today ->
        command_status db today id = Ok (lines s (str_int (today - last)))).
Proof.
  intros Ht Hh lines. unfold command_status, get_habit_status.
  rewrite Hh. unfold days_since_completion.
  assert (Hdesc : text_or (Some (description h)) "None"
                  = if String.eqb (description h) "" then "None"
                    else description h).
  { unfold text_or. cbn. destruct (String.eqb (description h) ""); reflexivity. }
  split; [| split].
  - intros Hl. rewrite Hl.
    rewrite (truthy_parsed _ today (fromisoformat_isoformat _ Ht)).
    cbn [mbind option_bind]. rewrite fromisoformat_isoformat by exact Ht.
    cbn [or_raise mbind result_bind st_name st_description st_streak_count
           st_last_completed st_goal_frequency st_active
           st_days_since_completion].
    rewrite Hdesc. unfold text_or, days_between.
    rewrite (truthy_parsed _ today (fromisoformat_isoformat _ Ht)).
    replace (today - today =? 0) with true by lia. reflexivity.
  - intros Hl. rewrite Hl.
    cbn [mbind result_bind st_name st_description st_streak_count
           st_last_completed st_goal_frequency st_active
           st_days_since_completion].
    rewrite Hdesc. unfold text_or. rewrite Hl. reflexivity.
  - intros s last Hl Hs Hne. rewrite Hl.
    rewrite (truthy_parsed s last Hs). cbn [mbind option_bind]. rewrite Hs.
    cbn [or_raise mbind result_bind st_name st_description st_streak_count
           st_last_completed st_goal_frequency st_active
           st_days_since_completion].
    rewrite Hdesc. unfold text_or, days_between.
    rewrite (truthy_parsed s last Hs).
    replace (today - last =? 0) with false by lia. reflexivity.
Qed.

Lemma status_shows_never_for_today_witness :
  command_status (Samples.one_habit (Samples.exercise 6 (Some "2026-11-03")))
    Samples.nov3 1
  = Ok [String "010"%char "=== exercise ===";
        "Description: None";
        "Streak: 6 days";
        "Frequency: daily";
        "Last completed: 2026-11-03";
        "Days since: Never";
        "Active: 1"].
Proof.
  exact (proj1 (status_shows_never_for_today
                  (Samples.one_habit (Samples.exercise 6 (Some "2026-11-03")))
                  Samples.nov3 1 _ nov3_valid eq_refl)
               eq_refl).
Defined.

End StatusFacts.

Section UpdateFacts.
Import Streak.

Variable constraint_error : gmap Z habit -> option string.

(** The ways a call of [update_habit] can end. *)
Lemma update_habit_cases (db : store) (id : Z) (name description : option string)
    (active : option bool) (goal_frequency : option string) :
  let o := update_habit constraint_error db id name description active
             goal_frequency in
  (exists line, o = mk_outcome (Ok false) [line] db)
  \/ o = mk_outcome (Ok true) []
           (mk_store
              (alter (apply_updates name description active goal_frequency)
                     id (habits db))
              (habit_log db)).
Proof.
  cbn zeta. unfold update_habit, update_habit_row.
  destruct name, description, active, goal_frequency;
    cbn [habits]; try (destruct (constraint_error _); eauto).
  eauto.
Qed.

(** X23. For an id that SQLite can bind: [update_habit] without any
    field returns [False] and says so.  With a field given, it returns
    [True] and prints nothing when the schema accepts the table that the
    statement leaves.  Whenever it does not return [True] the store is as
    it was.  It never touches the log, another habit, or the streak count
    and the last completion of any habit.  On success the habit [id]
    holds every field that was given, the active flag as 1 or 0, and
    keeps every field that was not given. *)
Theorem update_changes_named_fields_only (db : store) (id : Z)
    (name description : option string) (active : option bool)
    (goal_frequency : option string) (j : Z) :
  sqlite_int id = true ->
  let o := update_habit constraint_error db id name description active
             goal_frequency in
  (name = None -> description = None -> active = None ->
   goal_frequency = None ->
   o = mk_outcome (Ok false) ["No updates specified"] db)
  /\ (~ (name = None /\ description = None /\ active = None
         /\ goal_frequency = None) ->
      constraint_error
        (alter (apply_updates name description active goal_frequency) id
               (habits db)) = None ->
      returned o = Ok true /\ printed o = [])
  /\ (returned o <> Ok true -> committed o = db)
  /\ habit_log (committed o) = habit_log db
  /\ (j <> id -> habits (committed o) !! j = habits db !! j)
  /\ match habits db !! j, habits (committed o) !! j with
     | Some h, Some h' =>
         streak_count h' = streak_count h
         /\ last_completed h' = last_completed h
         /\ (returned o = Ok true -> j = id ->
             Streak.name h' = default (Streak.name h) name
             /\ Streak.description h'
                = default (Streak.description h) description
             /\ Streak.goal_frequency h'
                = default (Streak.goal_frequency h) goal_frequency
             /\ Streak.active h'
                = match active with
                  | Some true => 1
                  | Some false => 0
                  | None => Streak.active h
                  end)
         /\ (returned o <> Ok true \/ j <> id -> h' = h)
     | None, None => True
     | _, _ => False
     end.
Proof.
  intros _. cbn zeta. split.
  { intros -> -> -> ->. reflexivity. }
  split.
  { intros Hgiven Hschema. unfold update_habit, update_habit_row.
    cbn [habits]. rewrite Hschema.
    destruct name, description, active, goal_frequency;
      try (split; reflexivity).
    exfalso. apply Hgiven. auto. }
  destruct (update_habit_cases db id name description active goal_frequency)
    as [[line ->] | ->]; cbn [returned committed habits habit_log].
  - split; [reflexivity |]. split; [reflexivity |]. split; [reflexivity |].
    destruct (habits db !! j); [| exact I].
    split; [reflexivity |]. split; [reflexivity |].
    split; [discriminate | reflexivity].
  - split; [congruence |]. split; [reflexivity |].
    split; [intros Hj; apply lookup_alter_ne; congruence |].
    destruct (decide (j = id)) as [-> | Hj].
    + rewrite lookup_alter_eq. destruct (habits db !! id) as [h |]; cbn;
        [| exact I].
      split; [reflexivity |]. split; [reflexivity |]. split.
      * intros _ _. destruct active as [[] |]; auto.
      * intros [Hc | Hc]; congruence.
    + rewrite lookup_alter_ne by congruence.
      destruct (habits db !! j); [| exact I].
      split; [reflexivity |]. split; [reflexivity |].
      split; [congruence | reflexivity].
Qed.

(** X24. After [update_habit] has deactivated a habit,
    [get_habit_reminders] holds no reminder for it. *)
Theorem deactivated_habit_gets_no_reminder (db : store) (today : date)
    (id : Z) (rs : list reminder) :
  let o := update_habit constraint_error db id None None (Some false) None in
  returned o = Ok true ->
  get_habit_reminders (committed o) today = Ok rs ->
  Forall (fun r => r_habit_id r <> id) rs.
Proof.
  cbn zeta. intros Hok Hrs.
  destruct (update_habit_cases db id None None (Some false) None)
    as [[line Ho] | Ho]; rewrite Ho in Hok, Hrs; [discriminate |].
  cbn [committed] in Hrs.
  apply List.Forall_forall. intros r Hr Hid.
  destruct (reminders_sound _ _ _ Hrs) as [_ Hall].
  destruct (Hall r Hr) as (h & Hh & Ha & _).
  cbn [habits] in Hh. rewrite Hid, lookup_alter_eq in Hh.
  destruct (habits db !! id) as [h0 |]; [| discriminate].
  cbn in Hh. injection Hh as <-. cbn in Ha. discriminate.
Qed.

End UpdateFacts.

Section UpdateWitnesses.
Import Streak.

(** Renaming and deactivating habit 1 of two, under a schema that accepts
    every table. *)
Lemma update_changes_named_fields_only_witness :
  update_habit (fun _ => None) Samples.two_habits 1 (Some "run") None
    (Some false) None
  = mk_outcome (Ok true) []
      (mk_store
         (<[ 1 := mk_habit "run" "" 5 (Some "2026-11-02") "daily" 0 ]>
            (habits Samples.two_habits))
         (habit_log Samples.two_habits))
  /\ returned (update_habit (fun _ => None) Samples.two_habits 1 (Some "run")
                 None (Some false) None) = Ok true.
Proof.
  split; [vm_compute; reflexivity |].
  refine (proj1 (proj1 (proj2 (update_changes_named_fields_only
                                 (fun _ => None) Samples.two_habits 1
                                 (Some "run") None (Some false) None 1
                                 eq_refl)) _ eq_refl)).
  intros [Hname _]. discriminate Hname.
Defined.

Lemma deactivated_habit_gets_no_reminder_witness :
  Forall (fun r => r_habit_id r <> 1)
    [mk_reminder 2 "stretch" 0 None
       "Ready to start 'stretch'? First step is the hardest!"].
Proof.
  exact (deactivated_habit_gets_no_reminder (fun _ => None) Samples.two_habits
           Samples.nov3 1 _ eq_refl eq_refl).
Defined.

End UpdateWitnesses.

(* ===================================================================== *)
(** * Facts about the stored focus sessions *)
(* ===================================================================== *)

Section SessionFacts.
Import Focus.

Variable datetime_fromisoformat : string -> option parsed_datetime.

Lemma ltb_le (x y : string) : String.ltb x y = true -> String.le x y.
Proof.
  unfold String.ltb, String.le, String.leb.
  destruct (String.compare x y); [discriminate | intros _; exact I | discriminate].
Qed.

Lemma not_ltb_le (x y : string) : String.ltb x y = false -> String.le y x.
Proof.
  unfold String.ltb, String.le, String.leb.
  rewrite (String.compare_antisym y x).
  destruct (String.compare x y); cbn; [intros _; exact I | discriminate |
                                        intros _; exact I].
Qed.

Lemma later_start_cases (a b : Z * session) :
  (later_start a b = a \/ later_start a b = b)
  /\ String.le (start_time a.2) (start_time (later_start a b).2)
  /\ String.le (start_time b.2) (start_time (later_start a b).2).
Proof.
  unfold later_start.
  destruct (String.ltb (start_time a.2) (start_time b.2)) eqn:Hlt.
  - split; [auto |]. split; [exact (ltb_le _ _ Hlt) |].
    apply (reflexivity (R := String.le)).
  - split; [auto |]. split; [apply (reflexivity (R := String.le)) |].
    exact (not_ltb_le _ _ Hlt).
Qed.

Lemma fold_later_start (l : list (Z * session)) :
  forall r,
    In (fold_left later_start l r) (r :: l)
    /\ forall x, In x (r :: l) ->
         String.le (start_time x.2)
                   (start_time (fold_left later_start l r).2).
Proof.
  induction l as [| y l IH]; intros r; cbn [fold_left].
  - split; [left; reflexivity |].
    intros x [<- | []]. apply (reflexivity (R := String.le)).
  - destruct (IH (later_start r y)) as [Hin Hmax].
    destruct (later_start_cases r y) as (Hcase & Hr & Hy).
    split.
    + destruct Hin as [Hin | Hin]; [| right; right; exact Hin].
      rewrite <- Hin. destruct Hcase as [-> | ->]; [left | right; left]; auto.
    + intros x [<- | [<- | Hx]].
      * eapply (transitivity (R := String.le)); [exact Hr |].
        apply Hmax. left. reflexivity.
      * eapply (transitivity (R := String.le)); [exact Hy |].
        apply Hmax. left. reflexivity.
      * apply Hmax. right. exact Hx.
Qed.

Lemma not_ended_rows (sessions : gmap Z session) (id : Z) (s : session) :
  In (id, s) (List.filter not_ended (map_to_list sessions))
  <-> sessions !! id = Some s /\ end_time s = None.
Proof.
  rewrite filter_In, <- list_elem_of_In, elem_of_map_to_list.
  unfold not_ended. cbn [snd].
  destruct (end_time s); intuition congruence.
Qed.

Lemma latest_active_some (sessions : gmap Z session) (id : Z) (s : session) :
  latest_active sessions = Some (id, s) ->
  sessions !! id = Some s /\ end_time s = None
  /\ forall j s', sessions !! j = Some s' -> end_time s' = None ->
       String.le (start_time s') (start_time s).
Proof.
  unfold latest_active.
  destruct (List.filter not_ended (map_to_list sessions)) as [| r rest] eqn:Hrows;
    [discriminate |].
  intros [= Hbest]. destruct (fold_later_start rest r) as [Hin Hmax].
  rewrite Hbest in Hin, Hmax. rewrite <- Hrows in Hin, Hmax.
  apply not_ended_rows in Hin. destruct Hin as [Hs He].
  split; [exact Hs |]. split; [exact He |].
  intros j s' Hs' He'. apply (Hmax (j, s')). apply not_ended_rows. auto.
Qed.

Lemma latest_active_none (sessions : gmap Z session) :
  latest_active sessions = None
  <-> forall id s, sessions !! id = Some s -> end_time s <> None.
Proof.
  unfold latest_active.
  destruct (List.filter not_ended (map_to_list sessions)) as [| [j s'] rest]
    eqn:Hrows.
  - split; [| reflexivity]. intros _ id s Hs He.
    assert (Hin : In (id, s) (List.filter not_ended (map_to_list sessions)))
      by (apply not_ended_rows; auto).
    rewrite Hrows in Hin. destruct Hin.
  - split; [discriminate |]. intros Hall. exfalso.
    assert (Hin : In (j, s') (List.filter not_ended (map_to_list sessions)))
      by (rewrite Hrows; left; reflexivity).
    apply not_ended_rows in Hin. destruct Hin as [Hs He].
    exact (Hall j s' Hs He).
Qed.

(** The whole minutes from [t0] to [now]. *)
Lemma whole_minutes_between (now t0 : datetime) :
  let a := int_of_float (minutes_between now t0) in
  (t0 <= now ->
   0 <= a /\ a * US_PER_MINUTE <= now - t0 < (a + 1) * US_PER_MINUTE)
  /\ (now <= t0 ->
      a <= 0 /\ (a - 1) * US_PER_MINUTE < now - t0 <= a * US_PER_MINUTE).
Proof.
  cbn zeta. set (x := minutes_between now t0).
  assert (Hle : forall n, (inject_Z n <= x)%Q <-> n * US_PER_MINUTE <= now - t0).
  { intros n. rewrite <- Qle_bool_iff. apply long_enough_iff. }
  assert (Hge : forall n, (x <= inject_Z n)%Q <-> now - t0 <= n * US_PER_MINUTE).
  { intros n. unfold x, minutes_between. rewrite Qred_correct.
    unfold Qle. cbn [Qnum Qden inject_Z].
    change (Z.pos (Z.to_pos US_PER_MINUTE)) with US_PER_MINUTE. lia. }
  split.
  - intros Hnow.
    destruct (int_of_float_nonneg x) as (H0 & Hlo & Hhi).
    { change 0%Q with (inject_Z 0). apply Hle. lia. }
    split; [exact H0 |]. split; [apply Hle; exact Hlo |].
    apply Z.lt_nge. intros Hc. apply Hle in Hc.
    exact (Qlt_not_le _ _ Hhi Hc).
  - intros Hnow.
    destruct (int_of_float_nonpos x) as (H0 & Hlo & Hhi).
    { change 0%Q with (inject_Z 0). apply Hge. lia. }
    split; [exact H0 |]. split; [| apply Hge; exact Hhi].
    apply Z.lt_nge. intros Hc. apply Hge in Hc.
    exact (Qlt_not_le _ _ Hlo Hc).
Qed.

(** X25. For a session id and an energy level that SQLite can bind (64
    bits with sign): [end_focus_session] on an id that is not in the
    table returns [False], says that the session was not found and leaves
    the table as it was.  On a session whose start time reads as a naive
    time [t0] it succeeds, whether or not the session had been ended
    before: the row gets the end time, the outcome, the energy level and
    the notes given, and as actual duration the whole minutes from [t0]
    to [now], rounded toward zero; its start, plan, task and energy
    before stay, and no other row changes. *)
Theorem ending_session_records_whole_minutes (sessions : gmap Z session)
    (now : datetime) (id : Z) (result_text : string) (level : option Z)
    (remark : string) :
  sqlite_int id = true ->
  (forall e, level = Some e -> sqlite_int e = true) ->
  (sessions !! id = None ->
   end_focus_session datetime_fromisoformat sessions now id result_text level
     remark
   = mk_session_result (Ok false)
       ["Session " +:+ str_int id +:+ " not found"] sessions)
  /\ forall s t0,
       sessions !! id = Some s ->
       datetime_fromisoformat (start_time s) = Some (Naive t0) ->
       let a := int_of_float (minutes_between now t0) in
       end_focus_session datetime_fromisoformat sessions now id result_text
         level remark
       = mk_session_result (Ok true) []
           (<[id := mk_session (start_time s) (planned_duration s)
                      (session_task_name s) (energy_before s)
                      (Some (datetime_isoformat now)) (Some a)
                      (Some result_text) level (Some remark)]> sessions)
       /\ (t0 <= now ->
           0 <= a /\ a * US_PER_MINUTE <= now - t0 < (a + 1) * US_PER_MINUTE)
       /\ (now <= t0 ->
           a <= 0
           /\ (a - 1) * US_PER_MINUTE < now - t0 <= a * US_PER_MINUTE).
Proof.
  intros _ _. split.
  { intros Hs. unfold end_focus_session. rewrite Hs. reflexivity. }
  intros s t0 Hs Ht0. cbn zeta. split; [| apply whole_minutes_between].
  unfold end_focus_session, minutes_since. rewrite Hs, Ht0.
  cbn [or_raise mbind result_bind naive_of]. f_equal.
  apply map_eq. intros j. rewrite lookup_alter, lookup_insert.
  destruct (decide (id = j)) as [<- |]; [rewrite Hs |]; reflexivity.
Qed.

(** X26. A session that [end_focus_session] has ended is never the one
    that [get_active_session] returns. *)
Theorem ended_session_is_not_active (sessions : gmap Z session)
    (now now' : datetime) (id : Z) (result_text : string) (level : option Z)
    (remark : string) (a : active_session) :
  let o := end_focus_session datetime_fromisoformat sessions now id
             result_text level remark in
  session_returned o = Ok true ->
  get_active_session datetime_fromisoformat (session_committed o) now'
  = Ok (Some a) ->
  active_id a <> id.
Proof.
  cbn zeta. unfold end_focus_session.
  destruct (sessions !! id) as [s |] eqn:Hs; [| discriminate].
  destruct (minutes_since _ _ _) as [d |]; [| discriminate].
  cbn [session_returned session_committed]. intros _.
  unfold get_active_session.
  destruct (latest_active _) as [[j row] |] eqn:Hlatest; [| discriminate].
  apply latest_active_some in Hlatest. destruct Hlatest as (Hj & He & _).
  destruct (minutes_since _ _ _); [| discriminate].
  cbn [mbind result_bind]. intros [= <-]. cbn [active_id]. intros ->.
  rewrite lookup_alter_eq, Hs in Hj. cbn in Hj. injection Hj as <-.
  discriminate.
Qed.

(** X27. [get_active_session] returns [None] exactly when every session
    of the table has an end time.  A session it returns is in the table
    and has no end time, no session without end time has a later start
    time as texts compare, and the elapsed minutes are the whole minutes
    since its start. *)
Theorem active_session_is_latest_not_ended (sessions : gmap Z session)
    (now : datetime) :
  (get_active_session datetime_fromisoformat sessions now = Ok None
   <-> forall id s, sessions !! id = Some s -> end_time s <> None)
  /\ forall a,
       get_active_session datetime_fromisoformat sessions now = Ok (Some a) ->
       exists s,
         sessions !! active_id a = Some s /\ end_time s = None
         /\ active_start_time a = start_time s
         /\ active_planned_duration a = planned_duration s
         /\ active_task_name a = session_task_name s
         /\ active_energy_before a = energy_before s
         /\ minutes_since datetime_fromisoformat now (start_time s)
            = Ok (elapsed_minutes a)
         /\ forall j s', sessions !! j = Some s' -> end_time s' = None ->
              String.le (start_time s') (start_time s).
Proof.
  unfold get_active_session. split.
  - rewrite <- latest_active_none.
    destruct (latest_active sessions) as [[j row] |]; [| tauto].
    split; [| discriminate].
    destruct (minutes_since _ _ _); discriminate.
  - intros a.
    destruct (latest_active sessions) as [[j row] |] eqn:Hlatest;
      [| discriminate].
    apply latest_active_some in Hlatest. destruct Hlatest as (Hj & He & Hmax).
    destruct (minutes_since _ _ _) as [d |] eqn:Hd; [| discriminate].
    cbn [mbind result_bind]. intros [= <-]. exists row. cbn. auto 10.
Qed.

End SessionFacts.

Section SessionWitnesses.
Import Focus.

Lemma ended_session_is_not_active_witness :
  active_id (mk_active 1 "2026-11-03T09:00:00" 150 90 "writing" (Some 6)) <> 2.
Proof.
  exact (ended_session_is_not_active Samples.sample_parse Samples.two_sessions
           (Samples.at_time 11 0) (Samples.at_time 11 30) 2 "completed"
           (Some 7) "" _ eq_refl eq_refl).
Defined.

(** No session 9 in the table; and session 1, begun at 09:00, ended at
    10:30 and 40 seconds with energy 7: ninety whole minutes. *)
Lemma ending_session_records_whole_minutes_witness :
  end_focus_session Samples.sample_parse Samples.two_sessions
    (Samples.at_time 10 30 + 40 * US_PER_SECOND) 9 "completed" (Some 7) "done"
  = mk_session_result (Ok false) ["Session 9 not found"] Samples.two_sessions
  /\ end_focus_session Samples.sample_parse Samples.two_sessions
       (Samples.at_time 10 30 + 40 * US_PER_SECOND) 1 "completed" (Some 7)
       "done"
     = mk_session_result (Ok true) []
         (<[ 1 := mk_session "2026-11-03T09:00:00" 90 "writing" (Some 6)
                    (Some "2026-11-03T10:30:40") (Some 90) (Some "completed")
                    (Some 7) (Some "done") ]> Samples.two_sessions).
Proof.
  assert (Hlevel : forall e, Some 7 = Some e -> sqlite_int e = true)
    by (intros e [= <-]; reflexivity).
  split.
  - exact (proj1 (ending_session_records_whole_minutes Samples.sample_parse
                    Samples.two_sessions
                    (Samples.at_time 10 30 + 40 * US_PER_SECOND) 9 "completed"
                    (Some 7) "done" eq_refl Hlevel) eq_refl).
  - exact (proj1 (proj2 (ending_session_records_whole_minutes
                           Samples.sample_parse Samples.two_sessions
                           (Samples.at_time 10 30 + 40 * US_PER_SECOND) 1
                           "completed" (Some 7) "done" eq_refl Hlevel)
                    Samples.writing (Samples.at_time 9 0) eq_refl eq_refl)).
Defined.

(** Ending the session of 09:00 at 10:30 and 40 seconds: ninety whole
    minutes. *)
Example end_after_ninety_minutes :
  end_focus_session Samples.sample_parse Samples.two_sessions
    (Samples.at_time 10 30 + 40 * US_PER_SECOND) 1 "completed" (Some 7) "done"
  = mk_session_result (Ok true) []
      (<[ 1 := mk_session "2026-11-03T09:00:00" 90 "writing" (Some 6)
                 (Some "2026-11-03T10:30:40") (Some 90) (Some "completed")
                 (Some 7) (Some "done") ]> Samples.two_sessions).
Proof. vm_compute. reflexivity. Qed.

(** With both sessions running, the one that started later is the active
    one. *)
Example later_session_is_active :
  get_active_session Samples.sample_parse Samples.two_sessions
    (Samples.at_time 10 45)
  = Ok (Some (mk_active 2 "2026-11-03T10:00:00" 45 90 "reviewing" None)).
Proof. vm_compute. reflexivity. Qed.

(** The fetch on the sample response: the meeting given in UTC is passed
    over, the one in naive local time is returned. *)
Example fetch_drops_utc_meeting :
  get_calendar_events Samples.sample_loads Samples.sample_parse
    (Completed 0 "good") (Samples.at_time 8 0) 12
  = [mk_event (Samples.at_time 9 0) (Samples.at_time 10 0)
       (JString "standup") (JString "")].
Proof. vm_compute. reflexivity. Qed.

(** A short meeting inside a long one: the gap finder offers the time
    between the short meeting and the next as free, although the long
    meeting covers it. *)
Example nested_meeting_is_offered :
  find_focus_opportunities
    [Samples.meeting "workshop" (Samples.at_time 9 0) (Samples.at_time 17 0);
     Samples.meeting "standup" (Samples.at_time 10 0) (Samples.at_time 10 30);
     Samples.meeting "review" (Samples.at_time 13 0) (Samples.at_time 14 0)]
    (Samples.at_time 9 30) 120
  = [mk_opportunity (Samples.at_time 10 30) (Samples.at_time 13 0) 150
       (Some (JString "standup")) (Some (JString "review"))].
Proof. vm_compute. reflexivity. Qed.

End SessionWitnesses.
